(** * xcube: index resolution, point extraction and tile rendering

    A shallow embedding of [xcube/api.py] (coordinate index resolution and
    point extraction) and of [xcube/core/tile.py] (tile rendering with its
    image cache), together with the properties that the specification
    states about them.

    Conventions of the embedding.
    - A Python exception is a value of [exn]; a function that may raise
      returns a [result].
    - [float64] numbers are exact rationals ([Q]); not-a-number only occurs
      where the code produces or tests it and is a constructor of its own.
      Rounding of IEEE arithmetic is not modelled.
    - [int64] and [uint64] numbers are integers with their wrap-around
      written out.
    - numpy, pandas and xarray are libraries, not code of this repository;
      the operations used by the code are modelled after their documented
      behaviour, each next to its first use. *)

From Stdlib Require Import ZArith QArith Qround List String Ascii Bool Lia Lqa.
From Stdlib Require Import HexString DecimalString.
From stdpp Require Import gmap strings.
Import ListNotations.

Local Open Scope Z_scope.
Local Open Scope string_scope.
Local Open Scope list_scope.

(** ** Exceptions and results *)

Inductive exn : Type :=
| ValueError (msg : string)
| TypeError (msg : string)
| IndexError (msg : string)
| KeyError (key : string)
| AssertionError.

Inductive result (A : Type) : Type :=
| Ok (a : A)
| Raise (e : exn).

Arguments Ok {A} a.
Arguments Raise {A} e.

Global Instance result_ret : MRet result := fun _ a => Ok a.
Global Instance result_bind : MBind result := fun _ _ k r =>
  match r with
  | Ok a => k a
  | Raise e => Raise e
  end.

Definition is_ok {A : Type} (r : result A) : bool :=
  match r with Ok _ => true | Raise _ => false end.

(** ** Text of messages *)

(** [str(n)] of a natural number. *)
Definition str_nat (n : nat) : string :=
  NilEmpty.string_of_uint (Nat.to_uint n).

(** [repr(s)] of a name that holds no quote, backslash or control
    character: the name between single quotes. *)
Definition repr_str (s : string) : string := "'" +:+ s +:+ "'".

(** ** Element types and arrays *)

Inductive dtype : Type := Float64 | Int64 | Uint64 | Datetime64.

Definition dtype_eqb (a b : dtype) : bool :=
  match a, b with
  | Float64, Float64 | Int64, Int64 | Uint64, Uint64
  | Datetime64, Datetime64 => true
  | _, _ => false
  end.

(** A numpy array as the code receives it from callers: element type and
    elements. The elements are numbers; an array that holds not-a-number
    is not among the values of this type. *)
Record ndarray : Type := mk_ndarray {
  nd_dtype : dtype;
  nd_data : list Q
}.

(** An [xr.DataArray]: dimension names, shape, element type, the [bounds]
    attribute, the chunk sizes of a chunked array, and the elements in
    row-major order. *)
Record DataArray (A : Type) : Type := mk_DataArray {
  da_dims : list string;
  da_shape : list nat;
  da_dtype : dtype;
  da_bounds_attr : option string;
  da_chunks : option (list (list nat));
  da_values : list A
}.

Arguments mk_DataArray {A}.
Arguments da_dims {A}.
Arguments da_shape {A}.
Arguments da_dtype {A}.
Arguments da_bounds_attr {A}.
Arguments da_chunks {A}.
Arguments da_values {A}.

Definition da_size {A : Type} (a : DataArray A) : nat :=
  fold_right Nat.mul 1%nat (da_shape a).

(** An element of a data variable or of an extracted column. *)
Inductive scalar : Type :=
| SNum (q : Q)
| SNaN.

(** An [xr.Dataset]: sizes of the dimensions, coordinate variables (bounds
    variables among them, where [new_cube] puts them) and data variables in
    their order of insertion. *)
Record Dataset : Type := mk_Dataset {
  ds_dims : list (string * nat);
  ds_coords : list (string * DataArray Q);
  ds_data_vars : list (string * DataArray scalar)
}.

Fixpoint assoc {A : Type} (k : string) (l : list (string * A)) : option A :=
  match l with
  | [] => None
  | (k', v) :: l' => if String.eqb k k' then Some v else assoc k l'
  end.

(** ** Integer arithmetic of numpy *)

Definition wrap_uint64 (z : Z) : Z := z mod 2 ^ 64.
Definition wrap_int64 (z : Z) : Z := (z + 2 ^ 63) mod 2 ^ 64 - 2 ^ 63.

(** [a - b] and [a + b] in arrays of element type [dt]. *)
Definition np_sub (dt : dtype) (a b : Q) : Q :=
  match dt with
  | Float64 => (a - b)%Q
  | Uint64 => inject_Z (wrap_uint64 (Qfloor a - Qfloor b))
  | Int64 | Datetime64 => inject_Z (wrap_int64 (Qfloor a - Qfloor b))
  end.

Definition np_add (dt : dtype) (a b : Q) : Q :=
  match dt with
  | Float64 => (a + b)%Q
  | Uint64 => inject_Z (wrap_uint64 (Qfloor a + Qfloor b))
  | Int64 | Datetime64 => inject_Z (wrap_int64 (Qfloor a + Qfloor b))
  end.

(** [a.astype(np.uint64)] on the elements of a [datetime64] array. *)
Definition astype_uint64 (l : list Q) : list Q :=
  map (fun q => inject_Z (wrap_uint64 (Qfloor q))) l.

(** The [float64] number nearest to an integer, ties to the even
    significand: an integer of more than 53 bits loses its low bits. *)
Definition float64_of_Z (z : Z) : Z :=
  let a := Z.abs z in
  let e := Z.log2 a - 52 in
  if Z.leb e 0 then z
  else
    let q := Z.shiftr a e in
    let r := a - Z.shiftl q e in
    let half := 2 ^ (e - 1) in
    let q :=
      if Z.ltb r half then q
      else if Z.ltb half r then q + 1
      else if Z.even q then q else q + 1 in
    Z.sgn z * Z.shiftl q e.

(** [a.astype(np.float64)] on an element of an array of type [dt]; the
    elements of a [datetime64] array are read as their integer counts. *)
Definition astype_float64 (dt : dtype) (q : Q) : Q :=
  match dt with
  | Float64 => q
  | Int64 | Uint64 | Datetime64 => inject_Z (float64_of_Z (Qfloor q))
  end.

(** [a.astype(np.int64)] on a float: truncation toward zero. *)
Definition astype_int64 (q : Q) : Z :=
  if Qlt_le_dec q 0 then Qceiling q else Qfloor q.

(** [np.diff(a)]. *)
Fixpoint np_diff (dt : dtype) (l : list Q) : list Q :=
  match l with
  | a :: ((b :: _) as l') => np_sub dt b a :: np_diff dt l'
  | _ => []
  end.

(** [np.linspace(start, stop, num)] *)
Definition linspace (start stop : Q) (num : nat) : list Q :=
  map (fun k : nat =>
         (start + inject_Z (Z.of_nat k)
                  * ((stop - start) / inject_Z (Z.of_nat (num - 1))))%Q)
      (seq 0 num).

(** ** [np.interp]

    The piecewise linear interpolant through the points [(xp, fp)], with
    [left] below [xp[0]] and [right] above [xp[-1]]. numpy requires [xp] to
    be increasing and locates the interval by bisection; on an increasing
    [xp] the scan below finds the same interval. The interpolant is
    computed on rationals, where numpy rounds each operation. *)
Fixpoint interp_search (x : Q) (xp fp : list Q) : Q :=
  match xp, fp with
  | x0 :: ((x1 :: _) as xp'), f0 :: ((f1 :: _) as fp') =>
      if Qlt_le_dec x x1
      then ((f1 - f0) / (x1 - x0) * (x - x0) + f0)%Q
      else interp_search x xp' fp'
  | _, f0 :: _ => f0
  | _, [] => 0%Q
  end.

Definition interp1 (xp fp : list Q) (left right : Q) (x : Q) : Q :=
  if Qlt_le_dec x (hd 0%Q xp) then left
  else if Qlt_le_dec (List.last xp 0%Q) x then right
  else interp_search x xp fp.

Definition np_interp (xs xp fp : list Q) (left right : Q)
  : result (list Q) :=
  match xp with
  | [] => Raise (ValueError "array of sample points is empty")
  | _ :: _ =>
      if negb (Nat.eqb (length xp) (length fp))
      then Raise (ValueError "fp and xp are not of the same length.")
      else Ok (map (interp1 xp fp left right) xs)
  end.

(** ** Coordinate index resolution ([xcube/api.py]) *)

Definition Qltb (a b : Q) : bool := if Qlt_le_dec a b then true else false.

Definition shape_eqb (a b : list nat) : bool :=
  bool_decide (a = b).

(** A data variable read where the code computes with coordinates. Its
    elements are taken as numbers; an element that is not a number has no
    counterpart among the rationals and is read as zero. *)
Definition number_of (s : scalar) : Q :=
  match s with
  | SNum q => q
  | SNaN => 0%Q
  end.

Definition as_numbers (var : DataArray scalar) : DataArray Q :=
  mk_DataArray (da_dims var) (da_shape var) (da_dtype var)
    (da_bounds_attr var) (da_chunks var) (map number_of (da_values var)).

(** The index coordinate that xarray makes up for a dimension that has no
    coordinate variable: [0, 1, ..., size - 1]. *)
Definition dimension_index (name : string) (size : nat) : DataArray Q :=
  mk_DataArray [name] [size] Int64 None None
    (map (fun k : nat => inject_Z (Z.of_nat k)) (seq 0 size)).

(** [name in dataset]: the name of a coordinate variable or of a data
    variable. *)
Definition ds_contains (ds : Dataset) (name : string) : bool :=
  match assoc name (ds_coords ds), assoc name (ds_data_vars ds) with
  | None, None => false
  | _, _ => true
  end.

(** [dataset[name]]: a coordinate variable, a data variable, or the index
    of a dimension without coordinate variable. *)
Definition ds_getitem (ds : Dataset) (name : string) : result (DataArray Q) :=
  match assoc name (ds_coords ds) with
  | Some var => Ok var
  | None =>
      match assoc name (ds_data_vars ds) with
      | Some var => Ok (as_numbers var)
      | None =>
          match assoc name (ds_dims ds) with
          | Some size => Ok (dimension_index name size)
          | None => Raise (KeyError name)
          end
      end
  end.

(** [var.attrs.get("bounds", var_name + "_bnds")] *)
Definition bounds_var_name (var : DataArray Q) (var_name : string)
  : string :=
  match da_bounds_attr var with
  | Some b => b
  | None => var_name +:+ "_bnds"
  end.

Definition _get_bounds_var (ds : Dataset) (var_name : string)
  : result (option (DataArray Q)) :=
  var ← ds_getitem ds var_name;
  if Nat.eqb (length (da_shape var)) 1 then
    let bounds_var_name := bounds_var_name var var_name in
    if ds_contains ds bounds_var_name then
      bounds_var ← ds_getitem ds bounds_var_name;
      if dtype_eqb (da_dtype bounds_var) (da_dtype var)
         && shape_eqb (da_shape bounds_var) [da_size var; 2%nat]
      then Ok (Some bounds_var)
      else Ok None
    else Ok None
  else Ok None.

(** The rows of an array of shape [(n, 2)]. *)
Fixpoint pair_rows (vs : list Q) : list (Q * Q) :=
  match vs with
  | a :: b :: vs' => (a, b) :: pair_rows vs'
  | _ => []
  end.

Definition swap_pair (p : Q * Q) : Q * Q := (snd p, fst p).

Fixpoint zip_with3 {A B C : Type} (f : A -> B -> C)
  (la : list A) (lb : list B) : list C :=
  match la, lb with
  | a :: la', b :: lb' => f a b :: zip_with3 f la' lb'
  | _, _ => []
  end.

(** [np.issubdtype(dt, np.int)]: true of the signed integers only. *)
Definition issubdtype_int (dt : dtype) : bool :=
  match dt with Int64 => true | _ => false end.

Definition is_datetime (dt : dtype) : bool :=
  match dt with Datetime64 => true | _ => false end.

(** The first part of [get_coord_indexes]: the [n1 + 1] cell edges
    [coords] of the coordinate variable, whether the axis is stored in
    decreasing order ([is_reversed]), and its size [n1]. *)
Definition coord_edges (ds : Dataset) (coord_var_name : string)
  : result (list Q * bool * nat) :=
  coord_var ← ds_getitem ds coord_var_name;
  let n1 := da_size coord_var in
  coord_bounds_var ← _get_bounds_var ds coord_var_name;
  match coord_bounds_var with
  | Some bounds_var =>
      let datetime := is_datetime (da_dtype bounds_var) in
      let dt := if datetime then Uint64 else da_dtype bounds_var in
      let coord_bounds :=
        pair_rows (if datetime then astype_uint64 (da_values bounds_var)
                   else da_values bounds_var) in
      match coord_bounds with
      | [] =>
          Raise (IndexError "index 0 is out of bounds for axis 0 with size 0")
      | (b00, b01) :: _ =>
          let is_reversed := Qltb (np_sub dt b01 b00) 0 in
          let coord_bounds :=
            if is_reversed then rev (map swap_pair coord_bounds)
            else coord_bounds in
          let coords :=
            map fst coord_bounds
              ++ [snd (List.last coord_bounds (0%Q, 0%Q))] in
          Ok (coords, is_reversed, n1)
      end
  | None =>
      if Nat.ltb 1 n1 then
        if negb (Nat.eqb (length (da_shape coord_var)) 1) then
          (* numpy fails on the rows of an array that is not 1-D *)
          Raise (ValueError "operands could not be broadcast together")
        else
          let datetime := is_datetime (da_dtype coord_var) in
          let dt := if datetime then Uint64 else da_dtype coord_var in
          let center_coords :=
            if datetime then astype_uint64 (da_values coord_var)
            else da_values coord_var in
          let is_reversed :=
            Qltb (np_sub dt (List.last center_coords 0%Q)
                            (hd 0%Q center_coords)) 0 in
          let center_coords :=
            if is_reversed then rev center_coords else center_coords in
          let diffs := np_diff dt center_coords in
          let d3 := List.last diffs 0%Q in
          let deltas := diffs ++ [d3; d3] in
          let coords :=
            center_coords
              ++ [np_add dt (List.last center_coords 0%Q) d3] in
          if issubdtype_int dt then
            Ok (zip_with3
                  (fun c d => np_sub dt c (inject_Z (Qfloor d / 2)))
                  coords deltas,
                is_reversed, n1)
          else
            match dt with
            | Float64 =>
                Ok (zip_with3 (fun c d => (c - (1 # 2) * d)%Q) coords deltas,
                    is_reversed, n1)
            | _ =>
                (* in-place subtraction of floats from unsigned integers *)
                Raise (TypeError
                  "Cannot cast ufunc subtract output from dtype('float64') to dtype('uint64') with casting rule 'same_kind'")
            end
      else
        Raise (ValueError
          ("cannot determine cell boundaries for coordinate variable "
             +:+ repr_str coord_var_name +:+ " of size " +:+ str_nat n1))
  end.

(** The query values as [np.interp] receives them: those of a [datetime64]
    array are reinterpreted as unsigned integers. *)
Definition query_values (coord_values : ndarray) : list Q :=
  if is_datetime (nd_dtype coord_values)
  then astype_uint64 (nd_data coord_values)
  else nd_data coord_values.

Definition get_coord_indexes (ds : Dataset) (coord_var_name : string)
  (coord_values : ndarray) (ret_fractions : bool)
  : result (list Z * option (list Q)) :=
  edges ← coord_edges ds coord_var_name;
  let '(coords, is_reversed, n1) := (edges : list Q * bool * nat) in
  let n2 := S n1 in
  let coord_values := query_values coord_values in
  let x := linspace 0 (inject_Z (Z.of_nat n1)) n2 in
  res ← np_interp coord_values coords x (-1) (-1);
  let indexes := map astype_int64 res in
  let upper_bound_hit := map (fun i => Z.leb (Z.of_nat n1) i) indexes in
  let indexes :=
    zip_with3 (fun (hit : bool) i => if hit then (Z.of_nat n1 - 1)%Z else i)
      upper_bound_hit indexes in
  if ret_fractions then
    let fractions := zip_with3 (fun r i => (r - inject_Z i)%Q) res indexes in
    let fractions :=
      zip_with3 (fun (hit : bool) f => if hit then 1%Q else f)
        upper_bound_hit fractions in
    if is_reversed
    then Ok (rev indexes, Some (rev fractions))
    else Ok (indexes, Some fractions)
  else
    if is_reversed then Ok (rev indexes, None) else Ok (indexes, None).

(** ** Cube verification ([xcube/api.py]) *)

Definition newline : string := String "010"%char "".
Definition dquote : string := String "034"%char "".

Fixpoint join (sep : string) (l : list string) : string :=
  match l with
  | [] => ""
  | [s] => s
  | s :: l' => s +:+ sep +:+ join sep l'
  end.

(** [repr] of a tuple of names. *)
Definition repr_names (l : list string) : string :=
  match l with
  | [] => "()"
  | [s] => "(" +:+ repr_str s +:+ ",)"
  | _ => "(" +:+ join ", " (map repr_str l) +:+ ")"
  end.

Definition repr_nats (l : list nat) : string :=
  match l with
  | [] => "()"
  | [n] => "(" +:+ str_nat n +:+ ",)"
  | _ => "(" +:+ join ", " (map str_nat l) +:+ ")"
  end.

(** [repr] of the chunk sizes of a variable, or of [None]. *)
Definition repr_chunks (c : option (list (list nat))) : string :=
  match c with
  | None => "None"
  | Some [] => "()"
  | Some [d] => "(" +:+ repr_nats d +:+ ",)"
  | Some l => "(" +:+ join ", " (map repr_nats l) +:+ ")"
  end.

Definition str_Z (z : Z) : string :=
  match z with
  | Z0 => "0"
  | Zpos p => str_nat (Pos.to_nat p)
  | Zneg p => "-" +:+ str_nat (Pos.to_nat p)
  end.

Definition name_in {A : Type} (k : string) (l : list (string * A)) : bool :=
  match assoc k l with Some _ => true | None => false end.

Definition names_eqb (a b : list string) : bool := bool_decide (a = b).

Definition chunks_eqb (a b : option (list (list nat))) : bool :=
  bool_decide (a = b).

Definition Qleb (a b : Q) : bool := if Qlt_le_dec b a then false else true.

Definition Qmin_list (l : list Q) : Q :=
  match l with
  | [] => 0%Q
  | a :: l' => fold_left (fun m q => if Qltb q m then q else m) l' a
  end.

Definition Qmax_list (l : list Q) : Q :=
  match l with
  | [] => 0%Q
  | a :: l' => fold_left (fun m q => if Qltb m q then q else m) l' a
  end.

(** [np.all(np.diff(a) > 0)] on [float64] numbers: a difference of two
    such numbers is rounded, but it is positive exactly when the exact
    difference is. *)
Fixpoint all_diff_positive (l : list Q) : bool :=
  match l with
  | a :: ((b :: _) as l') => Qltb 0 (b - a) && all_diff_positive l'
  | _ => true
  end.

Definition _check_dim (dataset : Dataset) (name : string)
  (report : list string) : result (list string) :=
  let report :=
    if negb (name_in name (ds_dims dataset))
    then report ++ ["missing dimension " +:+ repr_str name]
    else report in
  match assoc name (ds_dims dataset) with
  | None => Raise (KeyError name)
  | Some _ =>
      (* the size of a dimension is never negative *)
      Ok report
  end.

Definition _check_coord_var (dataset : Dataset) (name : string)
  (report : list string) : list string * option (DataArray Q) :=
  match assoc name (ds_coords dataset) with
  | None => (report ++ ["missing coordinate variable " +:+ repr_str name], None)
  | Some var =>
      if negb (names_eqb (da_dims var) [name]) then
        (report ++ ["coordinate variable " +:+ repr_str name
                    +:+ " must have a single dimension " +:+ repr_str name],
         None)
      else if Nat.eqb (da_size var) 0 then
        (report ++ ["coordinate variable " +:+ repr_str name
                    +:+ " must not be empty"], None)
      else (report, Some var)
  end.

(** The elements of an array are rationals, hence finite: the finiteness
    test of the source never fails here. *)
Definition _check_lon_or_lat (dataset : Dataset) (name : string)
  (min_value max_value : Z) (report : list string) : list string :=
  match _check_coord_var dataset name report with
  | (report, None) => report
  | (report, Some var) =>
      if Qltb (Qmin_list (da_values var)) (inject_Z min_value)
         || Qltb (inject_Z max_value) (Qmax_list (da_values var))
      then report ++ ["values of coordinate variable " +:+ repr_str name
                      +:+ " must be in the range " +:+ str_Z min_value
                      +:+ " to " +:+ str_Z max_value]
      else report
  end.

Definition _check_time (dataset : Dataset) (name : string)
  (report : list string) : list string :=
  match _check_coord_var dataset name report with
  | (report, None) => report
  | (report, Some var) =>
      let report :=
        if negb (is_datetime (da_dtype var))
        then report ++ ["type of coordinate variable " +:+ repr_str name
                        +:+ " must be datetime64"]
        else report in
      if negb (all_diff_positive
                 (map (astype_float64 (da_dtype var)) (da_values var)))
      then report ++ ["values of coordinate variable " +:+ repr_str name
                      +:+ " must be monotonic increasing"]
      else report
  end.

(** [dims[0] != "time" or dims[-2] != "lat" or dims[-1] != "lon"] on a
    tuple of at least three names. *)
Definition cube_dims_ok (dims : list string) : bool :=
  match dims, rev dims with
  | d0 :: _, dl :: dl2 :: _ :: _ =>
      String.eqb d0 "time" && String.eqb dl2 "lat" && String.eqb dl "lon"
  | _, _ => false
  end.

Fixpoint _check_data_variables_loop
  (vars : list (string * DataArray scalar))
  (first : option (string * DataArray scalar))
  (report : list string) : list string :=
  match vars with
  | [] => report
  | (var_name, var) :: vars' =>
      let dims := da_dims var in
      let chunks := da_chunks var in
      let report :=
        if negb (cube_dims_ok dims)
        then report ++ ["dimensions of data variable " +:+ repr_str var_name
                        +:+ " must be ('time', ..., 'lat', 'lon'), but were "
                        +:+ repr_names dims +:+ " for " +:+ repr_str var_name]
        else report in
      match first with
      | None => _check_data_variables_loop vars' (Some (var_name, var)) report
      | Some (first_name, first_var) =>
          let report :=
            if negb (names_eqb (da_dims first_var) dims)
            then report ++ ["dimensions of all data variables must be same, but found "
                            +:+ repr_names (da_dims first_var) +:+ " for "
                            +:+ repr_str first_name +:+ " and "
                            +:+ repr_names dims +:+ " for " +:+ repr_str var_name]
            else report in
          let report :=
            if negb (chunks_eqb (da_chunks first_var) chunks)
            then report ++ ["all data variables must have same chunk sizes, but found "
                            +:+ repr_chunks (da_chunks first_var) +:+ " for "
                            +:+ repr_str first_name +:+ " and "
                            +:+ repr_chunks chunks +:+ " for " +:+ repr_str var_name]
            else report in
          _check_data_variables_loop vars' first report
      end
  end.

Definition _check_data_variables (dataset : Dataset) (report : list string)
  : list string :=
  _check_data_variables_loop (ds_data_vars dataset) None report.

Definition verify_cube (dataset : Dataset) : result (list string) :=
  report ← _check_dim dataset "time" [];
  report ← _check_dim dataset "lat" report;
  report ← _check_dim dataset "lon" report;
  let report := _check_time dataset "time" report in
  let report := _check_lon_or_lat dataset "lat" (-90) 90 report in
  let report := _check_lon_or_lat dataset "lon" (-180) 180 report in
  Ok (_check_data_variables dataset report).

Definition assert_cube (dataset : Dataset) : result unit :=
  report ← verify_cube dataset;
  match report with
  | [] => Ok tt
  | _ :: _ =>
      Raise (ValueError
        ("Dataset is not a valid data cube, because:" +:+ newline
           +:+ "- " +:+ join (";" +:+ newline +:+ "- ") report +:+ "."))
  end.

(** ** Point extraction ([xcube/api.py]) *)

(** A [pd.DataFrame], or the mapping from names to arrays that one is made
    from: columns by name, in order. The columns of a [pd.DataFrame] have
    one length; those of a mapping need not. *)
Definition frame (A : Type) : Type := list (string * A).

Definition same_length_columns (points : frame ndarray) : bool :=
  match points with
  | [] => true
  | (_, c) :: rest =>
      forallb (fun p => Nat.eqb (length (nd_data (snd p)))
                                (length (nd_data c))) rest
  end.

(** [points if isinstance(points, pd.DataFrame) else pd.DataFrame(points)]:
    a frame is returned as it is, and pandas makes a frame of a mapping
    only when its arrays have one length. *)
Definition pd_DataFrame (points : frame ndarray) : result (frame ndarray) :=
  if same_length_columns points then Ok points
  else Raise (ValueError "arrays must all be same length").

Definition get_cube_dims (cube : Dataset) : option (list string) :=
  match ds_data_vars cube with
  | [] => None
  | (_, var) :: _ => Some (da_dims var)
  end.

Definition get_cube_chunks (cube : Dataset) : option (list (list nat)) :=
  match ds_data_vars cube with
  | [] => None
  | (_, var) :: _ => da_chunks var
  end.

Definition _get_cube_data_var_dims (cube : Dataset) : result (list string) :=
  match ds_data_vars cube with
  | [] => Raise (ValueError "cube dataset is empty")
  | (_, var) :: _ => Ok (da_dims var)
  end.

(** A loop whose body may raise. *)
Fixpoint for_each {S A : Type} (body : S -> A -> result S) (l : list A)
  (s : S) : result S :=
  match l with
  | [] => Ok s
  | a :: l' => s' ← body s a; for_each body l' s'
  end.

(** [np.stack(arrays, axis=-1)] on 1-D arrays: the rows of the table whose
    columns are [arrays]. *)
Definition np_stack (arrays : list (list Z)) : result (list (list Z)) :=
  match arrays with
  | [] => Raise (ValueError "need at least one array to stack")
  | a :: rest =>
      if forallb (fun b => Nat.eqb (length b) (length a)) rest
      then Ok (map (fun i => map (fun col => nth i col 0%Z) arrays)
                   (seq 0 (length a)))
      else Raise (ValueError "all input arrays must have the same shape")
  end.

(** [a[index]] for a tuple [index] of integers on an array of the given
    shape: the position of the element in row-major order. Every index
    must lie in [[-n, n)] for its axis of length [n]; a negative index
    counts from the end. *)
Fixpoint flat_index (shape : list nat) (index : list Z) (offset : nat)
  : result nat :=
  match shape, index with
  | [], [] => Ok offset
  | n :: shape', i :: index' =>
      if (Z.leb (- Z.of_nat n) i && Z.ltb i (Z.of_nat n))%bool
      then
        let i' := if Z.ltb i 0 then (i + Z.of_nat n)%Z else i in
        flat_index shape' index' (offset * n + Z.to_nat i')
      else Raise (IndexError "index is out of bounds for axis")
  | [], _ :: _ => Raise (IndexError "too many indices for array")
  | _ :: _, [] =>
      (* the element selected is an array, which no scalar slot takes *)
      Raise (ValueError "setting an array element with a sequence.")
  end.

Definition np_getitem (var : DataArray scalar) (index : list Z)
  : result scalar :=
  offset ← flat_index (da_shape var) index 0;
  match da_values var !! offset with
  | Some v => Ok v
  | None => Raise (IndexError "index is out of bounds for axis")
  end.

(** [a[i] = np.nan] on an array of element type [dt]. *)
Definition nan_for (dt : dtype) : result scalar :=
  match dt with
  | Float64 => Ok SNaN
  | _ => Raise (ValueError "cannot convert float NaN to integer")
  end.

(** [var_values[j][i] = v] *)
Definition set_value (var_values : list (list scalar)) (j i : nat)
  (v : scalar) : list (list scalar) :=
  alter (fun col => <[i := v]> col) j var_values.

(** The body of the loop over the rows of [get_cube_values]: row [i] of
    every column of [var_values] is assigned. *)
Definition gather_row (vars : list (DataArray scalar)) (num_vars : nat)
  (row_indexes : list (list Z)) (var_values : list (list scalar)) (i : nat)
  : result (list (list scalar)) :=
  let row_index := nth i row_indexes [] in
  if existsb (Z.eqb (-1)) row_index then
    for_each
      (fun var_values j =>
         match vars !! j with
         | Some var =>
             v ← nan_for (da_dtype var);
             Ok (set_value var_values j i v)
         | None => Raise (IndexError "list index out of range")
         end)
      (seq 0 num_vars) var_values
  else
    for_each
      (fun var_values j =>
         match vars !! j with
         | Some var =>
             v ← np_getitem var row_index;
             Ok (set_value var_values j i v)
         | None => Raise (IndexError "list index out of range")
         end)
      (seq 0 num_vars) var_values.

Definition get_cube_values (cube : Dataset) (indexes : frame (list Z))
  (include_indexes cube_asserted : bool) : result (frame (list scalar)) :=
  _ ← (if cube_asserted then Ok tt else assert_cube cube);
  dims ← match get_cube_dims cube with
         | Some dims => Ok dims
         | None => Raise (TypeError "object of type 'NoneType' has no len()")
         end;
  _ ← for_each
        (fun (_ : unit) dim_name =>
           if negb (name_in dim_name indexes)
           then Raise (ValueError
                  ("missing dimension " +:+ repr_str dim_name
                     +:+ " in indexes"))
           else Ok tt)
        dims tt;
  (* chunks = get_cube_chunks(cube); chunks = None *)
  let index_arrays :=
    map (fun dim_name =>
           match assoc dim_name indexes with
           | Some col => col
           | None => []
           end) dims in
  row_indexes ← np_stack index_arrays;
  let num_rows := length row_indexes in
  let vars := map snd (ds_data_vars cube) in
  let var_names := map fst (ds_data_vars cube) in
  (* freshly allocated arrays; every element is assigned below *)
  let var_values := map (fun _ => replicate num_rows (SNum 0)) vars in
  let num_vars := length var_names in
  var_values ←
    for_each (gather_row vars num_vars row_indexes) (seq 0 num_rows)
      var_values;
  let values := combine var_names var_values in
  if include_indexes then
    (* pd.concat(values, indexes): the first argument of [pd.concat] must
       be a sequence of frames, not a frame *)
    Raise (TypeError
      ("first argument must be an iterable of pandas objects, you passed an object of type "
         +:+ dquote +:+ "DataFrame" +:+ dquote))
  else Ok values.

(** The column of [points] that holds the coordinates of a dimension. *)
Definition column_name (dim_name_mapping : option (list (string * string)))
  (dim_name : string) : string :=
  match dim_name_mapping with
  | Some mapping =>
      match assoc dim_name mapping with
      | Some c => c
      | None => dim_name
      end
  | None => dim_name
  end.

(** The body of the loop of [get_cube_point_indexes] over the dimensions;
    its state is [first_col_name] and the list [indexes]. *)
Definition point_indexes_step (cube : Dataset) (points : frame ndarray)
  (dim_name_mapping : option (list (string * string)))
  (st : option string * list (string * list Z)) (dim_name : string)
  : result (option string * list (string * list Z)) :=
  let '(first_col_name, indexes) := st in
  if negb (name_in dim_name (ds_coords cube)) then
    Raise (ValueError
      ("missing coordinate variable for dimension " +:+ repr_str dim_name))
  else
    let col_name := column_name dim_name_mapping dim_name in
    match assoc col_name points with
    | None =>
        Raise (ValueError
          ("column " +:+ repr_str col_name +:+ " not found in points"))
    | Some dim_col =>
        first ←
          match first_col_name with
          | None => Ok col_name
          | Some first_col_name =>
              let first_col_size :=
                match assoc first_col_name points with
                | Some c => length (nd_data c)
                | None => 0%nat
                end in
              let col_size := length (nd_data dim_col) in
              if negb (Nat.eqb first_col_size col_size) then
                Raise (ValueError
                  ("number of point coordinates must be same for all columns,"
                     +:+ " but found " +:+ str_nat first_col_size
                     +:+ " for column " +:+ repr_str first_col_name
                     +:+ " and " +:+ str_nat col_size
                     +:+ " for column " +:+ repr_str col_name))
              else Ok first_col_name
          end;
        r ← get_coord_indexes cube dim_name dim_col false;
        Ok (Some first, indexes ++ [(dim_name, fst r)])
    end.

(** The result is [pd.DataFrame(dict(indexes))]: one column per dimension,
    the names of the dimensions of a variable being distinct. *)
Definition get_cube_point_indexes (cube : Dataset) (points : frame ndarray)
  (dim_name_mapping : option (list (string * string)))
  (cube_asserted : bool) : result (frame (list Z)) :=
  _ ← (if cube_asserted then Ok tt else assert_cube cube);
  points ← pd_DataFrame points;
  dim_names ← _get_cube_data_var_dims cube;
  st ← for_each (point_indexes_step cube points dim_name_mapping)
         dim_names (None, []);
  Ok (snd st).

Definition get_cube_point_values (cube : Dataset) (points : frame ndarray)
  (include_indexes cube_asserted : bool) : result (frame (list scalar)) :=
  _ ← (if cube_asserted then Ok tt else assert_cube cube);
  indexes ← get_cube_point_indexes cube points None true;
  get_cube_values cube indexes include_indexes true.

(** ** Tile rendering ([xcube/core/tile.py])

    [MultiLevelDataset], the tiled images of [xcube.util.tiledimage] and
    the tile [Cache] are not part of the sources at hand, and the arrays
    are xarray's. The section takes what [get_ml_dataset_tile] uses of them
    as variables: a tiled image is the record of the arguments it was
    constructed from. *)

Section Tile.

Variable Array : Type.       (* xr.DataArray *)
Variable Label : Type.       (* the value of a non-spatial label *)
Variable Attr : Type.        (* the value of a variable attribute *)
Variable Grid : Type.        (* array.values *)
Variable Cache : Type.       (* xcube.util.cache.Cache *)
Variable Tile : Type.        (* an encoded tile *)

Variable array_ndim : Array -> nat.
Variable array_attrs : Array -> gmap string Attr.
Variable array_isel : Array -> list (string * Label) -> result Array.
Variable array_sel_nearest : Array -> list (string * Label) -> result Array.
Variable array_load : Array -> result unit.
Variable array_min : Array -> scalar.
Variable array_max : Array -> scalar.
Variable array_values : Array -> Grid.
Variable str_float : Q -> string.
Variable str_label : Label -> string.

Record TileGrid : Type := mk_TileGrid {
  tile_size : nat * nat;
  inv_y : bool
}.

(** A multi-level dataset: the identity [id(ml_dataset)] of the object, its
    number of levels, the variables of the dataset of each level and its
    tile grid. *)
Record MultiLevelDataset : Type := mk_MultiLevelDataset {
  ml_id : N;
  num_levels : nat;
  get_dataset : Z -> result (gmap string Array);
  tile_grid : TileGrid
}.

Inductive valid_range_value : Type :=
| RangeAttr (a : Attr)
| RangePair (valid_min valid_max : Attr).

Inductive TiledImage : Type :=
| NdarrayImage (array : Grid) (image_id : string) (tile_size : nat * nat)
    (trace_perf : bool)
| TransformArrayImage (source : TiledImage) (image_id : string)
    (flip_y force_masked : bool) (no_data_value : option Attr)
    (valid_range : option valid_range_value) (trace_perf : bool)
| ColorMappedRgbaImage (source : TiledImage) (image_id : string)
    (value_range : scalar * scalar) (cmap_name : option string)
    (encode : bool) (format : string) (tile_cache : option Cache)
    (trace_perf : bool)
| ColorMappedRgbaImage2 (array : Grid) (image_id : string)
    (tile_size : nat * nat) (cmap_range : scalar * scalar)
    (cmap_name : option string) (encode : bool) (format : string)
    (flip_y : bool) (no_data_value : option Attr)
    (valid_range : option valid_range_value) (tile_cache : option Cache)
    (trace_perf : bool).

Variable image_get_tile : TiledImage -> Z -> Z -> result Tile.

(** [str] of the arguments that enter the image identifier. *)
Definition str_opt_string (s : option string) : string :=
  match s with Some s => s | None => "None" end.

Definition str_opt_float (v : option scalar) : string :=
  match v with
  | None => "None"
  | Some SNaN => "nan"
  | Some (SNum q) => str_float q
  end.

(** [np.isnan(v)]; [None] is no number. *)
Definition isnan_type_error : exn :=
  TypeError
    "ufunc 'isnan' not supported for the input types, and the inputs could not be safely coerced to any supported types according to the casting rule ''safe''".

Definition np_isnan (v : option scalar) : result bool :=
  match v with
  | None => Raise isnan_type_error
  | Some SNaN => Ok true
  | Some (SNum _) => Ok false
  end.

(** The truth value of a mapping: an empty one is false, like [None]. *)
Definition cache_truthy (image_cache : option (gmap string TiledImage))
  : bool :=
  match image_cache with
  | Some m => negb (bool_decide (m = ∅))
  | None => false
  end.

Definition cache_contains (image_cache : option (gmap string TiledImage))
  (image_id : string) : bool :=
  match image_cache with
  | Some m => bool_decide (is_Some (m !! image_id))
  | None => false
  end.

(** [image_cache[image_id]], where there is such an entry. *)
Definition cache_lookup (image_cache : option (gmap string TiledImage))
  (image_id : string) : option TiledImage :=
  match image_cache with
  | Some m => m !! image_id
  | None => None
  end.

Definition tile_image_id (ml_dataset : MultiLevelDataset)
  (var_name : string) (z : Z) (labels : list (string * Label))
  (cmap_cbar : option string) (cmap_vmin cmap_vmax : option scalar)
  : string :=
  let ds_id := HexString.of_N (ml_id ml_dataset) in
  join "-"
    ([ds_id; str_Z z; var_name; str_opt_string cmap_cbar;
      str_opt_float cmap_vmin; str_opt_float cmap_vmax]
       ++ map (fun '(dim_name, dim_value) =>
                 dim_name +:+ "=" +:+ str_label dim_value) labels).

(** The 2-D array to render: [var] itself, or the selection that the
    labels make in it. *)
Definition select_plane (var : Array) (var_name : string)
  (labels : list (string * Label)) (labels_are_indices : bool)
  (exception_type : string -> exn) : result Array :=
  if Nat.eqb (array_ndim var) 2 then
    if Nat.eqb (length labels) 0 then Ok var else Raise AssertionError
  else if Nat.ltb 2 (array_ndim var) then
    if Nat.eqb (length labels) (array_ndim var - 2) then
      if labels_are_indices then array_isel var labels
      else array_sel_nearest var labels
    else Raise AssertionError
  else
    Raise (exception_type
      ("Variable " +:+ dquote +:+ var_name +:+ dquote
         +:+ " of dataset " +:+ dquote +:+ var_name +:+ dquote
         +:+ " must be an N-D Dataset with N >= 2, but "
         +:+ dquote +:+ var_name +:+ dquote +:+ " is only "
         +:+ str_nat (array_ndim var) +:+ "-D")).

(** The range of values that the colour bar spans. *)
Definition normalization_range (array : Array)
  (cmap_vmin cmap_vmax : option scalar) : result (scalar * scalar) :=
  vmin_nan ← np_isnan cmap_vmin;
  let cmap_vmin :=
    if (vmin_nan : bool) then array_min array else default SNaN cmap_vmin in
  vmax_nan ← np_isnan cmap_vmax;
  let cmap_vmax :=
    if (vmax_nan : bool) then array_max array else default SNaN cmap_vmax in
  Ok (cmap_vmin, cmap_vmax).

(** The branch of [get_ml_dataset_tile] that constructs the tiled image
    when the image cache holds none for [image_id]. *)
Definition new_tile_image (ml_dataset : MultiLevelDataset)
  (var : Array) (var_name image_id : string)
  (labels : list (string * Label)) (labels_are_indices : bool)
  (cmap_cbar : option string) (cmap_vmin cmap_vmax : option scalar)
  (tile_cache : option Cache) (tile_comp_mode : Z) (trace_perf : bool)
  (exception_type : string -> exn) : result TiledImage :=
  let no_data_value := array_attrs var !! "_FillValue" in
  let valid_range :=
    match array_attrs var !! "valid_range" with
    | Some r => Some (RangeAttr r)
    | None =>
        match array_attrs var !! "valid_min", array_attrs var !! "valid_max" with
        | Some valid_min, Some valid_max =>
            Some (RangePair valid_min valid_max)
        | _, _ => None
        end
    end in
  array ← select_plane var var_name labels labels_are_indices exception_type;
  _ ← array_load array;
  range ← normalization_range array cmap_vmin cmap_vmax;
  let tile_grid := tile_grid ml_dataset in
  if Z.eqb tile_comp_mode 0 then
    let image :=
      NdarrayImage (array_values array) ("ndai-" +:+ image_id)
        (tile_size tile_grid) trace_perf in
    let image :=
      TransformArrayImage image ("tai-" +:+ image_id) (inv_y tile_grid)
        true no_data_value valid_range trace_perf in
    Ok (ColorMappedRgbaImage image ("rgb-" +:+ image_id)
          range cmap_cbar true "PNG" tile_cache trace_perf)
  else
    Ok (ColorMappedRgbaImage2 (array_values array) ("rgb-" +:+ image_id)
          (tile_size tile_grid) range cmap_cbar true "PNG"
          (inv_y tile_grid) no_data_value valid_range tile_cache trace_perf).

(** [get_ml_dataset_tile]: the tile, or the exception, together with the
    image cache as the call leaves it. Logging and time measurement are
    left out. *)
Definition get_ml_dataset_tile (ml_dataset : MultiLevelDataset)
  (var_name : string) (x y z : Z)
  (labels : option (list (string * Label))) (labels_are_indices : bool)
  (cmap_cbar : option string) (cmap_vmin cmap_vmax : option scalar)
  (image_cache : option (gmap string TiledImage))
  (tile_cache : option Cache) (tile_comp_mode : Z) (trace_perf : bool)
  (exception_type : string -> exn)
  : result Tile * option (gmap string TiledImage) :=
  match get_dataset ml_dataset (Z.of_nat (num_levels ml_dataset) - 1 - z) with
  | Raise e => (Raise e, image_cache)
  | Ok dataset =>
      match dataset !! var_name with
      | None => (Raise (KeyError var_name), image_cache)
      | Some var =>
          let labels := default [] labels in
          let image_id :=
            tile_image_id ml_dataset var_name z labels cmap_cbar
              cmap_vmin cmap_vmax in
          let cached :=
            if cache_truthy image_cache && cache_contains image_cache image_id
            then cache_lookup image_cache image_id
            else None in
          match cached with
          | Some image => (image_get_tile image x y, image_cache)
          | None =>
              match new_tile_image ml_dataset var var_name image_id labels
                      labels_are_indices cmap_cbar cmap_vmin cmap_vmax
                      tile_cache tile_comp_mode trace_perf exception_type
              with
              | Raise e => (Raise e, image_cache)
              | Ok image =>
                  let image_cache :=
                    if cache_truthy image_cache
                    then option_map (insert image_id image) image_cache
                    else image_cache in
                  (image_get_tile image x y, image_cache)
              end
          end
      end
  end.

End Tile.

Arguments tile_size : clear implicits.
Arguments mk_MultiLevelDataset {Array}.
Arguments ml_id {Array}.
Arguments num_levels {Array}.
Arguments get_dataset {Array}.
Arguments tile_grid {Array}.
Arguments RangeAttr {Attr}.
Arguments RangePair {Attr}.
Arguments NdarrayImage {Attr Grid Cache}.
Arguments TransformArrayImage {Attr Grid Cache}.
Arguments ColorMappedRgbaImage {Attr Grid Cache}.
Arguments ColorMappedRgbaImage2 {Attr Grid Cache}.
Arguments cache_truthy {Attr Grid Cache}.
Arguments cache_contains {Attr Grid Cache}.
Arguments cache_lookup {Attr Grid Cache}.
Arguments tile_image_id {Array Label}.
Arguments select_plane {Array Label}.
Arguments normalization_range {Array}.
Arguments new_tile_image {Array Label Attr Grid Cache}.
Arguments get_ml_dataset_tile {Array Label Attr Grid Cache Tile}.

(** * Notions used by the statements *)

Section CoordSpec.
Local Open Scope Q_scope.

(** Cell edges in strictly increasing order. *)
Fixpoint strictly_increasing (l : list Q) : Prop :=
  match l with
  | a :: ((b :: _) as l') => a < b /\ strictly_increasing l'
  | _ => True
  end.

(** What [get_coord_indexes] makes of one interpolated position [r] on an
    axis of size [n1]. *)
Definition index_of (n1 : nat) (r : Q) : Z :=
  if Z.leb (Z.of_nat n1) (astype_int64 r)
  then (Z.of_nat n1 - 1)%Z else astype_int64 r.

Definition fraction_of (n1 : nat) (r : Q) : Q :=
  if Z.leb (Z.of_nat n1) (astype_int64 r)
  then 1 else r - inject_Z (index_of n1 r).

Definition positions (coords : list Q) (n1 : nat) (cv : ndarray) : list Q :=
  map (interp1 coords (linspace 0 (inject_Z (Z.of_nat n1)) (S n1)) (-1) (-1))
      (query_values cv).

Definition orient {A : Type} (is_reversed : bool) (l : list A) : list A :=
  if is_reversed then rev l else l.

(** The resolution of one query value [v] against the cell [edges], as the
    specification words it. *)
Definition resolves (edges : list Q) (v : Q) (idx : Z) (frac : Q) : Prop :=
  let n := (length edges - 1)%nat in
  ((v < hd 0 edges \/ List.last edges 0 < v) -> idx = (-1)%Z) /\
  (v == List.last edges 0 -> idx = (Z.of_nat n - 1)%Z /\ frac == 1) /\
  (hd 0 edges <= v /\ v < List.last edges 0 ->
   exists i : nat,
     (i < n)%nat /\ idx = Z.of_nat i /\
     nth i edges 0 <= v /\ v < nth (S i) edges 0 /\
     frac == (v - nth i edges 0) / (nth (S i) edges 0 - nth i edges 0)).

(** The axis of the specification's example: [lat] with four cells and the
    bounds [[10,20],[20,30],[30,40],[40,50]]. *)
Definition lat_axis : Dataset :=
  mk_Dataset [("lat", 4%nat)]
    [("lat", mk_DataArray ["lat"] [4%nat] Float64 None None [15; 25; 35; 45]);
     ("lat_bnds",
      mk_DataArray ["lat"; "bnds"] [4%nat; 2%nat] Float64 None None
        [10; 20; 20; 30; 30; 40; 40; 50])]
    [].

(** The same cells stored in decreasing order. *)
Definition lat_axis_decreasing : Dataset :=
  mk_Dataset [("lat", 4%nat)]
    [("lat", mk_DataArray ["lat"] [4%nat] Float64 None None [45; 35; 25; 15]);
     ("lat_bnds",
      mk_DataArray ["lat"; "bnds"] [4%nat; 2%nat] Float64 None None
        [50; 40; 40; 30; 30; 20; 20; 10])]
    [].

(** An axis of a single cell without bounds. *)
Definition lat_single : Dataset :=
  mk_Dataset [("lat", 1%nat)]
    [("lat", mk_DataArray ["lat"] [1%nat] Float64 None None [15])]
    [].

(** The same cell with its bounds kept as a data variable. *)
Definition lat_single_data_bounds : Dataset :=
  mk_Dataset [("lat", 1%nat); ("bnds", 2%nat)]
    [("lat", mk_DataArray ["lat"] [1%nat] Float64 None None [15])]
    [("lat_bnds",
      mk_DataArray ["lat"; "bnds"] [1%nat; 2%nat] Float64 None None
        [SNum 10; SNum 20])].

(** A time axis of two cells around the start of 1970, the origin of
    [datetime64]: the cell edges are -100, 0 and 100. *)
Definition time_axis_around_1970 : Dataset :=
  mk_Dataset [("time", 2%nat)]
    [("time",
      mk_DataArray ["time"] [2%nat] Datetime64 None None [-50; 50]);
     ("time_bnds",
      mk_DataArray ["time"; "bnds"] [2%nat; 2%nat] Datetime64 None None
        [-100; 0; 0; 100])]
    [].

(** The same two cells 100 units later: the edges are 0, 100 and 200. *)
Definition time_axis_after_1970 : Dataset :=
  mk_Dataset [("time", 2%nat)]
    [("time",
      mk_DataArray ["time"] [2%nat] Datetime64 None None [50; 150]);
     ("time_bnds",
      mk_DataArray ["time"; "bnds"] [2%nat; 2%nat] Datetime64 None None
        [0; 100; 100; 200])]
    [].

(** A valid cube of one time step, two latitudes stored in decreasing
    order and one longitude, with the variable [v] holding 1 in the cell
    of latitude 30 and 2 in the cell of latitude 10. *)
Definition cube_decreasing_lat : Dataset :=
  mk_Dataset
    [("time", 1%nat); ("lat", 2%nat); ("lon", 1%nat)]
    [("time", mk_DataArray ["time"] [1%nat] Datetime64 None None [50]);
     ("time_bnds",
      mk_DataArray ["time"; "bnds"] [1%nat; 2%nat] Datetime64 None None
        [0; 100]);
     ("lat", mk_DataArray ["lat"] [2%nat] Float64 None None [30; 10]);
     ("lat_bnds",
      mk_DataArray ["lat"; "bnds"] [2%nat; 2%nat] Float64 None None
        [40; 20; 20; 0]);
     ("lon", mk_DataArray ["lon"] [1%nat] Float64 None None [5]);
     ("lon_bnds",
      mk_DataArray ["lon"; "bnds"] [1%nat; 2%nat] Float64 None None
        [0; 10])]
    [("v",
      mk_DataArray ["time"; "lat"; "lon"] [1%nat; 2%nat; 1%nat] Float64
        None None [SNum 1; SNum 2])].

(** The same cube with the latitudes stored in increasing order. *)
Definition cube_increasing_lat : Dataset :=
  mk_Dataset
    [("time", 1%nat); ("lat", 2%nat); ("lon", 1%nat)]
    [("time", mk_DataArray ["time"] [1%nat] Datetime64 None None [50]);
     ("time_bnds",
      mk_DataArray ["time"; "bnds"] [1%nat; 2%nat] Datetime64 None None
        [0; 100]);
     ("lat", mk_DataArray ["lat"] [2%nat] Float64 None None [10; 30]);
     ("lat_bnds",
      mk_DataArray ["lat"; "bnds"] [2%nat; 2%nat] Float64 None None
        [0; 20; 20; 40]);
     ("lon", mk_DataArray ["lon"] [1%nat] Float64 None None [5]);
     ("lon_bnds",
      mk_DataArray ["lon"; "bnds"] [1%nat; 2%nat] Float64 None None
        [0; 10])]
    [("v",
      mk_DataArray ["time"; "lat"; "lon"] [1%nat; 2%nat; 1%nat] Float64
        None None [SNum 2; SNum 1])].

(** The centre of the cell of latitude 30 of that cube. *)
Definition point_lat_30 : frame ndarray :=
  [("time", mk_ndarray Datetime64 [50]);
   ("lat", mk_ndarray Float64 [30]);
   ("lon", mk_ndarray Float64 [5])].

End CoordSpec.

(** ** Notions for the extraction of values *)

(** A row of indexes that holds the unresolved index -1. *)
Definition has_unresolved (row : list Z) : bool := existsb (Z.eqb (-1)) row.

(** What [get_cube_values] assigns for the index tuple [row] and the data
    variable [var]. *)
Definition cell (row : list Z) (var : DataArray scalar) : result scalar :=
  if has_unresolved row then nan_for (da_dtype var) else np_getitem var row.

Definition cell_value (row : list Z) (var : DataArray scalar) : scalar :=
  match cell row var with
  | Ok v => v
  | Raise _ => SNaN
  end.

Definition assign_cell (vars : list (DataArray scalar)) (row : list Z)
  (i : nat) (var_values : list (list scalar)) (j : nat)
  : result (list (list scalar)) :=
  match vars !! j with
  | Some var => v ← cell row var; Ok (set_value var_values j i v)
  | None => Raise (IndexError "list index out of range")
  end.

(** The index columns of the dimensions [dims] of a frame. *)
Definition index_columns (dims : list string) (indexes : frame (list Z))
  : list (list Z) :=
  map (fun dim_name =>
         match assoc dim_name indexes with
         | Some col => col
         | None => []
         end) dims.

(** The cube above with a variable of integer type. *)
Definition cube_integer_var : Dataset :=
  mk_Dataset (ds_dims cube_decreasing_lat) (ds_coords cube_decreasing_lat)
    [("n",
      mk_DataArray ["time"; "lat"; "lon"] [1%nat; 2%nat; 1%nat] Int64
        None None [SNum 1; SNum 2])].

(** A point outside the latitudes of that cube. *)
Definition point_lat_60 : frame ndarray :=
  [("time", mk_ndarray Datetime64 [50%Q]);
   ("lat", mk_ndarray Float64 [60%Q]);
   ("lon", mk_ndarray Float64 [5%Q])].

(** The message of the length-mismatch error. *)
Definition length_mismatch_message (first_col_size : nat)
  (first_col_name : string) (col_size : nat) (col_name : string) : string :=
  "number of point coordinates must be same for all columns,"
    +:+ " but found " +:+ str_nat first_col_size
    +:+ " for column " +:+ repr_str first_col_name
    +:+ " and " +:+ str_nat col_size
    +:+ " for column " +:+ repr_str col_name.

(** A point set whose latitude column is shorter than its time column. *)
Definition points_short_lat : frame ndarray :=
  [("time", mk_ndarray Datetime64 [50%Q; 50%Q]);
   ("lat", mk_ndarray Float64 [30%Q]);
   ("lon", mk_ndarray Float64 [5%Q; 5%Q])].

(** ** Notions for the statements about tiles *)

(** No character of the text is the separator [-] of the image
    identifier. *)
Fixpoint dash_free (s : string) : bool :=
  match s with
  | EmptyString => true
  | String c s' => negb (Ascii.eqb c "-"%char) && dash_free s'
  end.

(** A small stand-in for xarray, to run [get_ml_dataset_tile] on: an array
    is a [DataArray] of scalars, a selection by labels takes the leading
    plane, and the tile of an image is the identifier of the image. *)
Module Toy.

Definition ndim (a : DataArray scalar) : nat := length (da_shape a).

Definition attrs (a : DataArray scalar) : gmap string Q := ∅.

Definition select (a : DataArray scalar) (labels : list (string * Z))
  : result (DataArray scalar) :=
  let k := length labels in
  let shape := drop k (da_shape a) in
  Ok (mk_DataArray (drop k (da_dims a)) shape (da_dtype a) None None
        (take (fold_right Nat.mul 1%nat shape) (da_values a))).

Definition load (a : DataArray scalar) : result unit := Ok tt.

Definition numbers (a : DataArray scalar) : list Q :=
  flat_map (fun v => match v with SNum q => [q] | SNaN => [] end)
    (da_values a).

Definition min (a : DataArray scalar) : scalar :=
  match numbers a with [] => SNaN | _ => SNum (Qmin_list (numbers a)) end.

Definition max (a : DataArray scalar) : scalar :=
  match numbers a with [] => SNaN | _ => SNum (Qmax_list (numbers a)) end.

Definition values (a : DataArray scalar) : list scalar := da_values a.

Definition str_float (q : Q) : string :=
  str_Z (Qnum q) +:+ "/" +:+ str_nat (Pos.to_nat (Qden q)).

Definition image_id_of
  (image : TiledImage Q (list scalar) unit) : string :=
  match image with
  | NdarrayImage _ image_id _ _ => image_id
  | TransformArrayImage _ image_id _ _ _ _ _ => image_id
  | ColorMappedRgbaImage _ image_id _ _ _ _ _ _ => image_id
  | ColorMappedRgbaImage2 _ image_id _ _ _ _ _ _ _ _ _ _ => image_id
  end.

Definition get_tile (image : TiledImage Q (list scalar) unit) (x y : Z)
  : result string :=
  Ok (image_id_of image +:+ "/" +:+ str_Z x +:+ "/" +:+ str_Z y).

(** A variable of three axes and one of two. *)
Definition var3 : DataArray scalar :=
  mk_DataArray ["time"; "lat"; "lon"] [2%nat; 2%nat; 2%nat] Float64 None None
    [SNum 1; SNum 2; SNum 3; SNum 4; SNum 5; SNum 6; SNum 7; SNum 8].

Definition var2 : DataArray scalar :=
  mk_DataArray ["lat"; "lon"] [2%nat; 2%nat] Float64 None None
    [SNum 1; SNum 2; SNum 3; SNum 4].

Definition level_dataset : gmap string (DataArray scalar) :=
  <["sst" := var3]> (<["mask" := var2]> ∅).

(** Two dataset objects of identical content. *)
Definition ml_dataset_at (id : N) : MultiLevelDataset (DataArray scalar) :=
  mk_MultiLevelDataset id 1
    (fun _ => Ok level_dataset) (mk_TileGrid (256%nat, 256%nat) true).

(** A dataset object of other content: its variable [mask] holds other
    values. An object made after the object of some identity has been
    freed can get that identity. *)
Definition var2_other : DataArray scalar :=
  mk_DataArray ["lat"; "lon"] [2%nat; 2%nat] Float64 None None
    [SNum 5; SNum 6; SNum 7; SNum 8].

Definition level_dataset_other : gmap string (DataArray scalar) :=
  <["sst" := var3]> (<["mask" := var2_other]> ∅).

Definition ml_dataset_other_at (id : N)
  : MultiLevelDataset (DataArray scalar) :=
  mk_MultiLevelDataset id 1
    (fun _ => Ok level_dataset_other) (mk_TileGrid (256%nat, 256%nat) true).

Definition render (ml_dataset : MultiLevelDataset (DataArray scalar))
  (var_name : string) (x y z : Z) (labels : option (list (string * Z)))
  (labels_are_indices : bool) (cmap_vmin cmap_vmax : option scalar)
  (image_cache : option (gmap string (TiledImage Q (list scalar) unit)))
  : result string * option (gmap string (TiledImage Q (list scalar) unit)) :=
  get_ml_dataset_tile ndim attrs select select load min max values str_float str_Z get_tile
    ml_dataset var_name x y z labels labels_are_indices None
    cmap_vmin cmap_vmax image_cache None 0 false ValueError.

(** A cache that holds one image of another origin. *)
Definition seeded_cache
  : option (gmap string (TiledImage Q (list scalar) unit)) :=
  Some (<["seed" := NdarrayImage [] "seed" (1%nat, 1%nat) false]> ∅).

End Toy.

(** ** Notions for further statements *)


(** What a pass of the loop of [get_cube_point_indexes] adds for the
    dimension [d]: the indexes of the coordinates in the column of [d],
    under the name of the dimension. *)
Definition resolved_column (cube : Dataset) (points : frame ndarray)
  (mapping : option (list (string * string))) (d : string)
  (entry : string * list Z) : Prop :=
  fst entry = d /\
  exists c : ndarray,
    assoc (column_name mapping d) points = Some c /\
    get_coord_indexes cube d c false = Ok (snd entry, None).

(** A dimension that the loop of [get_cube_point_indexes] passes: it has a
    coordinate variable and a column, and the coordinates of the column
    are resolved without error. *)
Definition dimension_resolves (cube : Dataset) (points : frame ndarray)
  (mapping : option (list (string * string))) (d : string) : Prop :=
  name_in d (ds_coords cube) = true /\
  exists c : ndarray,
    assoc (column_name mapping d) points = Some c /\
    is_ok (get_coord_indexes cube d c false) = true.

(** The state of that loop names a column of the points, if any. *)
Definition first_column_found (points : frame ndarray)
  (st : option string * list (string * list Z)) : Prop :=
  match fst st with
  | Some first_col_name => name_in first_col_name points = true
  | None => True
  end.

(** ** What [verify_cube] asks of a dataset *)

Section CubeSpec.
Local Open Scope Q_scope.








(** A cube whose two time steps are one nanosecond apart, some 36 years
    after the origin of [datetime64]. *)
Definition cube_close_time_steps : Dataset :=
  mk_Dataset
    [("time", 2%nat); ("lat", 1%nat); ("lon", 1%nat)]
    [("time",
      mk_DataArray ["time"] [2%nat] Datetime64 None None
        [inject_Z (2 ^ 60); inject_Z (2 ^ 60 + 1)]);
     ("lat", mk_DataArray ["lat"] [1%nat] Float64 None None [10]);
     ("lon", mk_DataArray ["lon"] [1%nat] Float64 None None [5])]
    [].

End CubeSpec.

(** The first of the dimensions [time], [lat], [lon] that a dataset
    lacks. *)
Definition first_missing_dimension (ds : Dataset) : option string :=
  find (fun name => negb (name_in name (ds_dims ds))) ["time"; "lat"; "lon"].


(** ** What a tiled image was constructed from *)

(** The colour range of a colour-mapped image. *)
Definition image_value_range {Attr Grid Cache : Type}
  (image : TiledImage Attr Grid Cache) : option (scalar * scalar) :=
  match image with
  | ColorMappedRgbaImage _ _ value_range _ _ _ _ _ => Some value_range
  | ColorMappedRgbaImage2 _ _ _ cmap_range _ _ _ _ _ _ _ _ => Some cmap_range
  | _ => None
  end.

(** The array at the bottom of an image. *)
Fixpoint image_array {Attr Grid Cache : Type}
  (image : TiledImage Attr Grid Cache) : Grid :=
  match image with
  | NdarrayImage array _ _ _ => array
  | TransformArrayImage source _ _ _ _ _ _ => image_array source
  | ColorMappedRgbaImage source _ _ _ _ _ _ _ => image_array source
  | ColorMappedRgbaImage2 array _ _ _ _ _ _ _ _ _ _ _ => array
  end.

(** A bound of the colour range as [get_ml_dataset_tile] uses it: the
    number given, or the value [of_plane] taken from the plane where
    not-a-number is given. *)
Definition colour_bound (given of_plane : scalar) : scalar :=
  match given with
  | SNaN => of_plane
  | SNum _ => given
  end.

(** A dataset object whose only level holds a variable of one axis. *)
Definition profile_var : DataArray scalar :=
  mk_DataArray ["depth"] [3%nat] Float64 None None [SNum 1; SNum 2; SNum 3].

Definition ml_profile_dataset : MultiLevelDataset (DataArray scalar) :=
  mk_MultiLevelDataset 3000 1
    (fun _ => Ok (<["profile" := profile_var]> ∅))
    (mk_TileGrid (256%nat, 256%nat) true).

(** The images of a cache that holds one image of another origin. *)
Definition seeded_images : gmap string (TiledImage Q (list scalar) unit) :=
  <["seed" := NdarrayImage [] "seed" (1%nat, 1%nat) false]> ∅.

(** A time axis of three steps that has no bounds variable. *)
Definition time_centers : Dataset :=
  mk_Dataset [("time", 3%nat)]
    [("time",
      mk_DataArray ["time"] [3%nat] Datetime64 None None [10%Q; 20%Q; 30%Q])]
    [].

(** The exception of numpy's in-place subtraction of floats from unsigned
    integers. *)
Definition subtract_cast_error : exn :=
  TypeError
    "Cannot cast ufunc subtract output from dtype('float64') to dtype('uint64') with casting rule 'same_kind'".

(** ** Labels of the non-spatial dimensions ([xcube/core/tile.py])

    [parse_non_spatial_labels] turns the texts given for the dimensions of
    a variable other than its two spatial ones into the labels that select
    a plane. [float], [int] and [pd.to_datetime] are taken as they are,
    and so is [get_dataset_xy_var_names] of [xcube.core.schema], which is
    not part of the sources at hand. *)

Section Labels.

Variable Time : Type.    (* a point in time: np.datetime64, pd.Timestamp *)
Variable Other : Type.   (* a coordinate value of another element type *)

(** [float(s)] and [int(s)]: the number, or [None] where Python raises
    [ValueError]. *)
Variable float_of_str : string -> option scalar.
Variable int_of_str : string -> option Z.
Variable pd_to_datetime : string -> result Time.

(** [a + (b - a) / 2] on points in time. *)
Variable time_midpoint : Time -> Time -> Time.

(** The values of the 1-D coordinate variable of a dimension, by the kind
    of their element type: floating, integer, [datetime64], or another
    one, given with the [repr] of the type. *)
Inductive CoordValues : Type :=
| FloatCoords (values : list scalar)
| IntCoords (values : list Z)
| TimeCoords (values : list Time)
| OtherCoords (dtype_repr : string) (values : list Other).

Record CoordVar : Type := mk_CoordVar {
  cv_dims : list string;
  cv_values : CoordValues
}.

Inductive label_value : Type :=
| FloatValue (x : scalar)
| IntValue (z : Z)
| TimeValue (t : Time)
| OtherValue (o : Other).

(** A label: one value, or the [slice] from one value to another. *)
Inductive label : Type :=
| Single (v : label_value)
| Slice (start stop : label_value).

Variable get_dataset_xy_var_names :
  gmap string CoordVar -> option (string * string).

Definition coords_getitem (coords : gmap string CoordVar) (name : string)
  : result CoordVar :=
  match coords !! name with
  | Some var => Ok var
  | None => Raise (KeyError name)
  end.

(** [var.dims[0]] *)
Definition first_dim (var : CoordVar) : result string :=
  match cv_dims var with
  | d :: _ => Ok d
  | [] => Raise (IndexError "tuple index out of range")
  end.

(** [dim_var.values] *)
Definition coord_labels (var : CoordVar) : list label_value :=
  match cv_values var with
  | FloatCoords values => map FloatValue values
  | IntCoords values => map IntValue values
  | TimeCoords values => map TimeValue values
  | OtherCoords _ values => map OtherValue values
  end.

(** [dim_var.values[0]] and [dim_var.values[-1]] *)
Definition coord_first (var : CoordVar) : result label_value :=
  match coord_labels var with
  | v :: _ => Ok v
  | [] =>
      Raise (IndexError "index 0 is out of bounds for axis 0 with size 0")
  end.

Definition coord_last (var : CoordVar) : result label_value :=
  match coord_labels var with
  | v :: values => Ok (List.last values v)
  | [] =>
      Raise (IndexError "index -1 is out of bounds for axis 0 with size 0")
  end.

(** [label_str.split('/', maxsplit=1)] where ['/' in label_str]. *)
Fixpoint split_once (s : string) : option (string * string) :=
  match s with
  | EmptyString => None
  | String c s' =>
      if Ascii.eqb c "/"%char then Some (EmptyString, s')
      else match split_once s' with
           | Some (a, b) => Some (String c a, b)
           | None => None
           end
  end.

(** [tuple(map(f, label_strs))] for an [f] that may raise. *)
Fixpoint map_result {A B : Type} (f : A -> result B) (l : list A)
  : result (list B) :=
  match l with
  | [] => Ok []
  | a :: l' => b ← f a; bs ← map_result f l'; Ok (b :: bs)
  end.

Definition py_float (s : string) : result scalar :=
  match float_of_str s with
  | Some x => Ok x
  | None =>
      Raise (ValueError ("could not convert string to float: " +:+ repr_str s))
  end.

Definition py_int (s : string) : result Z :=
  match int_of_str s with
  | Some z => Ok z
  | None =>
      Raise (ValueError
        ("invalid literal for int() with base 10: " +:+ repr_str s))
  end.

(** The local function [to_datetime]; [dim_var[-1]] is taken as the last
    of [values]. *)
Definition to_datetime (values : list Time) (datetime_str : string)
  : result Time :=
  if String.eqb datetime_str "current" then
    match values with
    | t :: values' => Ok (List.last values' t)
    | [] =>
        Raise (IndexError "index -1 is out of bounds for axis 0 with size 0")
    end
  else pd_to_datetime datetime_str.

(** [labels[0] + (labels[1] - labels[0]) / 2] on floats. *)
Definition float_midpoint (a b : scalar) : scalar :=
  match a, b with
  | SNum x, SNum y => SNum (x + (y - x) / 2)%Q
  | _, _ => SNaN
  end.

(** [labels[0] + (labels[1] - labels[0]) // 2] on integers. *)
Definition int_midpoint (a b : Z) : Z := (a + (b - a) / 2)%Z.

(** The label made of the one or two parsed values. *)
Definition select_label {A : Type} (wrap : A -> label_value)
  (midpoint : A -> A -> A) (allow_slices : bool) (labels : list A)
  : result label :=
  match labels with
  | [a] => Ok (Single (wrap a))
  | a :: b :: _ =>
      if allow_slices then Ok (Slice (wrap a) (wrap b))
      else Ok (Single (wrap (midpoint a b)))
  | [] => Raise (IndexError "tuple index out of range")
  end.

Definition repr_label_str (label_str : option string) : string :=
  match label_str with
  | Some s => repr_str s
  | None => "None"
  end.

(** The body of the [try] statement: the label of one dimension. *)
Definition parse_label_attempt (dim_var : CoordVar)
  (label_str : option string) (allow_slices : bool)
  (exception_type : string -> exn) : result label :=
  match label_str with
  | None => v ← coord_first dim_var; Ok (Single v)
  | Some label_str =>
      if String.eqb label_str "current" then
        v ← coord_last dim_var; Ok (Single v)
      else
        let label_strs :=
          match split_once label_str with
          | Some (a, b) => [a; b]
          | None => [label_str]
          end in
        match cv_values dim_var with
        | FloatCoords _ =>
            labels ← map_result py_float label_strs;
            select_label FloatValue float_midpoint allow_slices labels
        | IntCoords _ =>
            labels ← map_result py_int label_strs;
            select_label IntValue int_midpoint allow_slices labels
        | TimeCoords values =>
            labels ← map_result (to_datetime values) label_strs;
            select_label TimeValue time_midpoint allow_slices labels
        | OtherCoords dtype_repr _ =>
            Raise (exception_type
              ("unable to parse value " +:+ repr_str label_str
                 +:+ " into a " +:+ dtype_repr))
        end
  end.

(** The [try] statement with its handler of [ValueError]. *)
Definition parse_label (dim : string) (dim_var : CoordVar)
  (label_str : option string) (allow_slices : bool)
  (exception_type : string -> exn) : result label :=
  match parse_label_attempt dim_var label_str allow_slices exception_type with
  | Raise (ValueError _) =>
      Raise (exception_type
        (repr_label_str label_str +:+ " is not a valid value for dimension "
           +:+ repr_str dim))
  | r => r
  end.

(** [parsed_labels[key] = value] on a dictionary in its order of
    insertion. *)
Fixpoint dict_set {A : Type} (d : list (string * A)) (key : string)
  (value : A) : list (string * A) :=
  match d with
  | [] => [(key, value)]
  | (k, v) :: d' =>
      if String.eqb key k then (key, value) :: d'
      else (k, v) :: dict_set d' key value
  end.

(** The dimensions of the two spatial coordinate variables. *)
Definition xy_dims_of (coords : gmap string CoordVar)
  (xy_var_names : string * string) : result (list string) :=
  map_result (fun xy_var_name =>
                var ← coords_getitem coords xy_var_name; first_dim var)
    [fst xy_var_names; snd xy_var_names].

(** The body of the loop over the dimensions; its state is
    [parsed_labels]. *)
Definition parse_labels_step (raw_labels : gmap string string)
  (coords : gmap string CoordVar) (allow_slices : bool)
  (exception_type : string -> exn) (xy_dims : list string)
  (parsed_labels : list (string * label)) (dim : string)
  : result (list (string * label)) :=
  if bool_decide (dim ∈ xy_dims) then Ok parsed_labels
  else
    dim_var ← coords_getitem coords dim;
    label ← parse_label dim dim_var (raw_labels !! dim) allow_slices
              exception_type;
    Ok (dict_set parsed_labels dim label).

Definition parse_non_spatial_labels (raw_labels : gmap string string)
  (dims : list string) (coords : gmap string CoordVar)
  (allow_slices : bool) (exception_type : string -> exn)
  : result (list (string * label)) :=
  match get_dataset_xy_var_names coords with
  | None => Raise (exception_type "missing spatial coordinates")
  | Some xy_var_names =>
      xy_dims ← xy_dims_of coords xy_var_names;
      for_each
        (parse_labels_step raw_labels coords allow_slices exception_type
           xy_dims)
        dims []
  end.

End Labels.

Arguments FloatCoords {Time Other}.
Arguments IntCoords {Time Other}.
Arguments TimeCoords {Time Other}.
Arguments OtherCoords {Time Other}.
Arguments mk_CoordVar {Time Other}.
Arguments cv_dims {Time Other}.
Arguments cv_values {Time Other}.
Arguments FloatValue {Time Other}.
Arguments IntValue {Time Other}.
Arguments TimeValue {Time Other}.
Arguments OtherValue {Time Other}.
Arguments Single {Time Other}.
Arguments Slice {Time Other}.
Arguments coords_getitem {Time Other}.
Arguments first_dim {Time Other}.
Arguments coord_labels {Time Other}.
Arguments coord_first {Time Other}.
Arguments coord_last {Time Other}.
Arguments to_datetime {Time}.
Arguments select_label {Time Other A}.
Arguments parse_label_attempt {Time Other}.
Arguments parse_label {Time Other}.
Arguments xy_dims_of {Time Other}.
Arguments parse_labels_step {Time Other}.
Arguments parse_non_spatial_labels {Time Other}.

Definition is_ValueError (e : exn) : bool :=
  match e with ValueError _ => true | _ => false end.

(** What the loop of [parse_non_spatial_labels] leaves under a dimension
    [d] that it has passed: [d] is none of the spatial dimensions
    [xy_dims], and the label is the one parsed from the text given for
    [d] and the coordinate variable of [d]. *)
Definition label_parsed {Time Other : Type}
  (float_of_str : string -> option scalar) (int_of_str : string -> option Z)
  (pd_to_datetime : string -> result Time)
  (time_midpoint : Time -> Time -> Time)
  (raw_labels : gmap string string)
  (coords : gmap string (@CoordVar Time Other))
  (allow_slices : bool) (exception_type : string -> exn)
  (xy_dims : list string) (d : string) (l : @label Time Other) : Prop :=
  bool_decide (d ∈ xy_dims) = false /\
  exists var : @CoordVar Time Other,
    coords !! d = Some var /\
    parse_label float_of_str int_of_str pd_to_datetime time_midpoint
      d var (raw_labels !! d) allow_slices exception_type = Ok l.

(** No character of the text is the separator [/] of a range. *)
Fixpoint slash_free (s : string) : bool :=
  match s with
  | EmptyString => true
  | String c s' => negb (Ascii.eqb c "/"%char) && slash_free s'
  end.

(** A small stand-in for the parsers and for a dataset, to run
    [parse_non_spatial_labels] on: numbers and times are written as
    decimal digits. *)
Module ToyLabels.

Definition digit_of (c : ascii) : option Z :=
  let n := Z.of_nat (nat_of_ascii c) in
  if Z.leb 48 n && Z.leb n 57 then Some (n - 48) else None.

Fixpoint digits (s : string) (acc : Z) : option Z :=
  match s with
  | EmptyString => Some acc
  | String c s' =>
      match digit_of c with
      | Some d => digits s' (10 * acc + d)
      | None => None
      end
  end.

Definition int_of_str (s : string) : option Z :=
  match s with
  | EmptyString => None
  | _ => digits s 0
  end.

Definition float_of_str (s : string) : option scalar :=
  match int_of_str s with
  | Some z => Some (SNum (inject_Z z))
  | None => None
  end.

Definition pd_to_datetime (s : string) : result Z :=
  match int_of_str s with
  | Some z => Ok z
  | None => Raise (ValueError ("Unknown string format: " +:+ s))
  end.

Definition time_midpoint (a b : Z) : Z := a + (b - a) / 2.

Definition xy_var_names (coords : gmap string (@CoordVar Z string))
  : option (string * string) :=
  if bool_decide (is_Some (coords !! "lon"))
     && bool_decide (is_Some (coords !! "lat"))
  then Some ("lon", "lat") else None.

Definition coords : gmap string (@CoordVar Z string) :=
  <["lon" := mk_CoordVar ["lon"] (FloatCoords [SNum 5; SNum 15])]>
  (<["lat" := mk_CoordVar ["lat"] (FloatCoords [SNum 10; SNum 30])]>
  (<["time" := mk_CoordVar ["time"] (TimeCoords [100; 200; 300])]>
  (<["depth" := mk_CoordVar ["depth"] (IntCoords [0; 10; 25])]>
  (<["level" := mk_CoordVar ["level"] (FloatCoords [SNum 1; SNum 2])]>
  (<["band" := mk_CoordVar ["band"] (OtherCoords "dtype('<U1')" ["r"; "g"])]>
     ∅))))).

Definition parse (raw_labels : gmap string string) (dims : list string)
  (allow_slices : bool) (exception_type : string -> exn)
  : result (list (string * @label Z string)) :=
  parse_non_spatial_labels float_of_str int_of_str pd_to_datetime
    time_midpoint xy_var_names raw_labels dims coords allow_slices
    exception_type.

End ToyLabels.

(** ** Cube verification ([xcube/core/verify.py])

    The second [verify_cube] of the repository, which takes the names of
    the spatial and the time coordinate from [xcube.core.schema] and
    [xcube.core.geom]; these are not part of the sources at hand and are
    variables of the section. *)

Module CoreVerify.

(** [repr] of an element type. *)
Definition repr_dtype (dt : dtype) : string :=
  match dt with
  | Float64 => "dtype('float64')"
  | Int64 => "dtype('int64')"
  | Uint64 => "dtype('uint64')"
  | Datetime64 => "dtype('<M8[ns]')"
  end.

(** [str] of a float that is a whole number. *)
Definition str_whole_float (z : Z) : string := str_Z z +:+ ".0".

Section Verify.

Variable get_dataset_xy_var_names : Dataset -> option (string * string).
Variable get_dataset_time_var_name : Dataset -> option string.
Variable is_lon_lat_dataset : Dataset -> string * string -> bool.

Definition _check_dim (dataset : Dataset) (name : string)
  (report : list string) : list string :=
  if negb (name_in name (ds_dims dataset))
  then report ++ ["missing dimension " +:+ repr_str name]
  else
    (* the size of a dimension is never negative *)
    report.

Definition bounds_name (var_name : string) (var : DataArray Q) : string :=
  match da_bounds_attr var with
  | Some b => b
  | None => var_name +:+ "_bnds"
  end.

(** [len(bnds_var.dims) != 2 or bnds_var.dims[0] != var_name] *)
Definition bounds_dims_differ (var_name : string) (dims : list string)
  : bool :=
  match dims with
  | [d; _] => negb (String.eqb d var_name)
  | _ => true
  end.

Definition _check_coord_var (dataset : Dataset) (var_name : string)
  (report : list string) : list string * option (DataArray Q) :=
  match assoc var_name (ds_coords dataset) with
  | None =>
      (report ++ ["missing coordinate variable " +:+ repr_str var_name], None)
  | Some var =>
      if negb (names_eqb (da_dims var) [var_name]) then
        (report ++ ["coordinate variable " +:+ repr_str var_name
                    +:+ " must have a single dimension "
                    +:+ repr_str var_name],
         None)
      else if Nat.eqb (da_size var) 0 then
        (report ++ ["coordinate variable " +:+ repr_str var_name
                    +:+ " must not be empty"], None)
      else
        let bnds_name := bounds_name var_name var in
        match assoc bnds_name (ds_coords dataset) with
        | Some bnds_var =>
            let expected_shape := [da_size var; 2%nat] in
            let expected_dtype := da_dtype var in
            let report :=
              if bounds_dims_differ var_name (da_dims bnds_var)
              then report ++ ["bounds coordinate variable "
                              +:+ repr_str bnds_name
                              +:+ " must have dimensions ("
                              +:+ repr_str var_name +:+ ", <bounds_dim>)"]
              else report in
            let report :=
              if negb (shape_eqb (da_shape bnds_var) expected_shape)
              then report ++ ["shape of bounds coordinate variable "
                              +:+ repr_str bnds_name +:+ " must be "
                              +:+ repr_nats expected_shape +:+ " but was "
                              +:+ repr_nats (da_shape bnds_var)]
              else report in
            let report :=
              if negb (dtype_eqb (da_dtype bnds_var) expected_dtype)
              then report ++ ["type of bounds coordinate variable "
                              +:+ repr_str bnds_name +:+ " must be "
                              +:+ repr_dtype expected_dtype +:+ " but was "
                              +:+ repr_dtype (da_dtype bnds_var)]
              else report in
            (report, None)
        | None => (report, Some var)
        end
  end.

(** [min_value] and [max_value] are the whole-number floats that
    [verify_cube] passes. The elements of an array are rationals, hence
    finite: the finiteness test never fails here. *)
Definition _check_lon_or_lat (dataset : Dataset) (var_name : string)
  (min_value max_value : Z) (report : list string) : list string :=
  match _check_coord_var dataset var_name report with
  | (report, None) => report
  | (report, Some var) =>
      if Qltb (Qmin_list (da_values var)) (inject_Z min_value)
         || Qltb (inject_Z max_value) (Qmax_list (da_values var))
      then report ++ ["values of coordinate variable " +:+ repr_str var_name
                      +:+ " must be in the range "
                      +:+ str_whole_float min_value
                      +:+ " to " +:+ str_whole_float max_value]
      else report
  end.

Definition _check_time (dataset : Dataset) (name : string)
  (report : list string) : list string :=
  match _check_coord_var dataset name report with
  | (report, None) => report
  | (report, Some var) =>
      let report :=
        if negb (is_datetime (da_dtype var))
        then report ++ ["type of coordinate variable " +:+ repr_str name
                        +:+ " must be datetime64"]
        else report in
      if negb (all_diff_positive
                 (map (astype_float64 (da_dtype var)) (da_values var)))
      then report ++ ["values of coordinate variable " +:+ repr_str name
                      +:+ " must be monotonic increasing"]
      else report
  end.

(** [dims[0]] *)
Definition first_dim_of (dims : list string) : result string :=
  match dims with
  | d :: _ => Ok d
  | [] => Raise (IndexError "tuple index out of range")
  end.

(** [dataset[name].dims], for a coordinate or a data variable. *)
Definition dims_of (dataset : Dataset) (name : string)
  : result (list string) :=
  match assoc name (ds_coords dataset) with
  | Some var => Ok (da_dims var)
  | None =>
      match assoc name (ds_data_vars dataset) with
      | Some var => Ok (da_dims var)
      | None => Raise (KeyError name)
      end
  end.

(** [len(dims) < 3 or dims[0] != time_dim or dims[-2] != y_dim
    or dims[-1] != x_dim], negated. *)
Definition cube_dims_ok (time_dim y_dim x_dim : string) (dims : list string)
  : bool :=
  match dims, rev dims with
  | d0 :: _, dl :: dl2 :: _ :: _ =>
      String.eqb d0 time_dim && String.eqb dl2 y_dim && String.eqb dl x_dim
  | _, _ => false
  end.

Fixpoint _check_data_variables_loop (time_dim y_dim x_dim : string)
  (vars : list (string * DataArray scalar))
  (first : option (string * DataArray scalar))
  (report : list string) : list string :=
  match vars with
  | [] => report
  | (var_name, var) :: vars' =>
      let dims := da_dims var in
      let chunks := da_chunks var in
      let report :=
        if negb (cube_dims_ok time_dim y_dim x_dim dims)
        then report ++ ["dimensions of data variable " +:+ repr_str var_name
                        +:+ " must be (" +:+ repr_str time_dim +:+ ", ..., "
                        +:+ repr_str y_dim +:+ ", " +:+ repr_str x_dim
                        +:+ "), but were "
                        +:+ repr_names dims +:+ " for " +:+ repr_str var_name]
        else report in
      match first with
      | None =>
          _check_data_variables_loop time_dim y_dim x_dim vars'
            (Some (var_name, var)) report
      | Some (first_name, first_var) =>
          let report :=
            if negb (names_eqb (da_dims first_var) dims)
            then report ++ ["dimensions of all data variables must be same, but found "
                            +:+ repr_names (da_dims first_var) +:+ " for "
                            +:+ repr_str first_name +:+ " and "
                            +:+ repr_names dims +:+ " for " +:+ repr_str var_name]
            else report in
          let report :=
            if negb (chunks_eqb (da_chunks first_var) chunks)
            then report ++ ["all data variables must have same chunk sizes, but found "
                            +:+ repr_chunks (da_chunks first_var) +:+ " for "
                            +:+ repr_str first_name +:+ " and "
                            +:+ repr_chunks chunks +:+ " for " +:+ repr_str var_name]
            else report in
          _check_data_variables_loop time_dim y_dim x_dim vars' first report
      end
  end.

Definition _check_data_variables (dataset : Dataset)
  (xy_var_names : string * string) (time_var_name : string)
  (report : list string) : result (list string) :=
  let '(x_var_name, y_var_name) := xy_var_names in
  x_dims ← dims_of dataset x_var_name;
  y_dims ← dims_of dataset y_var_name;
  time_dims ← dims_of dataset time_var_name;
  x_dim ← first_dim_of x_dims;
  y_dim ← first_dim_of y_dims;
  time_dim ← first_dim_of time_dims;
  Ok (_check_data_variables_loop time_dim y_dim x_dim
        (ds_data_vars dataset) None report).

(** The truth value of a name: the empty text is false. *)
Definition name_truthy (name : string) : bool := negb (String.eqb name "").

Definition verify_cube (dataset : Dataset) : result (list string) :=
  let report := [] in
  let xy_var_names := get_dataset_xy_var_names dataset in
  let report :=
    match xy_var_names with
    | None => report ++ ["missing spatial x,y coordinate variables"]
    | Some _ => report
    end in
  let time_var_name := get_dataset_time_var_name dataset in
  let report :=
    match time_var_name with
    | None => report ++ ["missing time coordinate variable"]
    | Some _ => report
    end in
  let report :=
    match time_var_name with
    | Some name =>
        if name_truthy name then _check_time dataset name report else report
    | None => report
    end in
  let report :=
    match xy_var_names with
    | Some names =>
        if is_lon_lat_dataset dataset names then
          let report :=
            _check_lon_or_lat dataset (fst names) (-180) 180 report in
          _check_lon_or_lat dataset (snd names) (-90) 90 report
        else report
    | None => report
    end in
  match xy_var_names, time_var_name with
  | Some names, Some name =>
      if name_truthy name
      then _check_data_variables dataset names name report
      else Ok report
  | _, _ => Ok report
  end.

(** [assert_cube] without a [name]: the dataset itself is returned. *)
Definition assert_cube (dataset : Dataset) : result Dataset :=
  report ← verify_cube dataset;
  match report with
  | [] => Ok dataset
  | _ :: _ =>
      Raise (ValueError
        ("Dataset is not a valid xcube dataset, because:" +:+ newline
           +:+ "- " +:+ join (";" +:+ newline +:+ "- ") report +:+ "."))
  end.

End Verify.

(** A coordinate with a well-formed bounds variable, as
    [_check_coord_var] sees it: 1-D over its own name, not empty, with a
    bounds variable of two dimensions, the first being the coordinate's,
    of shape [(size, 2)] and of the element type of the coordinate. *)
Definition bounded_coord (ds : Dataset) (name : string) : Prop :=
  exists (var bnds_var : DataArray Q) (bnds_dim : string),
    assoc name (ds_coords ds) = Some var /\
    da_dims var = [name] /\
    da_size var <> 0%nat /\
    assoc (bounds_name name var) (ds_coords ds) = Some bnds_var /\
    da_dims bnds_var = [name; bnds_dim] /\
    da_shape bnds_var = [da_size var; 2%nat] /\
    da_dtype bnds_var = da_dtype var.

(** Data variables over [(time_dim, ..., y_dim, x_dim)] that all have the
    dimensions and the chunk sizes of the first one. *)
Definition uniform_data_variables (ds : Dataset)
  (time_dim y_dim x_dim : string) : Prop :=
  match ds_data_vars ds with
  | [] => True
  | (_, first_var) :: rest =>
      cube_dims_ok time_dim y_dim x_dim (da_dims first_var) = true /\
      Forall (fun entry =>
                da_dims (snd entry) = da_dims first_var /\
                da_chunks (snd entry) = da_chunks first_var) rest
  end.

(** A cube whose longitudes are far out of range and whose times are
    neither times nor increasing, all with bounds. *)
Definition cube_out_of_range : Dataset :=
  mk_Dataset
    [("time", 2%nat); ("lat", 1%nat); ("lon", 1%nat)]
    [("time", mk_DataArray ["time"] [2%nat] Float64 None None [7%Q; 3%Q]);
     ("time_bnds",
      mk_DataArray ["time"; "bnds"] [2%nat; 2%nat] Float64 None None
        [8%Q; 6%Q; 4%Q; 2%Q]);
     ("lat", mk_DataArray ["lat"] [1%nat] Float64 None None [1000%Q]);
     ("lat_bnds",
      mk_DataArray ["lat"; "bnds"] [1%nat; 2%nat] Float64 None None
        [900%Q; 1100%Q]);
     ("lon", mk_DataArray ["lon"] [1%nat] Float64 None None [500%Q]);
     ("lon_bnds",
      mk_DataArray ["lon"; "bnds"] [1%nat; 2%nat] Float64 None None
        [400%Q; 600%Q])]
    [("v",
      mk_DataArray ["time"; "lat"; "lon"] [2%nat; 1%nat; 1%nat] Float64
        None None [SNum 1; SNum 2])].

End CoreVerify.

(** ** Chunk offsets ([xcube/api.py]) *)

(** The loop of [_get_chunk_interp_arrays] over the chunks of one
    dimension: [dim_indexes[i + 1] = dim_indexes[i] + dim_chunks[i]] on an
    [int64] array of [n + 1] zeros. *)
Definition chunk_dim_indexes (dim_chunks : list nat) : list Z :=
  let n := length dim_chunks in
  fold_left
    (fun (dim_indexes : list Z) (i : nat) =>
       <[S i := wrap_int64 (nth i dim_indexes 0%Z
                            + Z.of_nat (nth i dim_chunks 0%nat))]>
         dim_indexes)
    (seq 0 n) (replicate (S n) 0%Z).

(** [np.linspace(0, n, num=n + 1, dtype=np.int64)] *)
Definition chunk_numbers (n : nat) : list Z :=
  map astype_int64 (linspace 0 (inject_Z (Z.of_nat n)) (S n)).

Definition _get_chunk_interp_arrays (chunks : list (list nat))
  : list (list Z * list Z) :=
  map (fun dim_chunks =>
         (chunk_dim_indexes dim_chunks, chunk_numbers (length dim_chunks)))
    chunks.

(** The number of elements before chunk [i] of a dimension. *)
Definition elements_before (i : nat) (dim_chunks : list nat) : nat :=
  fold_right Nat.add 0%nat (firstn i dim_chunks).

(** ** Help text of the generator ([xcube/genl2c/cli.py]) *)

(** What the help formatter reads of an input processor and of a dataset
    writer. *)
Record InputProcessor : Type := mk_InputProcessor {
  ip_name : string;
  ip_description : string
}.

Record DatasetIO : Type := mk_DatasetIO {
  io_name : string;
  io_ext : string;
  io_description : string
}.

(** [' ' * n]; a count that is not positive gives the empty text. *)
Fixpoint spaces (n : nat) : string :=
  match n with
  | O => ""
  | S n' => String " "%char (spaces n')
  end.

(** [GenL2CHelpFormatter._format_input_processors]; the length of a name
    is counted in characters of one byte. *)
Definition _format_input_processors (input_processors : list InputProcessor)
  : string :=
  fold_left
    (fun help_text input_processor =>
       let fill := spaces (34 - String.length (ip_name input_processor)) in
       help_text +:+ ("  " +:+ ip_name input_processor +:+ fill
                        +:+ ip_description input_processor +:+ newline))
    input_processors "".

(** [GenL2CHelpFormatter._format_dataset_ios] *)
Definition _format_dataset_ios (dataset_ios : list DatasetIO) : string :=
  fold_left
    (fun help_text ds_io =>
       let fill1 := spaces (24 - String.length (io_name ds_io)) in
       let fill2 := spaces (10 - String.length (io_ext ds_io)) in
       help_text +:+ ("  " +:+ io_name ds_io +:+ fill1
                        +:+ "(*." +:+ io_ext ds_io +:+ ")" +:+ fill2
                        +:+ io_description ds_io +:+ newline))
    dataset_ios "".

(** The lines of a text that ends each line with a line feed. *)
Fixpoint unlines (lines : list string) : string :=
  match lines with
  | [] => ""
  | line :: lines' => line +:+ newline +:+ unlines lines'
  end.

(** A line: the [left] part followed by the [description]. *)
Definition help_line (left description : string) : string :=
  left +:+ description.

(** ** Dump of the encoding of a variable ([xcube/api.py]) *)

(** [dump_var_encoding] on the [encoding] of the variable, a dictionary in
    its order of insertion whose values are given by their [repr]. *)
Definition dump_var_encoding (encoding : list (string * string))
  (header : string) (indent : Z) : string :=
  let lines := [header] in
  let max_len :=
    fold_left (fun max_len (entry : string * string) =>
                 Nat.max max_len (String.length (fst entry)))
      encoding 0%nat in
  let indent_spaces := spaces (Z.to_nat indent) in
  let lines :=
    fold_left
      (fun lines (entry : string * string) =>
         let tab_spaces :=
           spaces (2 + max_len - String.length (fst entry)) in
         lines ++ [indent_spaces +:+ fst entry +:+ ":" +:+ tab_spaces
                     +:+ snd entry])
      encoding lines in
  join newline lines.

(** The length of the longest key. *)
Definition longest_key (encoding : list (string * string)) : nat :=
  fold_right (fun entry m => Nat.max (String.length (fst entry)) m) 0%nat
    encoding.

(** * Properties of coordinate index resolution *)

Section Interp.
Local Open Scope Q_scope.

Lemma zip_with3_map {A B C D : Type} (f : B -> C -> D) (g : A -> B)
  (h : A -> C) (l : list A) :
  zip_with3 f (map g l) (map h l) = map (fun a => f (g a) (h a)) l.
Proof.
  induction l as [|a l IH]; simpl; [reflexivity|]. now rewrite IH.
Qed.





Lemma linspace_length (a b : Q) (n : nat) : length (linspace a b n) = n.
Proof. unfold linspace. now rewrite length_map, length_seq. Qed.

Lemma nth_map_seq (f : nat -> Q) (m k : nat) :
  (k < m)%nat -> nth k (map f (seq 0 m)) 0 = f k.
Proof.
  intros Hk.
  rewrite (nth_indep _ 0 (f 0%nat)) by (rewrite length_map, length_seq; exact Hk).
  rewrite map_nth. f_equal. now rewrite seq_nth.
Qed.

Lemma linspace_nth (n k : nat) :
  (0 < n)%nat -> (k <= n)%nat ->
  nth k (linspace 0 (inject_Z (Z.of_nat n)) (S n)) 0 == inject_Z (Z.of_nat k).
Proof.
  intros Hn Hk. unfold linspace.
  rewrite nth_map_seq by lia.
  replace (S n - 1)%nat with n by lia.
  assert (Hz : ~ inject_Z (Z.of_nat n) == 0).
  { intros H0. unfold Qeq in H0. simpl in H0. lia. }
  field. exact Hz.
Qed.


Lemma Qfloor_unique (r : Q) (i : Z) :
  inject_Z i <= r -> r < inject_Z (i + 1) -> Qfloor r = i.
Proof.
  intros Hlo Hhi.
  assert (H1 : (i <= Qfloor r)%Z).
  { rewrite <- (Qfloor_Z i). apply Qfloor_resp_le. exact Hlo. }
  assert (H2 : (Qfloor r < i + 1)%Z).
  { rewrite Zlt_Qlt. apply Qle_lt_trans with r; [apply Qfloor_le | exact Hhi]. }
  lia.
Qed.

Lemma zip_with3_map_l {A B C : Type} (f : B -> A -> C) (g : A -> B)
  (l : list A) :
  zip_with3 f (map g l) l = map (fun a => f (g a) a) l.
Proof.
  induction l as [|a l IH]; simpl; [reflexivity|]. now rewrite IH.
Qed.

Lemma zip_with3_map_r {A B C : Type} (f : A -> B -> C) (g : A -> B)
  (l : list A) :
  zip_with3 f l (map g l) = map (fun a => f a (g a)) l.
Proof.
  induction l as [|a l IH]; simpl; [reflexivity|]. now rewrite IH.
Qed.

(** [get_coord_indexes] element by element, once the cell edges are
    known. *)
Lemma get_coord_indexes_eq (ds : Dataset) (name : string) (coords : list Q)
  (is_reversed : bool) (n1 : nat) (cv : ndarray) (ret_fractions : bool) :
  coord_edges ds name = Ok (coords, is_reversed, n1) ->
  length coords = S n1 ->
  get_coord_indexes ds name cv ret_fractions
  = Ok (orient is_reversed (map (index_of n1) (positions coords n1 cv)),
        if ret_fractions
        then Some (orient is_reversed
                     (map (fraction_of n1) (positions coords n1 cv)))
        else None).
Proof.
  intros Hedges Hlen. unfold get_coord_indexes. rewrite Hedges.
  cbn [mbind result_bind]. unfold np_interp.
  destruct coords as [|c0 coords']; [discriminate Hlen|].
  rewrite Hlen, linspace_length, Nat.eqb_refl. cbn [negb].
  fold (positions (c0 :: coords') n1 cv).
  set (res := positions (c0 :: coords') n1 cv).
  cbn [mbind result_bind].
  rewrite !zip_with3_map_l, !map_map, ?zip_with3_map_r, ?zip_with3_map.
  destruct ret_fractions, is_reversed; reflexivity.
Qed.



Lemma astype_int64_floor (r : Q) (i : Z) :
  (0 <= i)%Z -> inject_Z i <= r -> r < inject_Z (i + 1) ->
  astype_int64 r = i.
Proof.
  intros Hi Hlo Hhi. unfold astype_int64.
  destruct (Qlt_le_dec r 0) as [Hneg | _].
  - exfalso. apply (Qlt_irrefl r).
    apply Qlt_le_trans with 0; [exact Hneg|].
    apply Qle_trans with (inject_Z i); [|exact Hlo].
    change 0 with (inject_Z 0). rewrite <- Zle_Qle. exact Hi.
  - apply Qfloor_unique; assumption.
Qed.


Lemma lookup_map {A B : Type} (f : A -> B) (l : list A) (k : nat) :
  map f l !! k = option_map f (l !! k).
Proof.
  revert k. induction l as [|a l IH]; intros [|k]; simpl; try reflexivity.
  apply IH.
Qed.

Lemma astype_uint64_range (values : list Q) :
  Forall (fun u => 0 <= u /\ u < inject_Z (2 ^ 64)) (astype_uint64 values).
Proof.
  unfold astype_uint64. apply List.Forall_forall. intros u Hu.
  apply in_map_iff in Hu as (q & <- & _). unfold wrap_uint64.
  pose proof (Z.mod_pos_bound (Qfloor q) (2 ^ 64) eq_refl) as [Hlo Hhi].
  split.
  - change 0 with (inject_Z 0). now rewrite <- Zle_Qle.
  - now rewrite <- Zlt_Qlt.
Qed.

(** C1 (what the code does). The four cells of the example resolve as
    stated: 25 to index 1 with fraction 1/2, 5 to -1, and 50 to index 3
    with fraction 1. A time axis with a cell before 1970 does not resolve
    as stated: [get_coord_indexes] reads the [datetime64] edges and query
    values as unsigned integers, so that the first of the strictly
    increasing edges -100, 0, 100 becomes 2^64 - 100, the largest of the
    three, and every query value gets the index -1 (and the fraction 0):
    so do -50 and 50, which lie in the first and in the second cell. The
    same two cells 100 units later resolve 50 and 150 to the indexes 0 and
    1 with fraction 1/2. *)
Theorem get_coord_indexes_time_axis_around_1970 :
  (exists f25 f5 f50 : Q,
      get_coord_indexes lat_axis "lat" (mk_ndarray Float64 [25; 5; 50]) true
      = Ok ([1; -1; 3]%Z, Some [f25; f5; f50]) /\
      f25 == 1 # 2 /\ f50 == 1)
  /\
  strictly_increasing [-100; 0; 100] /\
  coord_edges time_axis_around_1970 "time"
  = Ok ([inject_Z (2 ^ 64 - 100); 0; 100], false, 2%nat) /\
  (forall (values : list Q) (ret_fractions : bool),
      get_coord_indexes time_axis_around_1970 "time"
        (mk_ndarray Datetime64 values) ret_fractions
      = Ok (map (fun _ => (-1)%Z) values,
            if ret_fractions then Some (map (fun _ => 0) values) else None))
  /\
  ~ resolves [-100; 0; 100] (-50) (-1) 0 /\
  ~ resolves [-100; 0; 100] 50 (-1) 0 /\
  (exists f50 f150 : Q,
      get_coord_indexes time_axis_after_1970 "time"
        (mk_ndarray Datetime64 [50; 150]) true
      = Ok ([0; 1]%Z, Some [f50; f150]) /\
      f50 == 1 # 2 /\ f150 == 1 # 2).
Proof.
  split; [|split; [|split; [|split; [|split; [|split]]]]].
  - vm_compute. do 3 eexists. split; [reflexivity|]. split; reflexivity.
  - simpl. repeat split; reflexivity.
  - reflexivity.
  - intros values ret_fractions.
    rewrite (get_coord_indexes_eq time_axis_around_1970 "time"
               [inject_Z (2 ^ 64 - 100); 0; 100] false 2%nat)
      by reflexivity.
    unfold orient, positions, query_values. cbn [nd_dtype nd_data is_datetime].
    assert (Hpos : forall u : Q,
               0 <= u -> u < inject_Z (2 ^ 64) ->
               interp1 [inject_Z (2 ^ 64 - 100); 0; 100]
                 (linspace 0 (inject_Z (Z.of_nat 2)) 3) (-1) (-1) u = -1).
    { intros u Hlo Hhi. unfold interp1.
      change (hd 0 [inject_Z (2 ^ 64 - 100); 0; 100])
        with (inject_Z (2 ^ 64 - 100)).
      change (List.last [inject_Z (2 ^ 64 - 100); 0; 100] 0) with 100.
      destruct (Qlt_le_dec u (inject_Z (2 ^ 64 - 100))) as [_ | Hge];
        [reflexivity|].
      destruct (Qlt_le_dec 100 u) as [_ | Hle]; [reflexivity|].
      exfalso. apply (Qlt_irrefl 100).
      apply Qlt_le_trans with (inject_Z (2 ^ 64 - 100)).
      - reflexivity.
      - apply Qle_trans with u; assumption. }
    pose proof (astype_uint64_range values) as Hrange.
    unfold astype_uint64 in *. rewrite !map_map in *.
    assert (Hidx : map (fun q : Q =>
                     index_of 2
                       (interp1 [inject_Z (2 ^ 64 - 100); 0; 100]
                          (linspace 0 (inject_Z (Z.of_nat 2)) 3) (-1) (-1)
                          (inject_Z (wrap_uint64 (Qfloor q))))) values
                   = map (fun _ => (-1)%Z) values).
    { apply map_ext_in. intros q Hq.
      rewrite List.Forall_forall in Hrange.
      destruct (Hrange (inject_Z (wrap_uint64 (Qfloor q)))) as [Hlo Hhi].
      { apply in_map_iff. exists q. split; [reflexivity | exact Hq]. }
      now rewrite (Hpos _ Hlo Hhi). }
    assert (Hfrac : map (fun q : Q =>
                      fraction_of 2
                        (interp1 [inject_Z (2 ^ 64 - 100); 0; 100]
                           (linspace 0 (inject_Z (Z.of_nat 2)) 3) (-1) (-1)
                           (inject_Z (wrap_uint64 (Qfloor q))))) values
                    = map (fun _ => 0) values).
    { apply map_ext_in. intros q Hq.
      rewrite List.Forall_forall in Hrange.
      destruct (Hrange (inject_Z (wrap_uint64 (Qfloor q)))) as [Hlo Hhi].
      { apply in_map_iff. exists q. split; [reflexivity | exact Hq]. }
      now rewrite (Hpos _ Hlo Hhi). }
    rewrite Hidx, Hfrac. reflexivity.
  - intros (_ & _ & Hin). destruct Hin as (i & _ & Hi & _).
    + split; [discriminate | reflexivity].
    + lia.
  - intros (_ & _ & Hin). destruct Hin as (i & _ & Hi & _).
    + split; [discriminate | reflexivity].
    + lia.
  - vm_compute. do 2 eexists. split; [reflexivity|]. split; reflexivity.
Qed.

End Interp.

(** C8. A variable of size 1 for which [_get_bounds_var] finds no bounds
    variable makes [get_coord_indexes] raise the error that the cell
    boundaries cannot be determined, whatever the query values and
    whether or not fractions are asked for. The bounds variable is looked
    up among the coordinate and the data variables of the dataset, and is
    used if it has the type of the variable and the shape (size, 2). *)
Theorem get_coord_indexes_single_cell_no_bounds
  (ds : Dataset) (name : string) (var : DataArray Q) (cv : ndarray)
  (ret_fractions : bool) :
  ds_getitem ds name = Ok var ->
  da_size var = 1%nat ->
  _get_bounds_var ds name = Ok None ->
  get_coord_indexes ds name cv ret_fractions
  = Raise (ValueError
      ("cannot determine cell boundaries for coordinate variable "
         +:+ repr_str name +:+ " of size " +:+ str_nat 1)).
Proof.
  intros Hvar Hsize Hbounds.
  unfold get_coord_indexes, coord_edges.
  rewrite Hvar. cbn [mbind result_bind]. rewrite Hbounds.
  cbn [mbind result_bind]. rewrite Hsize. reflexivity.
Qed.

Lemma get_coord_indexes_single_cell_no_bounds_witness :
  get_coord_indexes lat_single "lat" (mk_ndarray Float64 [15%Q]) true
  = Raise (ValueError
      "cannot determine cell boundaries for coordinate variable 'lat' of size 1").
Proof.
  apply (get_coord_indexes_single_cell_no_bounds lat_single "lat"
           (mk_DataArray ["lat"] [1%nat] Float64 None None [15%Q])).
  - reflexivity.
  - reflexivity.
  - reflexivity.
Defined.

(** The bounds of a single cell kept as a data variable are found: the
    cell [10, 20] resolves 15 to the index 0 and 25 to -1. *)
Example get_coord_indexes_bounds_as_data_variable :
  _get_bounds_var lat_single_data_bounds "lat"
  = Ok (Some (mk_DataArray ["lat"; "bnds"] [1%nat; 2%nat] Float64 None None
                [10%Q; 20%Q])) /\
  get_coord_indexes lat_single_data_bounds "lat"
    (mk_ndarray Float64 [15%Q; 25%Q]) false
  = Ok ([0; -1]%Z, None).
Proof. split; vm_compute; reflexivity. Qed.

(** C2 (what the code does). On the four cells of the example stored in
    decreasing order, the query values 25 and 45 resolve to 3 and 1, where
    the same cells stored in increasing order give 1 and 3: the results
    come back in reversed query order. A value outside the axis can so
    take the index of another query, and a value inside it the index -1. *)
Theorem get_coord_indexes_decreasing_axis_reverses_queries :
  get_coord_indexes lat_axis "lat" (mk_ndarray Float64 [25%Q; 45%Q]) false
  = Ok ([1; 3]%Z, None) /\
  get_coord_indexes lat_axis_decreasing "lat"
    (mk_ndarray Float64 [25%Q; 45%Q]) false
  = Ok ([3; 1]%Z, None) /\
  get_coord_indexes lat_axis_decreasing "lat"
    (mk_ndarray Float64 [5%Q; 25%Q]) false
  = Ok ([1; -1]%Z, None).
Proof. repeat split; vm_compute; reflexivity. Qed.

(** On an axis stored in decreasing order the result is the reverse of the
    list of the indexes that the increasing edges give to the queries. *)
Lemma get_coord_indexes_reversed_axis (ds : Dataset) (name : string)
  (coords : list Q) (n1 : nat) (cv : ndarray) :
  coord_edges ds name = Ok (coords, true, n1) ->
  length coords = S n1 ->
  get_coord_indexes ds name cv false
  = Ok (rev (map (index_of n1) (positions coords n1 cv)), None).
Proof.
  intros Hedges Hlen.
  now rewrite (get_coord_indexes_eq ds name coords true n1).
Qed.

(** * Properties of point extraction *)

Lemma bind_raises {A B : Type} (m : result A) (k : A -> result B) :
  (forall a, is_ok (k a) = false) -> is_ok (m ≫= k) = false.
Proof. intros Hk. destruct m as [a|e]; [apply Hk | reflexivity]. Qed.

(** C6 (what the code does). With [include_indexes=True] the call
    [pd.concat(values, indexes)] hands [pd.concat] a frame where it takes a
    sequence of frames: [get_cube_values] returns no table for any cube and
    any index frame, and raises the [TypeError] of pandas once the values
    have been gathered. *)
Theorem get_cube_values_include_indexes_raises :
  (forall (cube : Dataset) (indexes : frame (list Z)) (cube_asserted : bool),
      is_ok (get_cube_values cube indexes true cube_asserted) = false) /\
  get_cube_values cube_decreasing_lat
    [("time", [0]%Z); ("lat", [1]%Z); ("lon", [0]%Z)] true false
  = Raise (TypeError
      ("first argument must be an iterable of pandas objects, you passed an object of type "
         +:+ dquote +:+ "DataFrame" +:+ dquote)).
Proof.
  split.
  - intros cube indexes cube_asserted. unfold get_cube_values.
    repeat (apply bind_raises; intros ?). reflexivity.
  - vm_compute. reflexivity.
Qed.

(** C3 (what the code does). [cube_decreasing_lat] is a valid cube; its
    variable [v] holds 1 in the cell of latitude 30, and the extraction at
    the centre of that cell returns 2, the value of the cell of
    latitude 10. *)
Theorem get_cube_point_values_decreasing_lat :
  verify_cube cube_decreasing_lat = Ok [] /\
  get_cube_point_indexes cube_decreasing_lat point_lat_30 None false
  = Ok [("time", [0]%Z); ("lat", [1]%Z); ("lon", [0]%Z)] /\
  get_cube_values cube_decreasing_lat
    [("time", [0]%Z); ("lat", [0]%Z); ("lon", [0]%Z)] false false
  = Ok [("v", [SNum 1])] /\
  get_cube_point_values cube_decreasing_lat point_lat_30 false false
  = Ok [("v", [SNum 2])].
Proof. repeat split; vm_compute; reflexivity. Qed.

(** With the latitudes stored in increasing order the same extraction
    returns the value of the cell. *)
Example get_cube_point_values_increasing_lat :
  verify_cube cube_increasing_lat = Ok [] /\
  get_cube_point_values cube_increasing_lat point_lat_30 false false
  = Ok [("v", [SNum 1])].
Proof. split; vm_compute; reflexivity. Qed.

(** ** The loop of [get_cube_values] in closed form *)

Section GatherLoop.

Variable vars : list (DataArray scalar).

Lemma gather_row_assign_cell (num_vars : nat) (rows : list (list Z))
  (var_values : list (list scalar)) (i : nat) :
  gather_row vars num_vars rows var_values i
  = for_each (assign_cell vars (nth i rows []) i) (seq 0 num_vars) var_values.
Proof.
  unfold gather_row, assign_cell, cell, has_unresolved.
  destruct (existsb (Z.eqb (-1)) (nth i rows [])); reflexivity.
Qed.

Lemma for_each_ext {S A : Type} (f g : S -> A -> result S) (l : list A)
  (s : S) :
  (forall s' a, f s' a = g s' a) -> for_each f l s = for_each g l s.
Proof.
  intros Hfg. revert s. induction l as [|a l IH]; intros s; simpl.
  - reflexivity.
  - rewrite Hfg. destruct (g s a); simpl; [apply IH | reflexivity].
Qed.

Lemma cell_value_ok (row : list Z) (var : DataArray scalar) :
  is_ok (cell row var) = true -> cell row var = Ok (cell_value row var).
Proof. unfold cell_value. destruct (cell row var); [reflexivity | discriminate]. Qed.

End GatherLoop.

Lemma assign_cell_cons_S (var : DataArray scalar)
  (vars : list (DataArray scalar)) (row : list Z) (i j : nat)
  (col : list scalar) (vv : list (list scalar)) :
  assign_cell (var :: vars) row i (col :: vv) (S j)
  = r ← assign_cell vars row i vv j; Ok (col :: r).
Proof.
  unfold assign_cell. change ((var :: vars) !! S j) with (vars !! j).
  destruct (vars !! j) as [var'|]; [|reflexivity].
  destruct (cell row var') as [v|e]; reflexivity.
Qed.

Lemma assign_cell_shift_var (var : DataArray scalar)
  (vars : list (DataArray scalar)) (row : list Z) (i : nat)
  (l : list nat) (col : list scalar) (vv : list (list scalar)) :
  for_each (assign_cell (var :: vars) row i) (map S l) (col :: vv)
  = r ← for_each (assign_cell vars row i) l vv; Ok (col :: r).
Proof.
  revert vv. induction l as [|j l IH]; intros vv; [reflexivity|].
  cbn [map for_each]. rewrite assign_cell_cons_S.
  destruct (assign_cell vars row i vv j) as [vv'|e]; [|reflexivity].
  cbn [mbind result_bind]. apply IH.
Qed.

Lemma assign_cell_row (vars : list (DataArray scalar)) (row : list Z)
  (i : nat) (vv : list (list scalar)) :
  length vv = length vars ->
  (forall var, In var vars -> is_ok (cell row var) = true) ->
  for_each (assign_cell vars row i) (seq 0 (length vars)) vv
  = Ok (zip_with (fun col var => <[i := cell_value row var]> col) vv vars).
Proof.
  revert vv. induction vars as [|var vars' IH]; intros vv Hlen Hok.
  - destruct vv; [reflexivity | discriminate].
  - destruct vv as [|col vv']; [discriminate|].
    cbn [length seq]. rewrite <- seq_shift. cbn [for_each].
    assert (H0 : assign_cell (var :: vars') row i (col :: vv') 0
                 = Ok (<[i := cell_value row var]> col :: vv')).
    { unfold assign_cell.
      change ((var :: vars') !! 0%nat) with (Some var). cbv beta iota.
      rewrite (cell_value_ok row var) by (apply Hok; now left).
      reflexivity. }
    rewrite H0. cbn [mbind result_bind].
    rewrite assign_cell_shift_var, IH.
    + reflexivity.
    + simpl in Hlen. lia.
    + intros var' Hin. apply Hok. now right.
Qed.

Lemma set_value_zip_cons (hs : list scalar) (vv : list (list scalar))
  (j i : nat) (v : scalar) :
  set_value (zip_with cons hs vv) j (S i) v
  = zip_with cons hs (set_value vv j i v).
Proof.
  revert vv j. induction hs as [|h hs IH]; intros [|col vv] [|j];
    try reflexivity.
  unfold set_value in *. cbn. f_equal. apply IH.
Qed.

Lemma assign_cell_S_row (vars : list (DataArray scalar)) (row : list Z)
  (i j : nat) (hs : list scalar) (vv : list (list scalar)) :
  assign_cell vars row (S i) (zip_with cons hs vv) j
  = r ← assign_cell vars row i vv j; Ok (zip_with cons hs r).
Proof.
  unfold assign_cell.
  destruct (vars !! j) as [var|]; [|reflexivity].
  destruct (cell row var) as [v|e]; [|reflexivity].
  cbn [mbind result_bind]. now rewrite set_value_zip_cons.
Qed.

Lemma assign_cell_shift_row (vars : list (DataArray scalar)) (row : list Z)
  (i : nat) (l : list nat) (hs : list scalar) (vv : list (list scalar)) :
  for_each (assign_cell vars row (S i)) l (zip_with cons hs vv)
  = r ← for_each (assign_cell vars row i) l vv; Ok (zip_with cons hs r).
Proof.
  revert vv. induction l as [|j l IH]; intros vv; [reflexivity|].
  cbn [for_each]. rewrite assign_cell_S_row.
  destruct (assign_cell vars row i vv j) as [vv'|e]; [|reflexivity].
  cbn [mbind result_bind]. apply IH.
Qed.

Lemma gather_rows_shift (vars : list (DataArray scalar)) (num_vars : nat)
  (row : list Z) (rows : list (list Z)) (l : list nat) (hs : list scalar)
  (vv : list (list scalar)) :
  for_each (gather_row vars num_vars (row :: rows)) (map S l)
    (zip_with cons hs vv)
  = r ← for_each (gather_row vars num_vars rows) l vv;
    Ok (zip_with cons hs r).
Proof.
  revert vv. induction l as [|i l IH]; intros vv; [reflexivity|].
  cbn [map for_each]. rewrite !gather_row_assign_cell.
  change (nth (S i) (row :: rows) []) with (nth i rows []).
  rewrite assign_cell_shift_row.
  destruct (for_each (assign_cell vars (nth i rows []) i) (seq 0 num_vars) vv)
    as [vv'|e]; [|reflexivity].
  cbn [mbind result_bind]. apply IH.
Qed.

Lemma first_row_columns (vars : list (DataArray scalar)) (row : list Z)
  (m : nat) :
  zip_with (fun col var => <[0%nat := cell_value row var]> col)
    (map (fun _ => replicate (S m) (SNum 0)) vars) vars
  = zip_with cons (map (cell_value row) vars)
      (map (fun _ => replicate m (SNum 0)) vars).
Proof.
  induction vars as [|var vars' IH]; [reflexivity|].
  cbn [map zip_with]. rewrite IH. reflexivity.
Qed.

Lemma columns_cons (vars : list (DataArray scalar)) (row : list Z)
  (rows : list (list Z)) :
  zip_with cons (map (cell_value row) vars)
    (map (fun var => map (fun r => cell_value r var) rows) vars)
  = map (fun var => map (fun r => cell_value r var) (row :: rows)) vars.
Proof.
  induction vars as [|var vars' IH]; [reflexivity|].
  cbn [map zip_with]. rewrite IH. reflexivity.
Qed.

Lemma gather_rows_columns (vars : list (DataArray scalar))
  (rows : list (list Z)) :
  (forall row var, In row rows -> In var vars ->
                   is_ok (cell row var) = true) ->
  for_each (gather_row vars (length vars) rows) (seq 0 (length rows))
    (map (fun _ => replicate (length rows) (SNum 0)) vars)
  = Ok (map (fun var => map (fun row => cell_value row var) rows) vars).
Proof.
  induction rows as [|row rows IH]; intros Hok.
  - reflexivity.
  - cbn [length seq]. rewrite <- seq_shift. cbn [for_each].
    rewrite gather_row_assign_cell. cbn [nth].
    rewrite assign_cell_row.
    + cbn [mbind result_bind]. rewrite first_row_columns, gather_rows_shift.
      rewrite IH.
      * cbn [mbind result_bind]. now rewrite columns_cons.
      * intros r var Hr Hvar. apply Hok; [now right | exact Hvar].
    + now rewrite length_map.
    + intros var Hvar. apply Hok; [now left | exact Hvar].
Qed.

Lemma lookup_In {A : Type} (l : list A) (i : nat) (x : A) :
  l !! i = Some x -> In x l.
Proof.
  revert i. induction l as [|a l IH]; intros [|i] H; try discriminate.
  - injection H as ->. now left.
  - right. exact (IH i H).
Qed.

Lemma lookup_combine_columns {A B C : Type} (g : B -> C)
  (dv : list (A * B)) (j : nat) (name : A) (var : B) :
  dv !! j = Some (name, var) ->
  combine (map fst dv) (map g (map snd dv)) !! j = Some (name, g var).
Proof.
  revert j. induction dv as [|[n v] dv IH]; intros [|j] H; try discriminate.
  - injection H as -> ->. reflexivity.
  - exact (IH j H).
Qed.

Lemma check_dims_in_indexes (indexes : frame (list Z)) (dims : list string) :
  (forall d, In d dims -> name_in d indexes = true) ->
  for_each
    (fun (_ : unit) dim_name =>
       if negb (name_in dim_name indexes)
       then Raise (ValueError
              ("missing dimension " +:+ repr_str dim_name +:+ " in indexes"))
       else Ok tt)
    dims tt = Ok tt.
Proof.
  induction dims as [|d dims IH]; intros H; [reflexivity|].
  cbn [for_each]. rewrite (H d) by now left.
  cbn [negb mbind result_bind]. apply IH. intros d' Hd'. apply H. now right.
Qed.

(** [get_cube_values] in closed form, on index tuples that are unresolved
    or address an element of every data variable. *)
Lemma get_cube_values_columns (cube : Dataset) (indexes : frame (list Z))
  (cube_asserted : bool) (dims : list string) (rows : list (list Z)) :
  (cube_asserted = false -> assert_cube cube = Ok tt) ->
  get_cube_dims cube = Some dims ->
  (forall d, In d dims -> name_in d indexes = true) ->
  np_stack (index_columns dims indexes) = Ok rows ->
  (forall row var, In row rows -> In var (map snd (ds_data_vars cube)) ->
                   is_ok (cell row var) = true) ->
  get_cube_values cube indexes false cube_asserted
  = Ok (combine (map fst (ds_data_vars cube))
          (map (fun var => map (fun row => cell_value row var) rows)
               (map snd (ds_data_vars cube)))).
Proof.
  intros Hassert Hdims Hin Hstack Hok. unfold get_cube_values.
  assert (Ha : (if cube_asserted then Ok tt else assert_cube cube) = Ok tt).
  { destruct cube_asserted; [reflexivity | now apply Hassert]. }
  rewrite Ha, Hdims. cbn [mbind result_bind].
  rewrite check_dims_in_indexes by exact Hin. cbn [mbind result_bind].
  fold (index_columns dims indexes). rewrite Hstack.
  cbn [mbind result_bind].
  rewrite (length_map fst).
  rewrite <- (length_map snd (ds_data_vars cube)).
  rewrite gather_rows_columns by exact Hok.
  reflexivity.
Qed.

(** When every row of the index frame either holds -1, all data variables
    then being of floating type, or addresses an element of every data
    variable, [get_cube_values] returns a table in which the row holds
    not-a-number for every data variable in the first case and the value
    stored at that index tuple in the second. *)
Theorem get_cube_values_rows (cube : Dataset) (indexes : frame (list Z))
  (cube_asserted : bool) (dims : list string) (rows : list (list Z)) :
  (cube_asserted = false -> assert_cube cube = Ok tt) ->
  get_cube_dims cube = Some dims ->
  (forall d, In d dims -> name_in d indexes = true) ->
  np_stack (index_columns dims indexes) = Ok rows ->
  (forall row var, In row rows -> In var (map snd (ds_data_vars cube)) ->
                   if has_unresolved row then da_dtype var = Float64
                   else is_ok (np_getitem var row) = true) ->
  exists values : frame (list scalar),
    get_cube_values cube indexes false cube_asserted = Ok values /\
    forall (i : nat) (row : list Z) (j : nat) (name : string)
           (var : DataArray scalar),
      rows !! i = Some row ->
      ds_data_vars cube !! j = Some (name, var) ->
      exists (col : list scalar) (v : scalar),
        values !! j = Some (name, col) /\ col !! i = Some v /\
        if has_unresolved row then v = SNaN else np_getitem var row = Ok v.
Proof.
  intros Hassert Hdims Hin Hstack Hrows.
  assert (Hok : forall row var, In row rows ->
                  In var (map snd (ds_data_vars cube)) ->
                  is_ok (cell row var) = true).
  { intros row var Hr Hv. specialize (Hrows row var Hr Hv). unfold cell.
    destruct (has_unresolved row); [now rewrite Hrows | exact Hrows]. }
  eexists. split.
  - apply (get_cube_values_columns cube indexes cube_asserted dims rows);
      assumption.
  - intros i row j name var Hi Hj.
    exists (map (fun r => cell_value r var) rows), (cell_value row var).
    split; [|split].
    + exact (lookup_combine_columns
               (fun var' => map (fun r => cell_value r var') rows)
               (ds_data_vars cube) j name var Hj).
    + now rewrite lookup_map, Hi.
    + assert (Hr : In row rows) by exact (lookup_In rows i row Hi).
      assert (Hv : In var (map snd (ds_data_vars cube))).
      { exact (in_map snd _ _ (lookup_In _ j _ Hj)). }
      specialize (Hrows row var Hr Hv). specialize (Hok row var Hr Hv).
      apply cell_value_ok in Hok. unfold cell in Hok.
      destruct (has_unresolved row).
      * rewrite Hrows in Hok. cbn in Hok. now injection Hok as <-.
      * exact Hok.
Qed.

Lemma get_cube_values_rows_witness :
  exists values : frame (list scalar),
    get_cube_values cube_decreasing_lat
      [("time", [0; 0]%Z); ("lat", [1; -1]%Z); ("lon", [0; 0]%Z)] false true
    = Ok values /\
    forall (i : nat) (row : list Z) (j : nat) (name : string)
           (var : DataArray scalar),
      [[0; 1; 0]; [0; -1; 0]]%Z !! i = Some row ->
      ds_data_vars cube_decreasing_lat !! j = Some (name, var) ->
      exists (col : list scalar) (v : scalar),
        values !! j = Some (name, col) /\ col !! i = Some v /\
        if has_unresolved row then v = SNaN else np_getitem var row = Ok v.
Proof.
  apply (get_cube_values_rows cube_decreasing_lat
           [("time", [0; 0]%Z); ("lat", [1; -1]%Z); ("lon", [0; 0]%Z)]
           true ["time"; "lat"; "lon"] [[0; 1; 0]; [0; -1; 0]]%Z).
  - discriminate.
  - reflexivity.
  - intros d [<-|[<-|[<-|[]]]]; reflexivity.
  - reflexivity.
  - intros row var [<-|[<-|[]]] [<-|[]]; reflexivity.
Defined.

(** C4 (what the code does). The column of a data variable is an array
    of the type of that variable, and the assignment of not-a-number to
    an element of an array of integers raises. So a row of indexes that
    holds -1 makes [get_cube_values] raise a [ValueError] on a cube whose
    data variable is of integer type, and the extraction of a point
    outside the latitudes of that cube, which resolves to such a row,
    raises with it. On the same cube with the variable of floating type
    the row holds not-a-number. *)
Theorem get_cube_values_unresolved_integer_variable :
  has_unresolved [0; -1; 0]%Z = true /\
  get_cube_values cube_integer_var
    [("time", [0]%Z); ("lat", [-1]%Z); ("lon", [0]%Z)] false true
  = Raise (ValueError "cannot convert float NaN to integer") /\
  get_cube_point_indexes cube_integer_var point_lat_60 None false
  = Ok [("time", [0]%Z); ("lat", [-1]%Z); ("lon", [0]%Z)] /\
  get_cube_point_values cube_integer_var point_lat_60 false false
  = Raise (ValueError "cannot convert float NaN to integer") /\
  get_cube_point_values cube_decreasing_lat point_lat_60 false false
  = Ok [("v", [SNaN])].
Proof. repeat split; vm_compute; reflexivity. Qed.

(** ** The length check of [get_cube_point_indexes] *)

Lemma same_length_columns_lookup (points : frame ndarray) (a b : string)
  (ca cb : ndarray) :
  same_length_columns points = true ->
  assoc a points = Some ca -> assoc b points = Some cb ->
  length (nd_data ca) = length (nd_data cb).
Proof.
  destruct points as [|[n0 c0] rest]; [discriminate 2|].
  intros Hsame Ha Hb. cbn [same_length_columns] in Hsame.
  assert (Hall : forall (k : string) (c : ndarray),
             assoc k ((n0, c0) :: rest) = Some c ->
             length (nd_data c) = length (nd_data c0)).
  { intros k c Hk. cbn [assoc] in Hk.
    destruct (String.eqb k n0); [now injection Hk as <-|].
    clear Ha Hb. induction rest as [|[n1 c1] rest IH]; [discriminate Hk|].
    cbn [forallb snd] in Hsame. apply andb_prop in Hsame as [H1 Hrest].
    cbn [assoc] in Hk. destruct (String.eqb k n1).
    - injection Hk as <-. now apply Nat.eqb_eq.
    - exact (IH Hrest Hk). }
  rewrite (Hall a ca Ha), (Hall b cb Hb). reflexivity.
Qed.

(** The comparison of the loop finds no difference between two columns of
    a frame. *)
Lemma frame_length_check_passes (points : frame ndarray)
  (first_col_name col_name : string) (first_col dim_col : ndarray) :
  same_length_columns points = true ->
  assoc first_col_name points = Some first_col ->
  assoc col_name points = Some dim_col ->
  negb (Nat.eqb (length (nd_data first_col)) (length (nd_data dim_col)))
  = false.
Proof.
  intros Hsame Hfirst Hcol.
  rewrite (same_length_columns_lookup points first_col_name col_name
             first_col dim_col Hsame Hfirst Hcol).
  now rewrite Nat.eqb_refl.
Qed.

(** Were the comparison to find a difference, the error would name both
    columns and give both lengths. *)
Lemma point_indexes_step_mismatch (cube : Dataset) (points : frame ndarray)
  (mapping : option (list (string * string))) (first_name : string)
  (first_col : ndarray) (indexes : list (string * list Z))
  (d : string) (c : ndarray) :
  assoc first_name points = Some first_col ->
  name_in d (ds_coords cube) = true ->
  assoc (column_name mapping d) points = Some c ->
  length (nd_data c) <> length (nd_data first_col) ->
  point_indexes_step cube points mapping (Some first_name, indexes) d
  = Raise (ValueError
      (length_mismatch_message (length (nd_data first_col)) first_name
         (length (nd_data c)) (column_name mapping d))).
Proof.
  intros Hfirst Hcoord Hcol Hlen. unfold point_indexes_step.
  rewrite Hcoord, Hcol. cbn [negb]. rewrite Hfirst.
  destruct (Nat.eqb_spec (length (nd_data first_col)) (length (nd_data c)))
    as [Heq | _].
  - exfalso. apply Hlen. now symmetry.
  - reflexivity.
Qed.

(** C7 (what the code does). A point set whose columns differ in length is
    a mapping, not a frame, and [get_cube_point_indexes] first makes a
    frame of it: pandas raises its own error, which names no column and
    gives no length, and the check of the loop is not reached. *)
Theorem get_cube_point_indexes_ragged_columns :
  (forall (cube : Dataset) (points : frame ndarray)
          (mapping : option (list (string * string))),
      same_length_columns points = false ->
      get_cube_point_indexes cube points mapping true
      = Raise (ValueError "arrays must all be same length")) /\
  same_length_columns points_short_lat = false /\
  get_cube_point_indexes cube_decreasing_lat points_short_lat None false
  = Raise (ValueError "arrays must all be same length").
Proof.
  split; [|split].
  - intros cube points mapping Hragged.
    unfold get_cube_point_indexes, pd_DataFrame. now rewrite Hragged.
  - reflexivity.
  - vm_compute. reflexivity.
Qed.

(** * Properties of tile rendering *)

(** ** The text of [hex(id(ml_dataset))] *)

Lemma raw_of_pos_dash_free (n : nat) :
  forall (p : positive) (rest : string),
    (Pos.size_nat p <= n)%nat ->
    dash_free rest = true ->
    dash_free (HexString.Raw.of_pos p rest) = true.
Proof.
  induction n as [|n IH]; intros p rest Hn Hrest.
  - destruct p; simpl in Hn; lia.
  - do 4 (try destruct p as [p|p|]);
      cbn [HexString.Raw.of_pos];
      first [ apply IH; [cbn [Pos.size_nat] in Hn; lia | cbn; exact Hrest]
            | cbn; exact Hrest ].
Qed.

Lemma hex_dash_free (n : N) : dash_free (HexString.of_N n) = true.
Proof.
  destruct n as [|p]; [reflexivity|].
  cbn. apply (raw_of_pos_dash_free (Pos.size_nat p)); [lia | reflexivity].
Qed.

Lemma hex_injective (n m : N) :
  HexString.of_N n = HexString.of_N m -> n = m.
Proof.
  intros H. rewrite <- (HexString.to_N_of_N n), <- (HexString.to_N_of_N m).
  now rewrite H.
Qed.

Lemma dash_free_prefix_unique (s1 s2 r1 r2 : string) :
  dash_free s1 = true -> dash_free s2 = true ->
  s1 +:+ "-" +:+ r1 = s2 +:+ "-" +:+ r2 -> s1 = s2.
Proof.
  revert s2. induction s1 as [|c s1 IH]; intros [|c' s2] H1 H2 Heq.
  - reflexivity.
  - cbn in Heq, H2. injection Heq as Hc _. subst c'. discriminate H2.
  - cbn in Heq, H1. injection Heq as Hc _. subst c. discriminate H1.
  - cbn in Heq, H1, H2. injection Heq as Hc Htl. subst c'.
    apply andb_prop in H1 as [_ H1]. apply andb_prop in H2 as [_ H2].
    f_equal. exact (IH s2 H1 H2 Htl).
Qed.

(** ** [get_ml_dataset_tile] *)

Section TileProps.

Context {Array Label Attr Grid Cache Tile : Type}.
Variable array_ndim : Array -> nat.
Variable array_attrs : Array -> gmap string Attr.
Variable array_isel : Array -> list (string * Label) -> result Array.
Variable array_sel_nearest : Array -> list (string * Label) -> result Array.
Variable array_load : Array -> result unit.
Variable array_min : Array -> scalar.
Variable array_max : Array -> scalar.
Variable array_values : Array -> Grid.
Variable str_float : Q -> string.
Variable str_label : Label -> string.
Variable image_get_tile : TiledImage Attr Grid Cache -> Z -> Z -> result Tile.

Local Abbreviation id_of := (tile_image_id str_float str_label).
Local Abbreviation plane_of :=
  (select_plane array_ndim array_isel array_sel_nearest).
Local Abbreviation range_of := (normalization_range array_min array_max).
Local Abbreviation image_of :=
  (new_tile_image array_ndim array_attrs array_isel array_sel_nearest
     array_load array_min array_max array_values).
Local Abbreviation tile_of :=
  (get_ml_dataset_tile array_ndim array_attrs array_isel array_sel_nearest
     array_load array_min array_max array_values str_float str_label
     image_get_tile).

Implicit Types (ml_dataset : MultiLevelDataset Array) (var : Array)
  (labels : list (string * Label))
  (image_cache : option (gmap string (TiledImage Attr Grid Cache))).

Lemma tile_image_id_prefix ml_dataset (var_name : string) (z : Z) labels
  (cmap_cbar : option string) (cmap_vmin cmap_vmax : option scalar) :
  id_of ml_dataset var_name z labels cmap_cbar cmap_vmin cmap_vmax
  = HexString.of_N (ml_id ml_dataset) +:+ "-"
      +:+ join "-"
            ([str_Z z; var_name; str_opt_string cmap_cbar;
              str_opt_float str_float cmap_vmin;
              str_opt_float str_float cmap_vmax]
               ++ map (fun '(dim_name, dim_value) =>
                         dim_name +:+ "=" +:+ str_label dim_value) labels).
Proof. reflexivity. Qed.

Lemma tile_image_id_distinct ml_dataset1 ml_dataset2
  (var_name1 var_name2 : string) (z1 z2 : Z) labels1 labels2
  (cmap_cbar1 cmap_cbar2 : option string)
  (cmap_vmin1 cmap_vmax1 cmap_vmin2 cmap_vmax2 : option scalar) :
  ml_id ml_dataset1 <> ml_id ml_dataset2 ->
  id_of ml_dataset1 var_name1 z1 labels1 cmap_cbar1 cmap_vmin1 cmap_vmax1
  <> id_of ml_dataset2 var_name2 z2 labels2 cmap_cbar2 cmap_vmin2 cmap_vmax2.
Proof.
  intros Hid Heq. rewrite !tile_image_id_prefix in Heq.
  apply dash_free_prefix_unique in Heq; try apply hex_dash_free.
  apply Hid, hex_injective, Heq.
Qed.

(** The image cache after a call: as before, or, if it was not empty,
    with the image of the call stored under its identifier. *)
Lemma get_ml_dataset_tile_cache ml_dataset (var_name : string) (x y z : Z)
  (labels : option (list (string * Label))) (labels_are_indices : bool)
  (cmap_cbar : option string) (cmap_vmin cmap_vmax : option scalar)
  image_cache (tile_cache : option Cache) (tile_comp_mode : Z)
  (trace_perf : bool) (exception_type : string -> exn) :
  let image_cache' :=
    snd (tile_of ml_dataset var_name x y z labels labels_are_indices
           cmap_cbar cmap_vmin cmap_vmax image_cache tile_cache
           tile_comp_mode trace_perf exception_type) in
  image_cache' = image_cache \/
  exists (m : gmap string (TiledImage Attr Grid Cache))
         (image : TiledImage Attr Grid Cache),
    image_cache = Some m /\ m <> ∅ /\
    image_cache'
    = Some (<[id_of ml_dataset var_name z (default [] labels) cmap_cbar
                cmap_vmin cmap_vmax := image]> m).
Proof.
  unfold get_ml_dataset_tile.
  destruct (get_dataset ml_dataset _) as [dataset|e]; [|now left].
  destruct (dataset !! var_name) as [var|]; [|now left].
  match goal with
  | |- context [match ?c with Some _ => _ | None => _ end] =>
      destruct c as [cached|]
  end; [now left|].
  destruct (image_of _ _ _ _ _ _ _ _ _ _ _ _ _) as [image|e]; [|now left].
  destruct (cache_truthy image_cache) eqn:Htruthy; [|now left].
  destruct image_cache as [m|]; [|now left].
  right. exists m, image. split; [reflexivity|]. split; [|reflexivity].
  cbn [cache_truthy] in Htruthy. apply negb_true_iff in Htruthy.
  now apply bool_decide_eq_false in Htruthy.
Qed.

(** The image cache enters the result of a call through the entry of its
    identifier alone. *)
Lemma get_ml_dataset_tile_entry ml_dataset (var_name : string) (x y z : Z)
  (labels : option (list (string * Label))) (labels_are_indices : bool)
  (cmap_cbar : option string) (cmap_vmin cmap_vmax : option scalar)
  image_cache image_cache' (tile_cache : option Cache) (tile_comp_mode : Z)
  (trace_perf : bool) (exception_type : string -> exn) :
  let image_id :=
    id_of ml_dataset var_name z (default [] labels) cmap_cbar cmap_vmin
      cmap_vmax in
  cache_truthy image_cache = cache_truthy image_cache' ->
  cache_lookup image_cache image_id = cache_lookup image_cache' image_id ->
  fst (tile_of ml_dataset var_name x y z labels labels_are_indices
         cmap_cbar cmap_vmin cmap_vmax image_cache tile_cache
         tile_comp_mode trace_perf exception_type)
  = fst (tile_of ml_dataset var_name x y z labels labels_are_indices
           cmap_cbar cmap_vmin cmap_vmax image_cache' tile_cache
           tile_comp_mode trace_perf exception_type).
Proof.
  intros image_id Htruthy Hlookup. unfold get_ml_dataset_tile.
  destruct (get_dataset ml_dataset _) as [dataset|e]; [|reflexivity].
  destruct (dataset !! var_name) as [var|]; [|reflexivity].
  fold image_id.
  assert (Hcontains : cache_contains image_cache image_id
                      = cache_contains image_cache' image_id).
  { destruct image_cache as [m|], image_cache' as [m'|];
      cbn [cache_contains cache_lookup] in *; try reflexivity.
    - now rewrite Hlookup.
    - rewrite Hlookup. now apply bool_decide_eq_false, is_Some_None.
    - rewrite <- Hlookup.
      symmetry. now apply bool_decide_eq_false, is_Some_None. }
  rewrite <- Htruthy, <- Hcontains, <- Hlookup.
  destruct (cache_truthy image_cache && cache_contains image_cache image_id);
    [destruct (cache_lookup image_cache image_id) as [image|]|];
    try reflexivity;
    destruct (image_of _ _ _ _ _ _ _ _ _ _ _ _ _) as [image|e]; reflexivity.
Qed.

(** A call that finds no image in the cache constructs one. *)
Lemma get_ml_dataset_tile_miss ml_dataset (var_name : string) (x y z : Z)
  (labels : option (list (string * Label))) (labels_are_indices : bool)
  (cmap_cbar : option string) (cmap_vmin cmap_vmax : option scalar)
  image_cache (tile_cache : option Cache) (tile_comp_mode : Z)
  (trace_perf : bool) (exception_type : string -> exn)
  (dataset : gmap string Array) var :
  get_dataset ml_dataset (Z.of_nat (num_levels ml_dataset) - 1 - z)
  = Ok dataset ->
  dataset !! var_name = Some var ->
  cache_truthy image_cache
  && cache_contains image_cache
       (id_of ml_dataset var_name z (default [] labels) cmap_cbar
          cmap_vmin cmap_vmax) = false ->
  fst (tile_of ml_dataset var_name x y z labels labels_are_indices
         cmap_cbar cmap_vmin cmap_vmax image_cache tile_cache
         tile_comp_mode trace_perf exception_type)
  = image ←
      image_of ml_dataset var var_name
        (id_of ml_dataset var_name z (default [] labels) cmap_cbar
           cmap_vmin cmap_vmax)
        (default [] labels) labels_are_indices cmap_cbar cmap_vmin
        cmap_vmax tile_cache tile_comp_mode trace_perf exception_type;
    image_get_tile image x y.
Proof.
  intros Hds Hvar Hmiss. unfold get_ml_dataset_tile.
  rewrite Hds, Hvar, Hmiss.
  destruct (image_of _ _ _ _ _ _ _ _ _ _ _ _ _) as [image|e]; reflexivity.
Qed.

(** C10, amended. The key under which [get_ml_dataset_tile] looks its
    image up and stores it begins with the hexadecimal text of the
    identity of the [ml_dataset] object, followed by the separator. Of
    two calls with dataset objects of different identity, whatever else
    they hold or are given, the keys differ; the second call, made on the
    image cache as the first call has left it, returns what it returns on
    the image cache before the first call, and it leaves the entry of the
    first call as it is. *)
Theorem tile_image_id_is_per_dataset_object :
  (forall ml_dataset (var_name : string) (z : Z) labels
          (cmap_cbar : option string) (cmap_vmin cmap_vmax : option scalar),
      exists rest : string,
        id_of ml_dataset var_name z labels cmap_cbar cmap_vmin cmap_vmax
        = HexString.of_N (ml_id ml_dataset) +:+ "-" +:+ rest) /\
  (forall ml_dataset1 ml_dataset2 (var_name1 var_name2 : string)
          (x1 y1 z1 x2 y2 z2 : Z)
          (labels1 labels2 : option (list (string * Label)))
          (labels_are_indices1 labels_are_indices2 : bool)
          (cmap_cbar1 cmap_cbar2 : option string)
          (cmap_vmin1 cmap_vmax1 cmap_vmin2 cmap_vmax2 : option scalar)
          image_cache (tile_cache1 tile_cache2 : option Cache)
          (tile_comp_mode1 tile_comp_mode2 : Z)
          (trace_perf1 trace_perf2 : bool)
          (exception_type1 exception_type2 : string -> exn),
      ml_id ml_dataset1 <> ml_id ml_dataset2 ->
      let image_id1 :=
        id_of ml_dataset1 var_name1 z1 (default [] labels1) cmap_cbar1
          cmap_vmin1 cmap_vmax1 in
      let image_id2 :=
        id_of ml_dataset2 var_name2 z2 (default [] labels2) cmap_cbar2
          cmap_vmin2 cmap_vmax2 in
      let image_cache1 :=
        snd (tile_of ml_dataset1 var_name1 x1 y1 z1 labels1
               labels_are_indices1 cmap_cbar1 cmap_vmin1 cmap_vmax1
               image_cache tile_cache1 tile_comp_mode1 trace_perf1
               exception_type1) in
      let second image_cache :=
        tile_of ml_dataset2 var_name2 x2 y2 z2 labels2
          labels_are_indices2 cmap_cbar2 cmap_vmin2 cmap_vmax2
          image_cache tile_cache2 tile_comp_mode2 trace_perf2
          exception_type2 in
      image_id1 <> image_id2 /\
      fst (second image_cache1) = fst (second image_cache) /\
      cache_lookup (snd (second image_cache1)) image_id1
      = cache_lookup image_cache1 image_id1).
Proof.
  split.
  - intros. eexists. apply tile_image_id_prefix.
  - intros ml_dataset1 ml_dataset2 var_name1 var_name2 x1 y1 z1 x2 y2 z2
      labels1 labels2 lai1 lai2 cbar1 cbar2 vmin1 vmax1 vmin2 vmax2
      image_cache tile_cache1 tile_cache2 mode1 mode2 trace_perf1
      trace_perf2 exception_type1 exception_type2 Hid. cbv zeta.
    assert (Hne : id_of ml_dataset1 var_name1 z1 (default [] labels1) cbar1
                    vmin1 vmax1
                  <> id_of ml_dataset2 var_name2 z2 (default [] labels2)
                       cbar2 vmin2 vmax2)
      by (apply tile_image_id_distinct; exact Hid).
    split; [exact Hne|]. split.
    + pose proof (get_ml_dataset_tile_cache ml_dataset1 var_name1 x1 y1 z1
                    labels1 lai1 cbar1 vmin1 vmax1 image_cache tile_cache1
                    mode1 trace_perf1 exception_type1) as Hcache.
      cbv zeta in Hcache.
      destruct Hcache as [Hsame | (m & image & Hm & Hne_empty & Hins)].
      * now rewrite Hsame.
      * rewrite Hins, Hm. apply get_ml_dataset_tile_entry.
        -- cbn [cache_truthy].
           rewrite !bool_decide_eq_false_2;
             [reflexivity | exact Hne_empty | apply insert_non_empty].
        -- cbn [cache_lookup]. now rewrite lookup_insert_ne.
    + match goal with
      | |- cache_lookup (snd (tile_of _ _ _ _ _ _ _ _ _ _ ?c _ _ _ _)) _ = _ =>
          pose proof (get_ml_dataset_tile_cache ml_dataset2 var_name2 x2 y2
                        z2 labels2 lai2 cbar2 vmin2 vmax2 c tile_cache2
                        mode2 trace_perf2 exception_type2) as Hcache
      end.
      cbv zeta in Hcache.
      destruct Hcache as [Hsame | (m & image & Hm & _ & Hins)].
      * now rewrite Hsame.
      * rewrite Hins, Hm. cbn [cache_lookup].
        rewrite lookup_insert_ne; [reflexivity|].
        intros Heq. apply Hne. now symmetry.
Qed.

(** The check of the number of labels, for a variable of more than two
    axes whose image is not in the cache. *)
Lemma label_count_mismatch ml_dataset (var_name : string) (x y z : Z)
  (labels : option (list (string * Label))) (labels_are_indices : bool)
  (cmap_cbar : option string) (cmap_vmin cmap_vmax : option scalar)
  image_cache (tile_cache : option Cache) (tile_comp_mode : Z)
  (trace_perf : bool) (exception_type : string -> exn)
  (dataset : gmap string Array) var :
  get_dataset ml_dataset (Z.of_nat (num_levels ml_dataset) - 1 - z)
  = Ok dataset ->
  dataset !! var_name = Some var ->
  cache_truthy image_cache
  && cache_contains image_cache
       (id_of ml_dataset var_name z (default [] labels) cmap_cbar
          cmap_vmin cmap_vmax) = false ->
  (2 < array_ndim var)%nat ->
  length (default [] labels) <> (array_ndim var - 2)%nat ->
  fst (tile_of ml_dataset var_name x y z labels labels_are_indices
         cmap_cbar cmap_vmin cmap_vmax image_cache tile_cache
         tile_comp_mode trace_perf exception_type)
  = Raise AssertionError.
Proof.
  intros Hds Hvar Hmiss Hndim Hcount.
  rewrite (get_ml_dataset_tile_miss _ _ _ _ _ _ _ _ _ _ _ _ _ _ _ dataset var)
    by assumption.
  unfold new_tile_image, select_plane.
  destruct (Nat.eqb_spec (array_ndim var) 2) as [H2 | _]; [lia|].
  destruct (Nat.ltb_spec 2 (array_ndim var)) as [_ | H2]; [|lia].
  destruct (Nat.eqb_spec (length (default [] labels)) (array_ndim var - 2))
    as [Heq | _]; [contradiction|].
  reflexivity.
Qed.

Lemma label_count_match ml_dataset (var_name : string) (x y z : Z)
  (labels : option (list (string * Label))) (labels_are_indices : bool)
  (cmap_cbar : option string) (cmap_vmin cmap_vmax : option scalar)
  image_cache (tile_cache : option Cache) (tile_comp_mode : Z)
  (trace_perf : bool) (exception_type : string -> exn)
  (dataset : gmap string Array) var (array : Array) :
  get_dataset ml_dataset (Z.of_nat (num_levels ml_dataset) - 1 - z)
  = Ok dataset ->
  dataset !! var_name = Some var ->
  cache_truthy image_cache
  && cache_contains image_cache
       (id_of ml_dataset var_name z (default [] labels) cmap_cbar
          cmap_vmin cmap_vmax) = false ->
  (2 < array_ndim var)%nat ->
  length (default [] labels) = (array_ndim var - 2)%nat ->
  (if labels_are_indices then array_isel var (default [] labels)
   else array_sel_nearest var (default [] labels)) = Ok array ->
  array_load array = Ok tt ->
  cmap_vmin <> None -> cmap_vmax <> None ->
  exists image : TiledImage Attr Grid Cache,
    image_of ml_dataset var var_name
      (id_of ml_dataset var_name z (default [] labels) cmap_cbar
         cmap_vmin cmap_vmax)
      (default [] labels) labels_are_indices cmap_cbar cmap_vmin
      cmap_vmax tile_cache tile_comp_mode trace_perf exception_type
    = Ok image /\
    fst (tile_of ml_dataset var_name x y z labels labels_are_indices
           cmap_cbar cmap_vmin cmap_vmax image_cache tile_cache
           tile_comp_mode trace_perf exception_type)
    = image_get_tile image x y.
Proof.
  intros Hds Hvar Hmiss Hndim Hcount Hsel Hload Hvmin Hvmax.
  destruct cmap_vmin as [vmin|]; [|contradiction].
  destruct cmap_vmax as [vmax|]; [|contradiction].
  rewrite (get_ml_dataset_tile_miss _ _ _ _ _ _ _ _ _ _ _ _ _ _ _ dataset var)
    by assumption.
  unfold new_tile_image, select_plane.
  destruct (Nat.eqb_spec (array_ndim var) 2) as [H2 | _]; [lia|].
  destruct (Nat.ltb_spec 2 (array_ndim var)) as [_ | H2]; [|lia].
  rewrite Hcount, Nat.eqb_refl, Hsel. cbn [mbind result_bind].
  rewrite Hload. cbn [mbind result_bind].
  unfold normalization_range.
  destruct vmin, vmax; cbn [np_isnan mbind result_bind];
    destruct (Z.eqb tile_comp_mode 0); eexists; split; reflexivity.
Qed.

(** The colour range: a bound given as a number is kept, a bound given as
    not-a-number is taken from the array. *)
Lemma normalization_range_given (array : Array) (vmin vmax : scalar) :
  range_of array (Some vmin) (Some vmax)
  = Ok (match vmin with SNaN => array_min array | SNum _ => vmin end,
        match vmax with SNaN => array_max array | SNum _ => vmax end).
Proof. destruct vmin, vmax; reflexivity. Qed.

Lemma normalization_range_none (array : Array)
  (cmap_vmin cmap_vmax : option scalar) :
  cmap_vmin = None \/ cmap_vmax = None ->
  range_of array cmap_vmin cmap_vmax = Raise isnan_type_error.
Proof.
  intros [-> | ->]; [reflexivity|].
  destruct cmap_vmin as [[q|]|]; reflexivity.
Qed.

(** With exactly [ndim - 2] labels and a bound of the colour range left
    at [None], the selection is made and loaded and the call then raises
    on its test for not-a-number. *)
Lemma label_count_match_range_none ml_dataset (var_name : string)
  (x y z : Z) (labels : option (list (string * Label)))
  (labels_are_indices : bool) (cmap_cbar : option string)
  (cmap_vmin cmap_vmax : option scalar) image_cache
  (tile_cache : option Cache) (tile_comp_mode : Z) (trace_perf : bool)
  (exception_type : string -> exn) (dataset : gmap string Array) var
  (array : Array) :
  get_dataset ml_dataset (Z.of_nat (num_levels ml_dataset) - 1 - z)
  = Ok dataset ->
  dataset !! var_name = Some var ->
  cache_truthy image_cache
  && cache_contains image_cache
       (id_of ml_dataset var_name z (default [] labels) cmap_cbar
          cmap_vmin cmap_vmax) = false ->
  (2 < array_ndim var)%nat ->
  length (default [] labels) = (array_ndim var - 2)%nat ->
  (if labels_are_indices then array_isel var (default [] labels)
   else array_sel_nearest var (default [] labels)) = Ok array ->
  array_load array = Ok tt ->
  cmap_vmin = None \/ cmap_vmax = None ->
  fst (tile_of ml_dataset var_name x y z labels labels_are_indices
         cmap_cbar cmap_vmin cmap_vmax image_cache tile_cache
         tile_comp_mode trace_perf exception_type)
  = Raise isnan_type_error.
Proof.
  intros Hds Hvar Hmiss Hndim Hcount Hsel Hload Hnone.
  rewrite (get_ml_dataset_tile_miss _ _ _ _ _ _ _ _ _ _ _ _ _ _ _ dataset var)
    by assumption.
  unfold new_tile_image, select_plane.
  destruct (Nat.eqb_spec (array_ndim var) 2) as [H2 | _]; [lia|].
  destruct (Nat.ltb_spec 2 (array_ndim var)) as [_ | H2]; [|lia].
  rewrite Hcount, Nat.eqb_refl, Hsel. cbn [mbind result_bind].
  rewrite Hload. cbn [mbind result_bind].
  now rewrite normalization_range_none.
Qed.

(** C9 (what the code does). For a variable of more than two axes whose
    image is not in the image cache, a number of labels other than
    [ndim - 2] makes [get_ml_dataset_tile] fail on its assertion. Exactly
    [ndim - 2] labels pass the assertion, but the call does not succeed
    with them alone: with [cmap_vmin] or [cmap_vmax] left at [None], the
    default of the parameters, it raises the [TypeError] of [np.isnan]
    once the selection has been made and loaded. Only when both bounds of
    the colour range are given is the image constructed and its tile
    asked for. *)
Theorem label_count_is_checked ml_dataset (var_name : string) (x y z : Z)
  (labels : option (list (string * Label))) (labels_are_indices : bool)
  (cmap_cbar : option string) (cmap_vmin cmap_vmax : option scalar)
  image_cache (tile_cache : option Cache) (tile_comp_mode : Z)
  (trace_perf : bool) (exception_type : string -> exn)
  (dataset : gmap string Array) var :
  get_dataset ml_dataset (Z.of_nat (num_levels ml_dataset) - 1 - z)
  = Ok dataset ->
  dataset !! var_name = Some var ->
  cache_truthy image_cache
  && cache_contains image_cache
       (id_of ml_dataset var_name z (default [] labels) cmap_cbar
          cmap_vmin cmap_vmax) = false ->
  (2 < array_ndim var)%nat ->
  (length (default [] labels) <> (array_ndim var - 2)%nat ->
   fst (tile_of ml_dataset var_name x y z labels labels_are_indices
          cmap_cbar cmap_vmin cmap_vmax image_cache tile_cache
          tile_comp_mode trace_perf exception_type)
   = Raise AssertionError) /\
  (length (default [] labels) = (array_ndim var - 2)%nat ->
   forall array : Array,
     (if labels_are_indices then array_isel var (default [] labels)
      else array_sel_nearest var (default [] labels)) = Ok array ->
     array_load array = Ok tt ->
     (cmap_vmin = None \/ cmap_vmax = None ->
      fst (tile_of ml_dataset var_name x y z labels labels_are_indices
             cmap_cbar cmap_vmin cmap_vmax image_cache tile_cache
             tile_comp_mode trace_perf exception_type)
      = Raise isnan_type_error) /\
     (cmap_vmin <> None -> cmap_vmax <> None ->
      exists image : TiledImage Attr Grid Cache,
        image_of ml_dataset var var_name
          (id_of ml_dataset var_name z (default [] labels) cmap_cbar
             cmap_vmin cmap_vmax)
          (default [] labels) labels_are_indices cmap_cbar cmap_vmin
          cmap_vmax tile_cache tile_comp_mode trace_perf exception_type
        = Ok image /\
        fst (tile_of ml_dataset var_name x y z labels labels_are_indices
               cmap_cbar cmap_vmin cmap_vmax image_cache tile_cache
               tile_comp_mode trace_perf exception_type)
        = image_get_tile image x y)).
Proof.
  intros Hds Hvar Hmiss Hndim. split.
  - intros Hcount. now apply (label_count_mismatch _ _ _ _ _ _ _ _ _ _ _ _ _
                                _ _ dataset var).
  - intros Hcount array Hsel Hload. split.
    + intros Hnone.
      now apply (label_count_match_range_none _ _ _ _ _ _ _ _ _ _ _ _ _ _ _
                   dataset var array).
    + intros Hvmin Hvmax.
      now apply (label_count_match _ _ _ _ _ _ _ _ _ _ _ _ _ _ _ dataset var
                   array).
Qed.

(** C5 (what the code does). A call that finds no image in the cache and
    leaves [cmap_vmin] or [cmap_vmax] at [None], the default of the
    parameters, raises the [TypeError] of [np.isnan] after the plane has
    been loaded: no bound is derived from the plane. *)
Theorem get_ml_dataset_tile_range_none_raises ml_dataset
  (var_name : string) (x y z : Z)
  (labels : option (list (string * Label))) (labels_are_indices : bool)
  (cmap_cbar : option string) (cmap_vmin cmap_vmax : option scalar)
  image_cache (tile_cache : option Cache) (tile_comp_mode : Z)
  (trace_perf : bool) (exception_type : string -> exn)
  (dataset : gmap string Array) var (array : Array) :
  get_dataset ml_dataset (Z.of_nat (num_levels ml_dataset) - 1 - z)
  = Ok dataset ->
  dataset !! var_name = Some var ->
  cache_truthy image_cache
  && cache_contains image_cache
       (id_of ml_dataset var_name z (default [] labels) cmap_cbar
          cmap_vmin cmap_vmax) = false ->
  plane_of var var_name (default [] labels) labels_are_indices
    exception_type = Ok array ->
  array_load array = Ok tt ->
  cmap_vmin = None \/ cmap_vmax = None ->
  fst (tile_of ml_dataset var_name x y z labels labels_are_indices
         cmap_cbar cmap_vmin cmap_vmax image_cache tile_cache
         tile_comp_mode trace_perf exception_type)
  = Raise isnan_type_error.
Proof.
  intros Hds Hvar Hmiss Hplane Hload Hnone.
  rewrite (get_ml_dataset_tile_miss _ _ _ _ _ _ _ _ _ _ _ _ _ _ _ dataset var)
    by assumption.
  unfold new_tile_image. rewrite Hplane. cbn [mbind result_bind].
  rewrite Hload. cbn [mbind result_bind].
  now rewrite normalization_range_none.
Qed.

End TileProps.

Lemma tile_image_id_is_per_dataset_object_witness :
  tile_image_id Toy.str_float str_Z (Toy.ml_dataset_at 1000) "sst" 0
    [("time", 0%Z)] None (Some (SNum 0)) (Some (SNum 1))
  <> tile_image_id Toy.str_float str_Z (Toy.ml_dataset_at 2000) "sst" 0
       [("time", 0%Z)] None (Some (SNum 0)) (Some (SNum 1)) /\
  fst (Toy.render (Toy.ml_dataset_at 2000) "sst" 0 0 0
         (Some [("time", 0%Z)]) true (Some (SNum 0)) (Some (SNum 1))
         (snd (Toy.render (Toy.ml_dataset_at 1000) "sst" 0 0 0
                 (Some [("time", 0%Z)]) true (Some (SNum 0)) (Some (SNum 1))
                 Toy.seeded_cache)))
  = fst (Toy.render (Toy.ml_dataset_at 2000) "sst" 0 0 0
           (Some [("time", 0%Z)]) true (Some (SNum 0)) (Some (SNum 1))
           Toy.seeded_cache) /\
  cache_lookup
    (snd (Toy.render (Toy.ml_dataset_at 2000) "sst" 0 0 0
            (Some [("time", 0%Z)]) true (Some (SNum 0)) (Some (SNum 1))
            (snd (Toy.render (Toy.ml_dataset_at 1000) "sst" 0 0 0
                    (Some [("time", 0%Z)]) true (Some (SNum 0))
                    (Some (SNum 1)) Toy.seeded_cache))))
    (tile_image_id Toy.str_float str_Z (Toy.ml_dataset_at 1000) "sst" 0
       [("time", 0%Z)] None (Some (SNum 0)) (Some (SNum 1)))
  = cache_lookup
      (snd (Toy.render (Toy.ml_dataset_at 1000) "sst" 0 0 0
              (Some [("time", 0%Z)]) true (Some (SNum 0)) (Some (SNum 1))
              Toy.seeded_cache))
      (tile_image_id Toy.str_float str_Z (Toy.ml_dataset_at 1000) "sst" 0
         [("time", 0%Z)] None (Some (SNum 0)) (Some (SNum 1))).
Proof.
  apply (proj2 (tile_image_id_is_per_dataset_object Toy.ndim Toy.attrs
                  Toy.select Toy.select Toy.load Toy.min Toy.max Toy.values
                  Toy.str_float str_Z Toy.get_tile)
           (Toy.ml_dataset_at 1000) (Toy.ml_dataset_at 2000) "sst" "sst"
           0%Z 0%Z 0%Z 0%Z 0%Z 0%Z (Some [("time", 0%Z)])
           (Some [("time", 0%Z)]) true true None None
           (Some (SNum 0)) (Some (SNum 1)) (Some (SNum 0)) (Some (SNum 1))
           Toy.seeded_cache None None 0%Z 0%Z false false
           ValueError ValueError).
  discriminate.
Defined.

(** The last clause of C10 fails: a cache hit does not require the same
    object. The key holds the identity of the object as a number, and an
    object made after the first one has been freed can get the same
    number. A call with such an object, here one whose variable holds
    other values, finds the image that the call with the first object has
    stored, and returns the tile of that image, made of the values of the
    first object. *)
Lemma tile_image_id_is_per_dataset_object_counterexample :
  let image_id :=
    tile_image_id Toy.str_float str_Z (Toy.ml_dataset_at 1000) "mask" 0 []
      None (Some (SNum 0)) (Some (SNum 1)) in
  let image_cache :=
    snd (Toy.render (Toy.ml_dataset_at 1000) "mask" 0 0 0 None false
           (Some (SNum 0)) (Some (SNum 1)) Toy.seeded_cache) in
  Toy.ml_dataset_at 1000 <> Toy.ml_dataset_other_at 1000 /\
  Toy.values Toy.var2 <> Toy.values Toy.var2_other /\
  exists image : TiledImage Q (list scalar) unit,
    cache_lookup image_cache image_id = Some image /\
    image_array image = Toy.values Toy.var2 /\
    Toy.render (Toy.ml_dataset_other_at 1000) "mask" 0 0 0 None false
      (Some (SNum 0)) (Some (SNum 1)) image_cache
    = (Toy.get_tile image 0 0, image_cache).
Proof.
  cbv zeta. split; [|split].
  - intros Heq.
    assert (Hds : get_dataset (Toy.ml_dataset_at 1000) 0%Z
                  = get_dataset (Toy.ml_dataset_other_at 1000) 0%Z)
      by now rewrite Heq.
    apply (f_equal (fun r : result (gmap string (DataArray scalar)) =>
                      match r with
                      | Ok m => m !! "mask"
                      | Raise _ => None
                      end)) in Hds.
    vm_compute in Hds. discriminate Hds.
  - discriminate.
  - eexists. split; [|split].
    + vm_compute. reflexivity.
    + reflexivity.
    + vm_compute. reflexivity.
Qed.

Lemma label_count_is_checked_witness :
  fst (Toy.render (Toy.ml_dataset_at 1000) "sst" 0 0 0 None true
         None None None)
  = Raise AssertionError /\
  fst (Toy.render (Toy.ml_dataset_at 1000) "sst" 0 0 0
         (Some [("time", 0%Z); ("lat", 0%Z)]) true None None None)
  = Raise AssertionError /\
  fst (Toy.render (Toy.ml_dataset_at 1000) "sst" 0 0 0
         (Some [("time", 0%Z)]) true None None None)
  = Raise isnan_type_error /\
  exists image : TiledImage Q (list scalar) unit,
    fst (Toy.render (Toy.ml_dataset_at 1000) "sst" 0 0 0
           (Some [("time", 0%Z)]) true (Some (SNum 0)) (Some (SNum 1)) None)
    = Toy.get_tile image 0 0.
Proof.
  split; [|split; [|split]].
  - apply (proj1 (label_count_is_checked Toy.ndim Toy.attrs Toy.select
                    Toy.select Toy.load Toy.min Toy.max Toy.values
                    Toy.str_float str_Z Toy.get_tile
                    (Toy.ml_dataset_at 1000) "sst" 0 0 0 None true None
                    None None None None 0 false
                    ValueError Toy.level_dataset Toy.var3
                    eq_refl eq_refl eq_refl (le_n 3))).
    discriminate.
  - apply (proj1 (label_count_is_checked Toy.ndim Toy.attrs Toy.select
                    Toy.select Toy.load Toy.min Toy.max Toy.values
                    Toy.str_float str_Z Toy.get_tile
                    (Toy.ml_dataset_at 1000) "sst" 0 0 0
                    (Some [("time", 0%Z); ("lat", 0%Z)]) true None
                    None None None None 0 false
                    ValueError Toy.level_dataset Toy.var3
                    eq_refl eq_refl eq_refl (le_n 3))).
    discriminate.
  - apply (proj1 (proj2 (label_count_is_checked Toy.ndim Toy.attrs
                           Toy.select Toy.select Toy.load Toy.min Toy.max
                           Toy.values Toy.str_float str_Z Toy.get_tile
                           (Toy.ml_dataset_at 1000) "sst" 0 0 0
                           (Some [("time", 0%Z)]) true None
                           None None None None 0 false
                           ValueError Toy.level_dataset Toy.var3
                           eq_refl eq_refl eq_refl (le_n 3))
                   eq_refl
                   (mk_DataArray ["lat"; "lon"] [2%nat; 2%nat] Float64 None
                      None [SNum 1; SNum 2; SNum 3; SNum 4])
                   eq_refl eq_refl)).
    now left.
  - destruct (proj2 (proj2 (label_count_is_checked Toy.ndim Toy.attrs
                              Toy.select Toy.select Toy.load Toy.min Toy.max
                              Toy.values Toy.str_float str_Z Toy.get_tile
                              (Toy.ml_dataset_at 1000) "sst" 0 0 0
                              (Some [("time", 0%Z)]) true None
                              (Some (SNum 0)) (Some (SNum 1)) None None 0
                              false ValueError Toy.level_dataset Toy.var3
                              eq_refl eq_refl eq_refl (le_n 3))
                      eq_refl
                      (mk_DataArray ["lat"; "lon"] [2%nat; 2%nat] Float64
                         None None [SNum 1; SNum 2; SNum 3; SNum 4])
                      eq_refl eq_refl))
      as (image & _ & Htile).
    + discriminate.
    + discriminate.
    + exists image. exact Htile.
Defined.

Lemma get_ml_dataset_tile_range_none_raises_witness :
  fst (Toy.render (Toy.ml_dataset_at 1000) "mask" 0 0 0 None false
         None None None)
  = Raise isnan_type_error.
Proof.
  apply (get_ml_dataset_tile_range_none_raises Toy.ndim Toy.attrs Toy.select
           Toy.select Toy.load Toy.min Toy.max Toy.values Toy.str_float
           str_Z Toy.get_tile (Toy.ml_dataset_at 1000) "mask" 0 0 0 None
           false None None None None None 0 false ValueError
           Toy.level_dataset Toy.var2 Toy.var2).
  - reflexivity.
  - reflexivity.
  - reflexivity.
  - reflexivity.
  - reflexivity.
  - now left.
Defined.

(** * Further properties of coordinate index resolution *)

Section CoordExtra.
Local Open Scope Q_scope.

Lemma zip_with3_length_map {A B C D : Type} (f : B -> C -> D) (g : A -> B)
  (h : A -> C) (l : list A) :
  length (zip_with3 f (map g l) (map h l)) = length l.
Proof. now rewrite zip_with3_map, length_map. Qed.

Lemma query_values_length (cv : ndarray) :
  length (query_values cv) = length (nd_data cv).
Proof.
  unfold query_values, astype_uint64.
  destruct (is_datetime (nd_dtype cv)); [apply length_map | reflexivity].
Qed.

Lemma positions_length (coords : list Q) (n1 : nat) (cv : ndarray) :
  length (positions coords n1 cv) = length (nd_data cv).
Proof. unfold positions. now rewrite length_map, query_values_length. Qed.

Lemma orient_length {A : Type} (r : bool) (l : list A) :
  length (orient r l) = length l.
Proof. destruct r; [apply length_rev | reflexivity]. Qed.

(** Whenever [get_coord_indexes] returns, the edge array had one entry
    more than the axis has cells. *)
Lemma get_coord_indexes_ok_edges (ds : Dataset) (name : string)
  (cv : ndarray) (ret_fractions : bool) (res : list Z * option (list Q)) :
  get_coord_indexes ds name cv ret_fractions = Ok res ->
  exists (coords : list Q) (is_reversed : bool) (n1 : nat),
    coord_edges ds name = Ok (coords, is_reversed, n1) /\
    length coords = S n1.
Proof.
  unfold get_coord_indexes.
  destruct (coord_edges ds name) as [[[coords r] n1]|e]; [|discriminate].
  cbn [mbind result_bind]. unfold np_interp.
  destruct coords as [|c0 coords']; [discriminate|].
  rewrite linspace_length.
  destruct (Nat.eqb_spec (length (c0 :: coords')) (S n1)) as [Hlen | Hlen];
    [|discriminate].
  intros _. exists (c0 :: coords'), r, n1. split; [reflexivity | exact Hlen].
Qed.

Lemma get_coord_indexes_without_fractions (ds : Dataset) (name : string)
  (cv : ndarray) (indexes : list Z) (fractions : option (list Q)) :
  get_coord_indexes ds name cv false = Ok (indexes, fractions) ->
  fractions = None.
Proof.
  intros Hres.
  destruct (get_coord_indexes_ok_edges ds name cv false _ Hres)
    as (coords & r & n1 & Hedges & Hlen).
  rewrite (get_coord_indexes_eq ds name coords r n1 cv false Hedges Hlen)
    in Hres.
  now injection Hres as _ <-.
Qed.

(** The arrays returned by [get_coord_indexes] have one entry per query
    value, and fractions are returned exactly when they are asked for. *)
Theorem get_coord_indexes_lengths (ds : Dataset) (name : string)
  (cv : ndarray) (ret_fractions : bool) (indexes : list Z)
  (fractions : option (list Q)) :
  get_coord_indexes ds name cv ret_fractions = Ok (indexes, fractions) ->
  length indexes = length (nd_data cv) /\
  match fractions with
  | Some f => ret_fractions = true /\ length f = length (nd_data cv)
  | None => ret_fractions = false
  end.
Proof.
  intros Hres.
  destruct (get_coord_indexes_ok_edges ds name cv ret_fractions _ Hres)
    as (coords & r & n1 & Hedges & Hlen).
  rewrite (get_coord_indexes_eq ds name coords r n1 cv ret_fractions Hedges Hlen)
    in Hres.
  injection Hres as <- <-. split.
  - now rewrite orient_length, length_map, positions_length.
  - destruct ret_fractions; [split; [reflexivity|] | reflexivity].
    now rewrite orient_length, length_map, positions_length.
Qed.

Lemma get_coord_indexes_lengths_witness :
  length [1; -1; 3]%Z = length (nd_data (mk_ndarray Float64 [25; 5; 50])) /\
  match @None (list Q) with
  | Some f => false = true /\
              length f = length (nd_data (mk_ndarray Float64 [25; 5; 50]))
  | None => false = false
  end.
Proof.
  apply (get_coord_indexes_lengths lat_axis "lat"
           (mk_ndarray Float64 [25; 5; 50]) false [1; -1; 3]%Z None).
  vm_compute. reflexivity.
Defined.











End CoordExtra.

(** A time axis needs its bounds. For a 1-D coordinate variable of more
    than one [datetime64] or unsigned value for which [_get_bounds_var]
    finds no bounds, [get_coord_indexes] raises the [TypeError] of numpy's
    in-place subtraction, whatever values are asked for: the centres are
    taken as unsigned integers, and half the float distances cannot be
    subtracted from them in place. *)
Theorem get_coord_indexes_time_centers_raise (ds : Dataset) (name : string)
  (var : DataArray Q) (cv : ndarray) (ret_fractions : bool) :
  ds_getitem ds name = Ok var ->
  _get_bounds_var ds name = Ok None ->
  length (da_shape var) = 1%nat ->
  (1 < da_size var)%nat ->
  da_dtype var = Datetime64 \/ da_dtype var = Uint64 ->
  get_coord_indexes ds name cv ret_fractions = Raise subtract_cast_error.
Proof.
  intros Hvar Hbounds Hshape Hsize Hdtype.
  unfold get_coord_indexes, coord_edges. rewrite Hvar, Hbounds.
  cbn [mbind result_bind].
  destruct (Nat.ltb_spec 1 (da_size var)) as [_|E]; [|lia].
  rewrite Hshape. cbn [Nat.eqb negb].
  destruct Hdtype as [-> | ->]; reflexivity.
Qed.

Lemma get_coord_indexes_time_centers_raise_witness :
  get_coord_indexes time_centers "time" (mk_ndarray Datetime64 [15%Q]) false
  = Raise subtract_cast_error.
Proof.
  apply (get_coord_indexes_time_centers_raise time_centers "time"
           (mk_DataArray ["time"] [3%nat] Datetime64 None None
              [10%Q; 20%Q; 30%Q])).
  - reflexivity.
  - reflexivity.
  - reflexivity.
  - cbn. lia.
  - now left.
Defined.

(** * Further properties of point extraction *)

Section PointIndexesExtra.

Variable cube : Dataset.
Variable points : frame ndarray.
Variable mapping : option (list (string * string)).

Local Abbreviation resolved := (resolved_column cube points mapping).

Lemma point_indexes_step_ok (st st' : option string * list (string * list Z))
  (d : string) :
  point_indexes_step cube points mapping st d = Ok st' ->
  exists entry : string * list Z,
    snd st' = snd st ++ [entry] /\ resolved d entry.
Proof.
  destruct st as [first indexes]. unfold point_indexes_step.
  destruct (negb (name_in d (ds_coords cube))); [discriminate|].
  destruct (assoc (column_name mapping d) points) as [c|] eqn:Hc;
    [|discriminate].
  match goal with
  | |- (?m ≫= _) = _ -> _ => destruct m as [first'|e]; [|discriminate]
  end.
  cbn [mbind result_bind].
  destruct (get_coord_indexes cube d c false) as [[ix fr]|e] eqn:Hres;
    [|discriminate].
  cbn [mbind result_bind fst]. intros H. injection H as <-.
  exists (d, ix). split; [reflexivity|]. split; [reflexivity|].
  exists c. split; [exact Hc|]. cbn [snd].
  rewrite (get_coord_indexes_without_fractions cube d c ix fr Hres) in Hres.
  exact Hres.
Qed.

Lemma point_indexes_loop_ok (dims : list string)
  (st st' : option string * list (string * list Z)) :
  for_each (point_indexes_step cube points mapping) dims st = Ok st' ->
  exists entries : list (string * list Z),
    snd st' = snd st ++ entries /\ Forall2 resolved dims entries.
Proof.
  revert st. induction dims as [|d dims IH]; intros st Hloop.
  - injection Hloop as <-. exists []. split; [now rewrite app_nil_r|constructor].
  - cbn [for_each] in Hloop.
    destruct (point_indexes_step cube points mapping st d) as [st1|e] eqn:Hstep;
      [|discriminate].
    cbn [mbind result_bind] in Hloop.
    destruct (point_indexes_step_ok st st1 d Hstep) as (entry & Hsnd & Hentry).
    destruct (IH st1 Hloop) as (entries & Hsnd' & Hentries).
    exists (entry :: entries). split.
    + rewrite Hsnd', Hsnd, <- app_assoc. reflexivity.
    + now constructor.
Qed.

End PointIndexesExtra.

(** The frame that [get_cube_point_indexes] returns has one column per
    dimension of the data variables, in their order and under their names
    (not under the names of the columns of the points), and the column of a
    dimension is what [get_coord_indexes] gives for the coordinates of its
    column. *)
Theorem get_cube_point_indexes_columns (cube : Dataset)
  (points : frame ndarray) (mapping : option (list (string * string)))
  (cube_asserted : bool) (indexes : frame (list Z)) :
  get_cube_point_indexes cube points mapping cube_asserted = Ok indexes ->
  exists dims : list string,
    _get_cube_data_var_dims cube = Ok dims /\
    Forall2
      (fun d entry =>
         fst entry = d /\
         exists c : ndarray,
           assoc (column_name mapping d) points = Some c /\
           get_coord_indexes cube d c false = Ok (snd entry, None))
      dims indexes.
Proof.
  unfold get_cube_point_indexes.
  destruct (if cube_asserted then Ok tt else assert_cube cube) as [[]|e];
    [|discriminate].
  cbn [mbind result_bind]. unfold pd_DataFrame.
  destruct (same_length_columns points); [|discriminate].
  cbn [mbind result_bind].
  destruct (_get_cube_data_var_dims cube) as [dims|e]; [|discriminate].
  cbn [mbind result_bind].
  destruct (for_each (point_indexes_step cube points mapping) dims (None, []))
    as [st|e] eqn:Hloop; [|discriminate].
  cbn [mbind result_bind]. intros H. injection H as <-.
  exists dims. split; [reflexivity|].
  destruct (point_indexes_loop_ok cube points mapping dims _ _ Hloop)
    as (entries & Hsnd & Hentries).
  cbn [snd app] in Hsnd. rewrite Hsnd. exact Hentries.
Qed.

Lemma get_cube_point_indexes_columns_witness :
  exists dims : list string,
    _get_cube_data_var_dims cube_increasing_lat = Ok dims /\
    Forall2
      (fun d entry =>
         fst entry = d /\
         exists c : ndarray,
           assoc (column_name None d) point_lat_30 = Some c /\
           get_coord_indexes cube_increasing_lat d c false
           = Ok (snd entry, None))
      dims [("time", [0]%Z); ("lat", [1]%Z); ("lon", [0]%Z)].
Proof.
  apply (get_cube_point_indexes_columns cube_increasing_lat point_lat_30
           None false).
  vm_compute. reflexivity.
Defined.

Lemma for_each_app {S A : Type} (f : S -> A -> result S)
  (l1 l2 : list A) (s : S) :
  for_each f (l1 ++ l2) s = s' ← for_each f l1 s; for_each f l2 s'.
Proof.
  revert s. induction l1 as [|a l1 IH]; intros s; [reflexivity|].
  cbn [app for_each]. destruct (f s a) as [s'|e]; [apply IH | reflexivity].
Qed.

Section PointIndexesErrors.

Variable cube : Dataset.
Variable points : frame ndarray.
Variable mapping : option (list (string * string)).
Hypothesis one_length : same_length_columns points = true.

Lemma point_indexes_step_succeeds
  (st : option string * list (string * list Z)) (d : string) :
  first_column_found points st ->
  dimension_resolves cube points mapping d ->
  exists st' : option string * list (string * list Z),
    point_indexes_step cube points mapping st d = Ok st' /\
    first_column_found points st'.
Proof.
  destruct st as [first indexes].
  intros Hfirst (Hcoord & c & Hc & Hok). unfold point_indexes_step.
  rewrite Hcoord, Hc. cbn [negb].
  destruct (get_coord_indexes cube d c false) as [r|e] eqn:Hres;
    [|discriminate Hok].
  destruct first as [fn|].
  - unfold first_column_found, name_in in Hfirst. cbn [fst] in Hfirst.
    destruct (assoc fn points) as [fc|] eqn:Hfn; [|discriminate Hfirst].
    rewrite (frame_length_check_passes points fn (column_name mapping d)
               fc c one_length Hfn Hc).
    cbn [mbind result_bind].
    eexists. split; [reflexivity|].
    unfold first_column_found, name_in. cbn [fst]. now rewrite Hfn.
  - cbn [mbind result_bind].
    eexists. split; [reflexivity|].
    unfold first_column_found, name_in. cbn [fst]. now rewrite Hc.
Qed.

Lemma point_indexes_loop_succeeds (pre : list string)
  (st : option string * list (string * list Z)) :
  first_column_found points st ->
  Forall (dimension_resolves cube points mapping) pre ->
  exists st' : option string * list (string * list Z),
    for_each (point_indexes_step cube points mapping) pre st = Ok st' /\
    first_column_found points st'.
Proof.
  revert st. induction pre as [|d pre IH]; intros st Hst Hpre.
  - exists st. split; [reflexivity | exact Hst].
  - apply Forall_cons_iff in Hpre as [Hd Hpre].
    destruct (point_indexes_step_succeeds st d Hst Hd) as (st1 & Hstep & Hst1).
    destruct (IH st1 Hst1 Hpre) as (st' & Hloop & Hst').
    exists st'. split; [|exact Hst'].
    cbn [for_each]. rewrite Hstep. exact Hloop.
Qed.

Lemma point_indexes_step_missing_coord
  (st : option string * list (string * list Z)) (d : string) :
  name_in d (ds_coords cube) = false ->
  point_indexes_step cube points mapping st d
  = Raise (ValueError
      ("missing coordinate variable for dimension " +:+ repr_str d)).
Proof.
  destruct st as [first indexes]. intros H. unfold point_indexes_step.
  now rewrite H.
Qed.

Lemma point_indexes_step_missing_column
  (st : option string * list (string * list Z)) (d : string) :
  name_in d (ds_coords cube) = true ->
  assoc (column_name mapping d) points = None ->
  point_indexes_step cube points mapping st d
  = Raise (ValueError
      ("column " +:+ repr_str (column_name mapping d)
         +:+ " not found in points")).
Proof.
  destruct st as [first indexes]. intros H Hc. unfold point_indexes_step.
  now rewrite H, Hc.
Qed.

End PointIndexesErrors.

(** The first dimension of the data variables without a coordinate
    variable, or without a column in the points, ends
    [get_cube_point_indexes] with an error that names it: the dimension in
    the first case, the column that the name mapping gives for it in the
    second. *)
Theorem get_cube_point_indexes_names_missing (cube : Dataset)
  (points : frame ndarray) (mapping : option (list (string * string)))
  (cube_asserted : bool) (pre : list string) (d : string)
  (rest : list string) :
  (cube_asserted = false -> assert_cube cube = Ok tt) ->
  same_length_columns points = true ->
  _get_cube_data_var_dims cube = Ok (pre ++ d :: rest) ->
  Forall (dimension_resolves cube points mapping) pre ->
  (name_in d (ds_coords cube) = false ->
   get_cube_point_indexes cube points mapping cube_asserted
   = Raise (ValueError
       ("missing coordinate variable for dimension " +:+ repr_str d))) /\
  (name_in d (ds_coords cube) = true ->
   assoc (column_name mapping d) points = None ->
   get_cube_point_indexes cube points mapping cube_asserted
   = Raise (ValueError
       ("column " +:+ repr_str (column_name mapping d)
          +:+ " not found in points"))).
Proof.
  intros Hassert Hsame Hdims Hpre.
  assert (Ha : (if cube_asserted then Ok tt else assert_cube cube) = Ok tt).
  { destruct cube_asserted; [reflexivity | now apply Hassert]. }
  destruct (point_indexes_loop_succeeds cube points mapping Hsame pre
              (None, []) I Hpre) as (st & Hloop & _).
  split.
  - intros Hcoord. unfold get_cube_point_indexes, pd_DataFrame.
    rewrite Ha, Hsame, Hdims. cbn [mbind result_bind].
    rewrite for_each_app, Hloop. cbn [mbind result_bind for_each].
    now rewrite point_indexes_step_missing_coord.
  - intros Hcoord Hcol. unfold get_cube_point_indexes, pd_DataFrame.
    rewrite Ha, Hsame, Hdims. cbn [mbind result_bind].
    rewrite for_each_app, Hloop. cbn [mbind result_bind for_each].
    now rewrite point_indexes_step_missing_column.
Qed.

Lemma get_cube_point_indexes_names_missing_witness :
  (name_in "lat" (ds_coords cube_increasing_lat) = false ->
   get_cube_point_indexes cube_increasing_lat
     [("time", mk_ndarray Datetime64 [50%Q]);
      ("latitude", mk_ndarray Float64 [30%Q])]
     (Some [("lat", "y")]) false
   = Raise (ValueError
       ("missing coordinate variable for dimension " +:+ repr_str "lat"))) /\
  (name_in "lat" (ds_coords cube_increasing_lat) = true ->
   assoc (column_name (Some [("lat", "y")]) "lat")
     [("time", mk_ndarray Datetime64 [50%Q]);
      ("latitude", mk_ndarray Float64 [30%Q])] = None ->
   get_cube_point_indexes cube_increasing_lat
     [("time", mk_ndarray Datetime64 [50%Q]);
      ("latitude", mk_ndarray Float64 [30%Q])]
     (Some [("lat", "y")]) false
   = Raise (ValueError
       ("column " +:+ repr_str (column_name (Some [("lat", "y")]) "lat")
          +:+ " not found in points"))).
Proof.
  apply (get_cube_point_indexes_names_missing cube_increasing_lat
           [("time", mk_ndarray Datetime64 [50%Q]);
            ("latitude", mk_ndarray Float64 [30%Q])]
           (Some [("lat", "y")]) false ["time"] "lat" ["lon"]).
  - intros _. reflexivity.
  - reflexivity.
  - reflexivity.
  - constructor; [|constructor]. split; [reflexivity|].
    exists (mk_ndarray Datetime64 [50%Q]). split; reflexivity.
Defined.

(** ** [get_cube_values] *)

(** The first dimension of the cube that the index frame lacks is named by
    the error of [get_cube_values], whether or not the indexes are to be
    included. *)
Theorem get_cube_values_missing_dimension (cube : Dataset)
  (indexes : frame (list Z)) (include_indexes cube_asserted : bool)
  (pre : list string) (d : string) (rest : list string) :
  (cube_asserted = false -> assert_cube cube = Ok tt) ->
  get_cube_dims cube = Some (pre ++ d :: rest) ->
  Forall (fun p => name_in p indexes = true) pre ->
  name_in d indexes = false ->
  get_cube_values cube indexes include_indexes cube_asserted
  = Raise (ValueError
      ("missing dimension " +:+ repr_str d +:+ " in indexes")).
Proof.
  intros Hassert Hdims Hpre Hd. unfold get_cube_values.
  assert (Ha : (if cube_asserted then Ok tt else assert_cube cube) = Ok tt).
  { destruct cube_asserted; [reflexivity | now apply Hassert]. }
  rewrite Ha, Hdims. cbn [mbind result_bind].
  rewrite for_each_app, check_dims_in_indexes.
  - cbn [mbind result_bind for_each]. rewrite Hd. reflexivity.
  - intros p Hp. rewrite List.Forall_forall in Hpre. now apply Hpre.
Qed.

Lemma get_cube_values_missing_dimension_witness :
  get_cube_values cube_increasing_lat
    [("time", [0]%Z); ("lon", [0]%Z)] true true
  = Raise (ValueError
      ("missing dimension " +:+ repr_str "lat" +:+ " in indexes")).
Proof.
  apply (get_cube_values_missing_dimension cube_increasing_lat
           [("time", [0]%Z); ("lon", [0]%Z)] true true ["time"] "lat"
           ["lon"]).
  - discriminate.
  - reflexivity.
  - constructor; [reflexivity | constructor].
  - reflexivity.
Defined.

Lemma set_value_lengths (vv : list (list scalar)) (j i : nat) (v : scalar) :
  map length (set_value vv j i v) = map length vv.
Proof.
  unfold set_value. revert j. induction vv as [|col vv IH]; intros [|j];
    try reflexivity.
  - cbn. now rewrite length_insert.
  - cbn. f_equal. apply IH.
Qed.

Lemma assign_cell_lengths (vars : list (DataArray scalar)) (row : list Z)
  (i : nat) (l : list nat) (vv vv' : list (list scalar)) :
  for_each (assign_cell vars row i) l vv = Ok vv' ->
  map length vv' = map length vv.
Proof.
  revert vv. induction l as [|j l IH]; intros vv H.
  - now injection H as <-.
  - cbn [for_each] in H.
    destruct (assign_cell vars row i vv j) as [vv1|e] eqn:Hstep;
      [|discriminate H].
    cbn [mbind result_bind] in H. rewrite (IH _ H).
    unfold assign_cell in Hstep.
    destruct (vars !! j) as [var|]; [|discriminate Hstep].
    destruct (cell row var) as [v|e]; [|discriminate Hstep].
    injection Hstep as <-. apply set_value_lengths.
Qed.

Lemma gather_rows_lengths (vars : list (DataArray scalar)) (num_vars : nat)
  (rows : list (list Z)) (l : list nat) (vv vv' : list (list scalar)) :
  for_each (gather_row vars num_vars rows) l vv = Ok vv' ->
  map length vv' = map length vv.
Proof.
  revert vv. induction l as [|i l IH]; intros vv H.
  - now injection H as <-.
  - cbn [for_each] in H.
    destruct (gather_row vars num_vars rows vv i) as [vv1|e] eqn:Hrow;
      [|discriminate].
    cbn [mbind result_bind] in H. rewrite (IH _ H).
    rewrite gather_row_assign_cell in Hrow.
    exact (assign_cell_lengths _ _ _ _ _ _ Hrow).
Qed.

Lemma combine_fst_lengths {A B : Type} (names : list A) (cols : list B) :
  length cols = length names ->
  map fst (combine names cols) = names /\ map snd (combine names cols) = cols.
Proof.
  revert cols. induction names as [|n names IH]; intros [|c cols] H;
    try discriminate; [split; reflexivity|].
  cbn. destruct (IH cols) as [H1 H2]; [simpl in H; lia|].
  now rewrite H1, H2.
Qed.

(** The table that [get_cube_values] returns has one column per data
    variable, under the names and in the order of the data variables, and
    every column has as many rows as the index column of the first
    dimension. *)
Theorem get_cube_values_table_shape (cube : Dataset)
  (indexes : frame (list Z)) (cube_asserted : bool)
  (values : frame (list scalar)) :
  get_cube_values cube indexes false cube_asserted = Ok values ->
  map fst values = map fst (ds_data_vars cube) /\
  exists (d : string) (dims : list string) (col : list Z),
    get_cube_dims cube = Some (d :: dims) /\
    assoc d indexes = Some col /\
    Forall (fun c => length c = length col) (map snd values).
Proof.
  unfold get_cube_values.
  destruct (if cube_asserted then Ok tt else assert_cube cube) as [[]|e];
    [|discriminate].
  cbn [mbind result_bind].
  destruct (get_cube_dims cube) as [dims|]; [|discriminate].
  cbn [mbind result_bind].
  match goal with
  | |- (?m ≫= _) = _ -> _ => destruct m as [[]|e] eqn:Hcheck; [|discriminate]
  end.
  cbn [mbind result_bind].
  destruct (np_stack _) as [rows|e] eqn:Hstack; [|discriminate].
  cbn [mbind result_bind].
  match goal with
  | |- (?m ≫= _) = _ -> _ => destruct m as [vv|e] eqn:Hloop; [|discriminate]
  end.
  cbn [mbind result_bind]. intros H. injection H as <-.
  apply gather_rows_lengths in Hloop. rewrite map_map in Hloop.
  assert (Hlen : length vv = length (map fst (ds_data_vars cube))).
  { rewrite <- (length_map length vv), Hloop. now rewrite !length_map. }
  destruct (combine_fst_lengths (map fst (ds_data_vars cube)) vv Hlen)
    as [Hnames Hcols].
  split; [exact Hnames|].
  destruct dims as [|d dims]; [discriminate Hstack|].
  cbn [for_each] in Hcheck.
  destruct (assoc d indexes) as [col|] eqn:Hcol.
  - exists d, dims, col. split; [reflexivity|]. split; [exact Hcol|].
    rewrite Hcols. cbn [map] in Hstack. rewrite Hcol in Hstack.
    unfold np_stack in Hstack.
    destruct (forallb _ _); [|discriminate].
    injection Hstack as <-. rewrite length_map, length_seq in Hloop.
    apply List.Forall_forall. intros c Hc.
    apply (in_map length) in Hc. rewrite Hloop in Hc.
    apply in_map_iff in Hc as (x & Hx & _). cbn in Hx.
    rewrite length_replicate in Hx. now symmetry.
  - exfalso. unfold name_in in Hcheck. rewrite Hcol in Hcheck.
    discriminate Hcheck.
Qed.

Lemma get_cube_values_table_shape_witness :
  map fst [("v", [SNaN; SNum 2])] = map fst (ds_data_vars cube_decreasing_lat) /\
  exists (d : string) (dims : list string) (col : list Z),
    get_cube_dims cube_decreasing_lat = Some (d :: dims) /\
    assoc d [("time", [0; 0]%Z); ("lat", [-1; 1]%Z); ("lon", [0; 0]%Z)]
    = Some col /\
    Forall (fun c => length c = length col)
      (map snd [("v", [SNaN; SNum 2])]).
Proof.
  apply (get_cube_values_table_shape cube_decreasing_lat
           [("time", [0; 0]%Z); ("lat", [-1; 1]%Z); ("lon", [0; 0]%Z)] true).
  vm_compute. reflexivity.
Defined.

(** * Properties of cube verification *)

(** [verify_cube] returns a report only for a dataset that has the three
    dimensions [time], [lat] and [lon]: the first one that is missing
    raises a [KeyError], since [_check_dim] looks its size up after noting
    that it is missing, and so does [assert_cube]. *)
Theorem verify_cube_missing_dimension (ds : Dataset) :
  match first_missing_dimension ds with
  | Some name =>
      verify_cube ds = Raise (KeyError name) /\
      assert_cube ds = Raise (KeyError name)
  | None => is_ok (verify_cube ds) = true
  end.
Proof.
  unfold first_missing_dimension, assert_cube, verify_cube, _check_dim, name_in.
  cbn [find].
  destruct (assoc "time" (ds_dims ds)); [|split; reflexivity].
  destruct (assoc "lat" (ds_dims ds)); [|split; reflexivity].
  destruct (assoc "lon" (ds_dims ds)); [|split; reflexivity].
  reflexivity.
Qed.

Section VerifyCube.
Local Open Scope Q_scope.














End VerifyCube.





(** Two time steps that are one nanosecond apart at a magnitude where
    [float64] has no such precision are not increasing for
    [verify_cube]. *)
Example verify_cube_close_time_steps :
  verify_cube cube_close_time_steps
  = Ok ["values of coordinate variable 'time' must be monotonic increasing"].
Proof. vm_compute. reflexivity. Qed.



(** * The image cache and the rendered plane of [get_ml_dataset_tile] *)

Section TileExtra.

Context {Array Label Attr Grid Cache Tile : Type}.
Variable array_ndim : Array -> nat.
Variable array_attrs : Array -> gmap string Attr.
Variable array_isel : Array -> list (string * Label) -> result Array.
Variable array_sel_nearest : Array -> list (string * Label) -> result Array.
Variable array_load : Array -> result unit.
Variable array_min : Array -> scalar.
Variable array_max : Array -> scalar.
Variable array_values : Array -> Grid.
Variable str_float : Q -> string.
Variable str_label : Label -> string.
Variable image_get_tile : TiledImage Attr Grid Cache -> Z -> Z -> result Tile.

Local Abbreviation id_of := (tile_image_id str_float str_label).
Local Abbreviation plane_of :=
  (select_plane array_ndim array_isel array_sel_nearest).
Local Abbreviation image_of :=
  (new_tile_image array_ndim array_attrs array_isel array_sel_nearest
     array_load array_min array_max array_values).
Local Abbreviation tile_of :=
  (get_ml_dataset_tile array_ndim array_attrs array_isel array_sel_nearest
     array_load array_min array_max array_values str_float str_label
     image_get_tile).

Implicit Types (ml_dataset : MultiLevelDataset Array) (var : Array)
  (image_cache : option (gmap string (TiledImage Attr Grid Cache)))
  (m : gmap string (TiledImage Attr Grid Cache)).

Lemma cache_truthy_empty :
  cache_truthy (Some (∅ : gmap string (TiledImage Attr Grid Cache))) = false.
Proof.
  unfold cache_truthy. now rewrite bool_decide_eq_true_2.
Qed.

Lemma cache_truthy_nonempty m : m <> ∅ -> cache_truthy (Some m) = true.
Proof.
  intros H. unfold cache_truthy. now rewrite bool_decide_eq_false_2.
Qed.

Lemma cache_contains_lookup m (image_id : string) :
  cache_contains (Some m) image_id = false <-> m !! image_id = None.
Proof.
  unfold cache_contains. rewrite bool_decide_eq_false.
  rewrite <- eq_None_not_Some. reflexivity.
Qed.

(** A call on a cache that holds images and took none of them for the
    identifier of the call. *)
Lemma cache_miss_nonempty m (image_id : string) :
  m <> ∅ -> m !! image_id = None ->
  (if cache_truthy (Some m) && cache_contains (Some m) image_id
   then cache_lookup (Some m) image_id else None) = None.
Proof.
  intros Hm Hid. rewrite cache_truthy_nonempty by assumption.
  now rewrite (proj2 (cache_contains_lookup m image_id) Hid).
Qed.

Lemma cache_hit_nonempty m (image_id : string)
  (image : TiledImage Attr Grid Cache) :
  m !! image_id = Some image ->
  (if cache_truthy (Some m) && cache_contains (Some m) image_id
   then cache_lookup (Some m) image_id else None) = Some image.
Proof.
  intros Hid.
  assert (Hm : m <> ∅).
  { intros ->. now rewrite lookup_empty in Hid. }
  rewrite cache_truthy_nonempty by assumption.
  unfold cache_contains. rewrite bool_decide_eq_true_2 by (now exists image).
  exact Hid.
Qed.

(** The image cache is only ever added to: whatever a call does, each image
    that the cache held before is held after it under the same key, and
    the only key that the call may add is the identifier of its own
    image. *)
Theorem get_ml_dataset_tile_keeps_cached_images ml_dataset
  (var_name : string) (x y z : Z)
  (labels : option (list (string * Label))) (labels_are_indices : bool)
  (cmap_cbar : option string) (cmap_vmin cmap_vmax : option scalar)
  m (tile_cache : option Cache) (tile_comp_mode : Z)
  (trace_perf : bool) (exception_type : string -> exn) :
  exists m' : gmap string (TiledImage Attr Grid Cache),
    snd (tile_of ml_dataset var_name x y z labels labels_are_indices
           cmap_cbar cmap_vmin cmap_vmax (Some m) tile_cache
           tile_comp_mode trace_perf exception_type) = Some m' /\
    (forall (key : string) (image : TiledImage Attr Grid Cache),
        m !! key = Some image -> m' !! key = Some image) /\
    (forall key : string,
        key <> id_of ml_dataset var_name z (default [] labels) cmap_cbar
                 cmap_vmin cmap_vmax ->
        m' !! key = m !! key).
Proof.
  assert (Hsame : exists m' : gmap string (TiledImage Attr Grid Cache),
             Some m = Some m' /\
             (forall (key : string) (image : TiledImage Attr Grid Cache),
                 m !! key = Some image -> m' !! key = Some image) /\
             (forall key : string,
                 key <> id_of ml_dataset var_name z (default [] labels)
                          cmap_cbar cmap_vmin cmap_vmax ->
                 m' !! key = m !! key)).
  { exists m. split; [reflexivity|]. split; [trivial|reflexivity]. }
  unfold get_ml_dataset_tile.
  destruct (get_dataset ml_dataset _) as [dataset|e]; [|exact Hsame].
  destruct (dataset !! var_name) as [var|]; [|exact Hsame].
  destruct (cache_truthy (Some m)) eqn:Htruthy; cbn [andb].
  - destruct (cache_contains (Some m) _) eqn:Hcontains.
    + destruct (cache_lookup (Some m) _) as [cached|] eqn:Hlookup;
        [exact Hsame|].
      unfold cache_contains in Hcontains.
      apply bool_decide_eq_true in Hcontains as [image' Himage'].
      cbn [cache_lookup] in Hlookup. congruence.
    + apply cache_contains_lookup in Hcontains as Hnone.
      destruct (image_of _ _ _ _ _ _ _ _ _ _ _ _ _) as [image|e];
        [|exact Hsame].
      cbn [snd option_map]. eexists. split; [reflexivity|]. split.
      * intros key image' Hkey.
        rewrite lookup_insert_ne; [exact Hkey|]. intros <-.
        rewrite Hnone in Hkey. discriminate Hkey.
      * intros key Hkey. now rewrite lookup_insert_ne.
  - destruct (image_of _ _ _ _ _ _ _ _ _ _ _ _ _) as [image|e]; exact Hsame.
Qed.

(** An empty image cache is never filled. A call given an empty mapping
    as image cache behaves like a call given none: it returns the same
    tile or raises the same exception, and it leaves the mapping empty,
    the image that it constructed being dropped. *)
Theorem get_ml_dataset_tile_empty_cache ml_dataset
  (var_name : string) (x y z : Z)
  (labels : option (list (string * Label))) (labels_are_indices : bool)
  (cmap_cbar : option string) (cmap_vmin cmap_vmax : option scalar)
  (tile_cache : option Cache) (tile_comp_mode : Z)
  (trace_perf : bool) (exception_type : string -> exn) :
  tile_of ml_dataset var_name x y z labels labels_are_indices
    cmap_cbar cmap_vmin cmap_vmax (Some ∅) tile_cache
    tile_comp_mode trace_perf exception_type
  = (fst (tile_of ml_dataset var_name x y z labels labels_are_indices
            cmap_cbar cmap_vmin cmap_vmax None tile_cache
            tile_comp_mode trace_perf exception_type),
     Some ∅).
Proof.
  unfold get_ml_dataset_tile.
  destruct (get_dataset ml_dataset _) as [dataset|e]; [|reflexivity].
  destruct (dataset !! var_name) as [var|]; [|reflexivity].
  rewrite cache_truthy_empty. cbn [andb cache_truthy].
  destruct (image_of _ _ _ _ _ _ _ _ _ _ _ _ _) as [image|e]; reflexivity.
Qed.

(** The image that a call constructs and stores serves the later calls. On
    a cache that holds images but none for the identifier of the call, a
    call that constructs its image returns the tile of that image and
    stores the image under the identifier. A later call for the same
    dataset object, variable, level, labels, colour bar and bounds then
    returns the tile of the stored image and leaves the cache as it is,
    whatever tile it asks for and whatever it passes as
    [labels_are_indices], [tile_cache], [tile_comp_mode], [trace_perf] and
    [exception_type]: these do not enter the identifier. *)
Theorem get_ml_dataset_tile_stored_image_is_reused ml_dataset
  (var_name : string) (x y z : Z)
  (labels : option (list (string * Label))) (labels_are_indices : bool)
  (cmap_cbar : option string) (cmap_vmin cmap_vmax : option scalar)
  m (tile_cache : option Cache) (tile_comp_mode : Z)
  (trace_perf : bool) (exception_type : string -> exn)
  (dataset : gmap string Array) var (image : TiledImage Attr Grid Cache) :
  let image_id :=
    id_of ml_dataset var_name z (default [] labels) cmap_cbar cmap_vmin
      cmap_vmax in
  get_dataset ml_dataset (Z.of_nat (num_levels ml_dataset) - 1 - z)
  = Ok dataset ->
  dataset !! var_name = Some var ->
  m <> ∅ ->
  m !! image_id = None ->
  image_of ml_dataset var var_name image_id (default [] labels)
    labels_are_indices cmap_cbar cmap_vmin cmap_vmax tile_cache
    tile_comp_mode trace_perf exception_type = Ok image ->
  tile_of ml_dataset var_name x y z labels labels_are_indices
    cmap_cbar cmap_vmin cmap_vmax (Some m) tile_cache
    tile_comp_mode trace_perf exception_type
  = (image_get_tile image x y, Some (<[image_id := image]> m)) /\
  forall (x' y' : Z) (labels_are_indices' : bool)
         (tile_cache' : option Cache) (tile_comp_mode' : Z)
         (trace_perf' : bool) (exception_type' : string -> exn),
    tile_of ml_dataset var_name x' y' z labels labels_are_indices'
      cmap_cbar cmap_vmin cmap_vmax (Some (<[image_id := image]> m))
      tile_cache' tile_comp_mode' trace_perf' exception_type'
    = (image_get_tile image x' y', Some (<[image_id := image]> m)).
Proof.
  intros image_id Hds Hvar Hm Hid Himage. split.
  - unfold get_ml_dataset_tile. rewrite Hds, Hvar.
    fold image_id. rewrite cache_miss_nonempty by assumption.
    rewrite Himage. now rewrite cache_truthy_nonempty.
  - intros x' y' labels_are_indices' tile_cache' tile_comp_mode'
      trace_perf' exception_type'.
    unfold get_ml_dataset_tile. rewrite Hds, Hvar. fold image_id.
    rewrite (cache_hit_nonempty _ image_id image); [reflexivity|].
    apply lookup_insert_eq.
Qed.

(** A variable of fewer than two axes cannot be rendered: a call that
    finds no image in the cache raises the exception of the type given as
    [exception_type], whose message names the variable and its number of
    axes, and the image cache stays as it is. *)
Theorem get_ml_dataset_tile_low_dimension ml_dataset
  (var_name : string) (x y z : Z)
  (labels : option (list (string * Label))) (labels_are_indices : bool)
  (cmap_cbar : option string) (cmap_vmin cmap_vmax : option scalar)
  image_cache (tile_cache : option Cache) (tile_comp_mode : Z)
  (trace_perf : bool) (exception_type : string -> exn)
  (dataset : gmap string Array) var :
  get_dataset ml_dataset (Z.of_nat (num_levels ml_dataset) - 1 - z)
  = Ok dataset ->
  dataset !! var_name = Some var ->
  cache_truthy image_cache
  && cache_contains image_cache
       (id_of ml_dataset var_name z (default [] labels) cmap_cbar
          cmap_vmin cmap_vmax) = false ->
  (array_ndim var < 2)%nat ->
  tile_of ml_dataset var_name x y z labels labels_are_indices
    cmap_cbar cmap_vmin cmap_vmax image_cache tile_cache
    tile_comp_mode trace_perf exception_type
  = (Raise (exception_type
       ("Variable " +:+ dquote +:+ var_name +:+ dquote
          +:+ " of dataset " +:+ dquote +:+ var_name +:+ dquote
          +:+ " must be an N-D Dataset with N >= 2, but "
          +:+ dquote +:+ var_name +:+ dquote +:+ " is only "
          +:+ str_nat (array_ndim var) +:+ "-D")),
     image_cache).
Proof.
  intros Hds Hvar Hmiss Hndim. unfold get_ml_dataset_tile.
  rewrite Hds, Hvar, Hmiss. unfold new_tile_image, select_plane.
  destruct (Nat.eqb_spec (array_ndim var) 2) as [E|_]; [lia|].
  destruct (Nat.ltb_spec 2 (array_ndim var)) as [E|_]; [lia|].
  reflexivity.
Qed.

(** A variable of two axes takes no labels: a call that finds no image in
    the cache and is given a label raises [AssertionError] and leaves the
    image cache as it is. *)
Theorem get_ml_dataset_tile_2d_takes_no_labels ml_dataset
  (var_name : string) (x y z : Z)
  (labels : list (string * Label)) (labels_are_indices : bool)
  (cmap_cbar : option string) (cmap_vmin cmap_vmax : option scalar)
  image_cache (tile_cache : option Cache) (tile_comp_mode : Z)
  (trace_perf : bool) (exception_type : string -> exn)
  (dataset : gmap string Array) var :
  get_dataset ml_dataset (Z.of_nat (num_levels ml_dataset) - 1 - z)
  = Ok dataset ->
  dataset !! var_name = Some var ->
  cache_truthy image_cache
  && cache_contains image_cache
       (id_of ml_dataset var_name z labels cmap_cbar cmap_vmin cmap_vmax)
  = false ->
  array_ndim var = 2%nat ->
  labels <> [] ->
  tile_of ml_dataset var_name x y z (Some labels) labels_are_indices
    cmap_cbar cmap_vmin cmap_vmax image_cache tile_cache
    tile_comp_mode trace_perf exception_type
  = (Raise AssertionError, image_cache).
Proof.
  intros Hds Hvar Hmiss Hndim Hlabels. unfold get_ml_dataset_tile.
  rewrite Hds, Hvar.
  change (default [] (Some labels)) with labels. rewrite Hmiss.
  unfold new_tile_image, select_plane. rewrite Hndim. cbn [Nat.eqb].
  destruct labels as [|l labels]; [contradiction|]. reflexivity.
Qed.

(** What is rendered. A call that finds no image in the cache, whose
    plane is selected and loaded and whose colour bounds are both given,
    returns the tile of an image over the values of the selected plane;
    each bound of its colour range is the number given, or, where
    not-a-number is given, the minimum or the maximum of the selected
    plane. *)
Theorem get_ml_dataset_tile_renders_plane ml_dataset
  (var_name : string) (x y z : Z)
  (labels : option (list (string * Label))) (labels_are_indices : bool)
  (cmap_cbar : option string) (vmin vmax : scalar)
  image_cache (tile_cache : option Cache) (tile_comp_mode : Z)
  (trace_perf : bool) (exception_type : string -> exn)
  (dataset : gmap string Array) var (plane : Array) :
  get_dataset ml_dataset (Z.of_nat (num_levels ml_dataset) - 1 - z)
  = Ok dataset ->
  dataset !! var_name = Some var ->
  cache_truthy image_cache
  && cache_contains image_cache
       (id_of ml_dataset var_name z (default [] labels) cmap_cbar
          (Some vmin) (Some vmax)) = false ->
  plane_of var var_name (default [] labels) labels_are_indices
    exception_type = Ok plane ->
  array_load plane = Ok tt ->
  exists image : TiledImage Attr Grid Cache,
    fst (tile_of ml_dataset var_name x y z labels labels_are_indices
           cmap_cbar (Some vmin) (Some vmax) image_cache tile_cache
           tile_comp_mode trace_perf exception_type)
    = image_get_tile image x y /\
    image_array image = array_values plane /\
    image_value_range image
    = Some (colour_bound vmin (array_min plane),
            colour_bound vmax (array_max plane)).
Proof.
  intros Hds Hvar Hmiss Hplane Hload. unfold get_ml_dataset_tile.
  rewrite Hds, Hvar, Hmiss. unfold new_tile_image.
  rewrite Hplane. cbn [mbind result_bind]. rewrite Hload.
  cbn [mbind result_bind].
  destruct vmin, vmax; cbn [normalization_range np_isnan mbind result_bind];
    destruct (Z.eqb tile_comp_mode 0); eexists;
    (split; [reflexivity | split; reflexivity]).
Qed.

End TileExtra.

Lemma get_ml_dataset_tile_stored_image_is_reused_witness :
  exists image : TiledImage Q (list scalar) unit,
    let image_id :=
      tile_image_id Toy.str_float str_Z (Toy.ml_dataset_at 1000) "mask" 0
        [] None (Some (SNum 0)) (Some (SNum 1)) in
    Toy.render (Toy.ml_dataset_at 1000) "mask" 0 0 0 None false
      (Some (SNum 0)) (Some (SNum 1)) (Some seeded_images)
    = (Toy.get_tile image 0 0, Some (<[image_id := image]> seeded_images)) /\
    get_ml_dataset_tile Toy.ndim Toy.attrs Toy.select Toy.select Toy.load
      Toy.min Toy.max Toy.values Toy.str_float str_Z Toy.get_tile
      (Toy.ml_dataset_at 1000) "mask" 1 1 0 None true None
      (Some (SNum 0)) (Some (SNum 1))
      (Some (<[image_id := image]> seeded_images)) (Some tt) 1 true TypeError
    = (Toy.get_tile image 1 1, Some (<[image_id := image]> seeded_images)).
Proof.
  eexists. intros image_id.
  pose proof (get_ml_dataset_tile_stored_image_is_reused Toy.ndim Toy.attrs
                Toy.select Toy.select Toy.load Toy.min Toy.max Toy.values
                Toy.str_float str_Z Toy.get_tile
                (Toy.ml_dataset_at 1000) "mask" 0 0 0 None false None
                (Some (SNum 0)) (Some (SNum 1)) seeded_images None 0 false
                ValueError Toy.level_dataset Toy.var2 _
                eq_refl eq_refl (insert_non_empty _ _ _) eq_refl eq_refl)
    as [Hfirst Hlater].
  split.
  - exact Hfirst.
  - exact (Hlater 1%Z 1%Z true (Some tt) 1%Z true TypeError).
Defined.

Lemma get_ml_dataset_tile_low_dimension_witness :
  get_ml_dataset_tile Toy.ndim Toy.attrs Toy.select Toy.select Toy.load
    Toy.min Toy.max Toy.values Toy.str_float str_Z Toy.get_tile
    ml_profile_dataset "profile" 0 0 0 None false None
    (Some (SNum 0)) (Some (SNum 1)) (Some seeded_images) None 0 false
    ValueError
  = (Raise (ValueError
       ("Variable " +:+ dquote +:+ "profile" +:+ dquote
          +:+ " of dataset " +:+ dquote +:+ "profile" +:+ dquote
          +:+ " must be an N-D Dataset with N >= 2, but "
          +:+ dquote +:+ "profile" +:+ dquote +:+ " is only 1-D")),
     Some seeded_images).
Proof.
  apply (get_ml_dataset_tile_low_dimension Toy.ndim Toy.attrs Toy.select
           Toy.select Toy.load Toy.min Toy.max Toy.values Toy.str_float
           str_Z Toy.get_tile ml_profile_dataset "profile" 0 0 0 None false
           None (Some (SNum 0)) (Some (SNum 1)) (Some seeded_images) None 0
           false ValueError (<["profile" := profile_var]> ∅) profile_var).
  - reflexivity.
  - reflexivity.
  - reflexivity.
  - cbn. lia.
Defined.

Lemma get_ml_dataset_tile_2d_takes_no_labels_witness :
  Toy.render (Toy.ml_dataset_at 1000) "mask" 0 0 0 (Some [("time", 0%Z)])
    true (Some (SNum 0)) (Some (SNum 1)) Toy.seeded_cache
  = (Raise AssertionError, Toy.seeded_cache).
Proof.
  apply (get_ml_dataset_tile_2d_takes_no_labels Toy.ndim Toy.attrs
           Toy.select Toy.select Toy.load Toy.min Toy.max Toy.values
           Toy.str_float str_Z Toy.get_tile (Toy.ml_dataset_at 1000) "mask"
           0 0 0 [("time", 0%Z)] true None (Some (SNum 0)) (Some (SNum 1))
           Toy.seeded_cache None 0 false ValueError Toy.level_dataset
           Toy.var2).
  - reflexivity.
  - reflexivity.
  - reflexivity.
  - reflexivity.
  - discriminate.
Defined.

Lemma get_ml_dataset_tile_renders_plane_witness :
  exists image : TiledImage Q (list scalar) unit,
    fst (Toy.render (Toy.ml_dataset_at 1000) "sst" 0 0 0
           (Some [("time", 0%Z)]) true (Some SNaN) (Some (SNum 3)) None)
    = Toy.get_tile image 0 0 /\
    image_array image = [SNum 1; SNum 2; SNum 3; SNum 4] /\
    image_value_range image = Some (SNum 1, SNum 3).
Proof.
  destruct (get_ml_dataset_tile_renders_plane Toy.ndim Toy.attrs Toy.select
              Toy.select Toy.load Toy.min Toy.max Toy.values Toy.str_float
              str_Z Toy.get_tile (Toy.ml_dataset_at 1000) "sst" 0 0 0
              (Some [("time", 0%Z)]) true None SNaN (SNum 3) None None 0
              false ValueError Toy.level_dataset Toy.var3
              (mk_DataArray ["lat"; "lon"] [2%nat; 2%nat] Float64 None None
                 [SNum 1; SNum 2; SNum 3; SNum 4])
              eq_refl eq_refl eq_refl eq_refl eq_refl)
    as (image & Htile & Harray & Hrange).
  exists image. split; [exact Htile|]. split; [exact Harray|].
  rewrite Hrange. reflexivity.
Defined.

(** * Labels of the non-spatial dimensions *)

Lemma assoc_dict_set {A : Type} (d : list (string * A)) (key k : string)
  (value : A) :
  assoc k (dict_set d key value)
  = if String.eqb k key then Some value else assoc k d.
Proof.
  induction d as [|[k' v'] d IH]; cbn [dict_set assoc].
  - reflexivity.
  - destruct (String.eqb_spec key k') as [<- | Hne]; cbn [assoc].
    + destruct (String.eqb k key); reflexivity.
    + rewrite IH. destruct (String.eqb_spec k key) as [-> | Hne'].
      * destruct (String.eqb_spec key k'); [contradiction | reflexivity].
      * reflexivity.
Qed.

Lemma dict_set_new_key {A : Type} (d : list (string * A)) (key : string)
  (value : A) :
  ~ In key (map fst d) ->
  map fst (dict_set d key value) = map fst d ++ [key].
Proof.
  induction d as [|[k' v'] d IH]; intros Hnew; cbn [dict_set map fst app].
  - reflexivity.
  - destruct (String.eqb_spec key k') as [-> | Hne].
    + exfalso. apply Hnew. now left.
    + cbn [map fst]. f_equal. apply IH. intros Hin. apply Hnew. now right.
Qed.

Lemma for_each_cons {S A : Type} (f : S -> A -> result S) (a : A)
  (l : list A) (s : S) :
  for_each f (a :: l) s = s' ← f s a; for_each f l s'.
Proof. reflexivity. Qed.

Lemma for_each_ext_in {S A : Type} (f g : S -> A -> result S) (l : list A)
  (s : S) :
  (forall s' a, In a l -> f s' a = g s' a) ->
  for_each f l s = for_each g l s.
Proof.
  revert s. induction l as [|a l IH]; intros s Hfg; cbn [for_each].
  - reflexivity.
  - rewrite Hfg by now left.
    destruct (g s a); cbn [mbind result_bind]; [|reflexivity].
    apply IH. intros s' a' Ha'. apply Hfg. now right.
Qed.

Lemma split_once_concat (a b : string) :
  slash_free a = true -> split_once (a +:+ "/" +:+ b) = Some (a, b).
Proof.
  induction a as [|c a IH]; intros Hfree.
  - reflexivity.
  - cbn [slash_free] in Hfree. apply andb_true_iff in Hfree as [Hc Ha].
    change (String c a +:+ "/" +:+ b) with (String c (a +:+ "/" +:+ b)).
    cbn [split_once]. apply negb_true_iff in Hc. rewrite Hc.
    now rewrite (IH Ha).
Qed.

Lemma split_once_not_current (a b : string) :
  slash_free a = true -> String.eqb (a +:+ "/" +:+ b) "current" = false.
Proof.
  intros Hfree. apply String.eqb_neq. intros Heq.
  pose proof (split_once_concat a b Hfree) as Hsplit.
  rewrite Heq in Hsplit. cbn in Hsplit. discriminate Hsplit.
Qed.

Section LabelsExtra.

Context {Time Other : Type}.
Variable float_of_str : string -> option scalar.
Variable int_of_str : string -> option Z.
Variable pd_to_datetime : string -> result Time.
Variable time_midpoint : Time -> Time -> Time.
Variable get_dataset_xy_var_names :
  gmap string (@CoordVar Time Other) -> option (string * string).

Local Abbreviation label_of :=
  (parse_label float_of_str int_of_str pd_to_datetime time_midpoint).
Local Abbreviation parse :=
  (parse_non_spatial_labels float_of_str int_of_str pd_to_datetime
     time_midpoint get_dataset_xy_var_names).

Variable raw_labels : gmap string string.
Variable coords : gmap string (@CoordVar Time Other).
Variable allow_slices : bool.
Variable exception_type : string -> exn.
Variable xy_dims : list string.

Local Abbreviation body :=
  (parse_labels_step float_of_str int_of_str pd_to_datetime time_midpoint
     raw_labels coords allow_slices exception_type xy_dims).

Local Abbreviation parsed_here :=
  (label_parsed float_of_str int_of_str pd_to_datetime time_midpoint
     raw_labels coords allow_slices exception_type xy_dims).

Lemma body_ok (acc acc' : list (string * @label Time Other)) (d : string) :
  body acc d = Ok acc' ->
  (bool_decide (d ∈ xy_dims) = true /\ acc' = acc) \/
  (exists l : @label Time Other, parsed_here d l /\ acc' = dict_set acc d l).
Proof.
  unfold label_parsed, parse_labels_step.
  destruct (bool_decide (d ∈ xy_dims)); [intros [= <-]; now left|].
  unfold coords_getitem.
  destruct (coords !! d) as [var|]; [|discriminate].
  cbn [mbind result_bind].
  destruct (label_of d var (raw_labels !! d) allow_slices exception_type)
    as [l|e] eqn:Hl; [|discriminate].
  cbn [mbind result_bind]. intros [= <-]. right. exists l.
  split; [|reflexivity]. split; [reflexivity|]. exists var. now split.
Qed.

Lemma loop_keys (dims : list string)
  (acc parsed : list (string * @label Time Other)) :
  List.NoDup dims ->
  (forall d, In d dims -> ~ In d (map fst acc)) ->
  for_each body dims acc = Ok parsed ->
  map fst parsed
  = map fst acc
      ++ List.filter (fun d => negb (bool_decide (d ∈ xy_dims))) dims.
Proof.
  revert acc. induction dims as [|d dims IH]; intros acc Hnodup Hfresh Hloop.
  - injection Hloop as <-. cbn [List.filter]. now rewrite app_nil_r.
  - rewrite for_each_cons in Hloop.
    destruct (body acc d) as [acc1|e] eqn:Hstep; [|discriminate Hloop].
    cbn [mbind result_bind] in Hloop.
    apply List.NoDup_cons_iff in Hnodup as [Hd' Hnodup].
    cbn [List.filter].
    destruct (body_ok acc acc1 d Hstep) as [[Hxy ->] | (l & [Hxy _] & ->)];
      rewrite Hxy; cbn [negb].
    + apply IH; [exact Hnodup | | exact Hloop].
      intros d' Hd'in. apply Hfresh. now right.
    + assert (Hfresh1 : forall d', In d' dims ->
                          ~ In d' (map fst (dict_set acc d l))).
      { intros d' Hd'in.
        rewrite dict_set_new_key by (apply Hfresh; now left).
        intros Hin. apply in_app_or in Hin as [Hin | [<- | []]].
        - apply (Hfresh d'); [now right | exact Hin].
        - contradiction. }
      rewrite (IH _ Hnodup Hfresh1 Hloop).
      rewrite dict_set_new_key by (apply Hfresh; now left).
      now rewrite <- app_assoc.
Qed.

Lemma loop_values (dims : list string)
  (acc parsed : list (string * @label Time Other)) :
  for_each body dims acc = Ok parsed ->
  forall (d : string) (l : @label Time Other),
    assoc d parsed = Some l ->
    assoc d acc = Some l \/ (In d dims /\ parsed_here d l).
Proof.
  revert acc. induction dims as [|d0 dims IH]; intros acc Hloop d l Hd.
  - injection Hloop as <-. now left.
  - rewrite for_each_cons in Hloop.
    destruct (body acc d0) as [acc1|e] eqn:Hstep; [|discriminate Hloop].
    cbn [mbind result_bind] in Hloop.
    destruct (IH acc1 Hloop d l Hd) as [Hacc1 | [Hin Hhere]].
    + destruct (body_ok acc acc1 d0 Hstep) as [[_ ->] | (l0 & Hhere & ->)].
      * now left.
      * rewrite assoc_dict_set in Hacc1.
        destruct (String.eqb_spec d d0) as [-> | _]; [|now left].
        injection Hacc1 as <-. right. split; [now left | exact Hhere].
    + right. split; [now right | exact Hhere].
Qed.

End LabelsExtra.

Lemma list_last_cons {A : Type} (a d : A) (l : list A) :
  List.last (a :: l) d = List.last l a.
Proof.
  revert a d. induction l as [|b l IH]; intros a d; [reflexivity|].
  change (List.last (a :: b :: l) d) with (List.last (b :: l) d).
  now rewrite !IH.
Qed.

Lemma last_cons_some {A : Type} (v : A) (values : list A) :
  last (v :: values) = Some (List.last values v).
Proof.
  revert v. induction values as [|w values IH]; intros v; [reflexivity|].
  change (last (v :: w :: values)) with (last (w :: values)).
  rewrite IH. now rewrite list_last_cons.
Qed.

Section LabelsProps.

Context {Time Other : Type}.
Variable float_of_str : string -> option scalar.
Variable int_of_str : string -> option Z.
Variable pd_to_datetime : string -> result Time.
Variable time_midpoint : Time -> Time -> Time.
Variable get_dataset_xy_var_names :
  gmap string (@CoordVar Time Other) -> option (string * string).

Local Abbreviation attempt_of :=
  (parse_label_attempt float_of_str int_of_str pd_to_datetime time_midpoint).
Local Abbreviation label_of :=
  (parse_label float_of_str int_of_str pd_to_datetime time_midpoint).
Local Abbreviation step_of :=
  (parse_labels_step float_of_str int_of_str pd_to_datetime time_midpoint).
Local Abbreviation parse :=
  (parse_non_spatial_labels float_of_str int_of_str pd_to_datetime
     time_midpoint get_dataset_xy_var_names).

Implicit Types (raw_labels : gmap string string)
  (coords : gmap string (@CoordVar Time Other))
  (var : @CoordVar Time Other) (l : @label Time Other)
  (parsed : list (string * @label Time Other)).

(** A label is returned by the [try] statement as its body made it. *)
Lemma parse_label_ok (d : string) var (label_str : option string)
  (allow_slices : bool) (exception_type : string -> exn) l :
  label_of d var label_str allow_slices exception_type = Ok l ->
  attempt_of var label_str allow_slices exception_type = Ok l.
Proof.
  unfold parse_label.
  destruct (attempt_of var label_str allow_slices exception_type)
    as [l'|[]]; try discriminate; trivial.
Qed.

(** The only [ValueError] that leaves the [try] statement is the one that
    its handler makes. *)
Lemma parse_label_raises (d : string) var (label_str : option string)
  (allow_slices : bool) (exception_type : string -> exn) (e : exn) :
  label_of d var label_str allow_slices exception_type = Raise e ->
  is_ValueError e = true ->
  e = exception_type
        (repr_label_str label_str +:+ " is not a valid value for dimension "
           +:+ repr_str d).
Proof.
  unfold parse_label.
  destruct (attempt_of var label_str allow_slices exception_type)
    as [l'|[]]; try discriminate; intros [= <-]; try discriminate.
  reflexivity.
Qed.

Lemma xy_dims_of_raises coords (names : string * string) (e : exn) :
  xy_dims_of coords names = Raise e -> is_ValueError e = false.
Proof.
  unfold xy_dims_of, coords_getitem, first_dim. cbn [map_result].
  destruct (coords !! names.1) as [xvar|]; cbn [mbind result_bind];
    [|intros [= <-]; reflexivity].
  destruct (cv_dims xvar); cbn [mbind result_bind];
    [intros [= <-]; reflexivity|].
  destruct (coords !! names.2) as [yvar|]; cbn [mbind result_bind];
    [|intros [= <-]; reflexivity].
  destruct (cv_dims yvar); cbn [mbind result_bind];
    [intros [= <-]; reflexivity | discriminate].
Qed.

Lemma loop_raises raw_labels coords (allow_slices : bool)
  (exception_type : string -> exn) (xy_dims dims : list string)
  (acc : list (string * @label Time Other)) (e : exn) :
  for_each (step_of raw_labels coords allow_slices exception_type xy_dims)
    dims acc = Raise e ->
  is_ValueError e = true ->
  exists d : string,
    In d dims /\
    e = exception_type
          (repr_label_str (raw_labels !! d)
             +:+ " is not a valid value for dimension " +:+ repr_str d).
Proof.
  revert acc. induction dims as [|d dims IH]; intros acc Hloop He.
  - discriminate Hloop.
  - rewrite for_each_cons in Hloop.
    destruct (step_of raw_labels coords allow_slices exception_type xy_dims
                acc d) as [acc1|e1] eqn:Hstep; cbn [mbind result_bind] in Hloop.
    + destruct (IH acc1 Hloop He) as (d' & Hin & Hmsg).
      exists d'. split; [now right | exact Hmsg].
    + injection Hloop as ->. exists d. split; [now left|].
      revert Hstep. unfold parse_labels_step, coords_getitem.
      destruct (bool_decide (d ∈ xy_dims)); [discriminate|].
      destruct (coords !! d) as [var|]; cbn [mbind result_bind];
        [|intros [= <-]; discriminate He].
      destruct (label_of d var (raw_labels !! d) allow_slices exception_type)
        as [l|e'] eqn:Hl; cbn [mbind result_bind]; [discriminate|].
      intros [= ->]. exact (parse_label_raises d var _ _ _ e Hl He).
Qed.

(** Which dimensions get a label. The dictionary that
    [parse_non_spatial_labels] returns for distinct dimensions has one
    entry per dimension other than the dimensions of the two spatial
    coordinate variables, in the order of the dimensions, whether a text
    was given for the dimension or not. *)
Theorem parse_non_spatial_labels_keys raw_labels (dims : list string) coords
  (allow_slices : bool) (exception_type : string -> exn) parsed :
  parse raw_labels dims coords allow_slices exception_type = Ok parsed ->
  List.NoDup dims ->
  exists (xy_var_names : string * string) (xy_dims : list string),
    get_dataset_xy_var_names coords = Some xy_var_names /\
    xy_dims_of coords xy_var_names = Ok xy_dims /\
    map fst parsed
    = List.filter (fun d => negb (bool_decide (d ∈ xy_dims))) dims.
Proof.
  unfold parse_non_spatial_labels. intros Hparse Hnodup.
  destruct (get_dataset_xy_var_names coords) as [names|]; [|discriminate].
  destruct (xy_dims_of coords names) as [xy|e] eqn:Hxy; [|discriminate].
  cbn [mbind result_bind] in Hparse.
  exists names, xy. split; [reflexivity|]. split; [exact Hxy|].
  apply (loop_keys _ _ _ _ _ _ _ _ _ _ [] parsed Hnodup) in Hparse.
  - exact Hparse.
  - intros d _ [].
Qed.

(** The labels of the dimensions without a given value. A dimension for
    which no text is given gets the first value of its coordinate
    variable, and one for which the text [current] is given gets the last
    value. *)
Theorem parse_non_spatial_labels_defaults raw_labels (dims : list string)
  coords (allow_slices : bool) (exception_type : string -> exn) parsed
  (d : string) l :
  parse raw_labels dims coords allow_slices exception_type = Ok parsed ->
  assoc d parsed = Some l ->
  raw_labels !! d = None \/ raw_labels !! d = Some "current" ->
  exists var (v : @label_value Time Other),
    coords !! d = Some var /\
    l = Single v /\
    match raw_labels !! d with
    | Some _ => last (coord_labels var)
    | None => head (coord_labels var)
    end = Some v.
Proof.
  unfold parse_non_spatial_labels. intros Hparse Hd Hraw.
  destruct (get_dataset_xy_var_names coords) as [names|]; [|discriminate].
  destruct (xy_dims_of coords names) as [xy|e]; [|discriminate].
  cbn [mbind result_bind] in Hparse.
  destruct (loop_values _ _ _ _ _ _ _ _ _ _ _ _ Hparse d l Hd)
    as [Hnil | [_ [_ (var & Hvar & Hl)]]]; [discriminate Hnil|].
  apply parse_label_ok in Hl. exists var.
  destruct Hraw as [Hraw | Hraw]; rewrite Hraw in Hl |- *;
    unfold parse_label_attempt in Hl.
  - unfold coord_first in Hl.
    destruct (coord_labels var) as [|v values]; [discriminate Hl|].
    cbn [mbind result_bind] in Hl. injection Hl as <-.
    exists v. split; [exact Hvar|]. split; reflexivity.
  - cbn [String.eqb Ascii.eqb Bool.eqb] in Hl. unfold coord_last in Hl.
    destruct (coord_labels var) as [|v values]; [discriminate Hl|].
    cbn [mbind result_bind] in Hl. injection Hl as <-.
    exists (List.last values v). split; [exact Hvar|].
    split; [reflexivity | apply last_cons_some].
Qed.

(** A range of values. For a text [a/b] given for a dimension, the part
    before the first [/] and the rest are parsed as the element type of
    the coordinate variable asks (a float, an integer or a point in time);
    the label is the slice from the one value to the other where slices
    are allowed, and the value in the middle otherwise, rounded down on
    an integer dimension. A dimension of another element type takes no
    such text. *)
Theorem parse_non_spatial_labels_range raw_labels (dims : list string)
  coords (allow_slices : bool) (exception_type : string -> exn) parsed
  (d : string) l var (sa sb : string) :
  parse raw_labels dims coords allow_slices exception_type = Ok parsed ->
  assoc d parsed = Some l ->
  coords !! d = Some var ->
  raw_labels !! d = Some (sa +:+ "/" +:+ sb) ->
  slash_free sa = true ->
  match cv_values var with
  | FloatCoords _ =>
      exists a b : scalar,
        float_of_str sa = Some a /\ float_of_str sb = Some b /\
        l = if allow_slices then Slice (FloatValue a) (FloatValue b)
            else Single (FloatValue (float_midpoint a b))
  | IntCoords _ =>
      exists a b : Z,
        int_of_str sa = Some a /\ int_of_str sb = Some b /\
        l = if allow_slices then Slice (IntValue a) (IntValue b)
            else Single (IntValue (a + (b - a) / 2))
  | TimeCoords values =>
      exists a b : Time,
        to_datetime pd_to_datetime values sa = Ok a /\
        to_datetime pd_to_datetime values sb = Ok b /\
        l = if allow_slices then Slice (TimeValue a) (TimeValue b)
            else Single (TimeValue (time_midpoint a b))
  | OtherCoords _ _ => False
  end.
Proof.
  unfold parse_non_spatial_labels. intros Hparse Hd Hvar Hraw Hfree.
  destruct (get_dataset_xy_var_names coords) as [names|]; [|discriminate].
  destruct (xy_dims_of coords names) as [xy|e]; [|discriminate].
  cbn [mbind result_bind] in Hparse.
  destruct (loop_values _ _ _ _ _ _ _ _ _ _ _ _ Hparse d l Hd)
    as [Hnil | [_ [_ (var' & Hvar' & Hl)]]]; [discriminate Hnil|].
  rewrite Hvar in Hvar'. injection Hvar' as <-.
  rewrite Hraw in Hl. unfold parse_label in Hl.
  unfold parse_label_attempt in Hl.
  rewrite (split_once_not_current sa sb Hfree) in Hl.
  rewrite (split_once_concat sa sb Hfree) in Hl.
  destruct (cv_values var) as [fs|zs|ts|r os]; cbn [map_result] in Hl.
  - unfold py_float in Hl.
    destruct (float_of_str sa) as [a|]; [|discriminate Hl].
    destruct (float_of_str sb) as [b|]; [|discriminate Hl].
    exists a, b. split; [reflexivity|]. split; [reflexivity|].
    cbn [mbind result_bind select_label] in Hl.
    destruct allow_slices; now injection Hl as <-.
  - unfold py_int in Hl.
    destruct (int_of_str sa) as [a|]; [|discriminate Hl].
    destruct (int_of_str sb) as [b|]; [|discriminate Hl].
    exists a, b. split; [reflexivity|]. split; [reflexivity|].
    cbn [mbind result_bind select_label] in Hl.
    destruct allow_slices; now injection Hl as <-.
  - destruct (to_datetime pd_to_datetime ts sa) as [a|ea];
      [|destruct ea; discriminate Hl].
    destruct (to_datetime pd_to_datetime ts sb) as [b|eb];
      [|destruct eb; discriminate Hl].
    exists a, b. split; [reflexivity|]. split; [reflexivity|].
    cbn [mbind result_bind select_label] in Hl.
    destruct allow_slices; now injection Hl as <-.
  - destruct (exception_type _); discriminate Hl.
Qed.

(** Every [ValueError] is made by [exception_type]. Whatever goes wrong
    in a parser, a [ValueError] that [parse_non_spatial_labels] raises is
    the exception that [exception_type] makes of one of two messages:
    that the spatial coordinates are missing, or that the text given for
    a dimension is not a valid value for that dimension. In particular
    the message about a value that cannot be parsed into the element type
    is replaced by the second one when [exception_type] is [ValueError]
    itself. *)
Theorem parse_non_spatial_labels_value_errors raw_labels
  (dims : list string) coords (allow_slices : bool)
  (exception_type : string -> exn) (e : exn) :
  parse raw_labels dims coords allow_slices exception_type = Raise e ->
  is_ValueError e = true ->
  exists msg : string,
    e = exception_type msg /\
    (msg = "missing spatial coordinates" \/
     exists d : string,
       In d dims /\
       msg = repr_label_str (raw_labels !! d)
               +:+ " is not a valid value for dimension " +:+ repr_str d).
Proof.
  unfold parse_non_spatial_labels. intros Hparse He.
  destruct (get_dataset_xy_var_names coords) as [names|].
  - destruct (xy_dims_of coords names) as [xy|e'] eqn:Hxy;
      cbn [mbind result_bind] in Hparse.
    + destruct (loop_raises _ _ _ _ _ _ _ _ Hparse He) as (d & Hin & ->).
      eexists. split; [reflexivity|]. right. exists d. now split.
    + injection Hparse as ->. apply xy_dims_of_raises in Hxy. congruence.
  - injection Hparse as <-. eexists. split; [reflexivity|]. now left.
Qed.

(** Texts for other dimensions are ignored. A text given for a name that
    is none of the dimensions, or for a spatial dimension, changes
    neither the labels returned nor the exception raised: it is not
    looked at. *)
Theorem parse_non_spatial_labels_ignores_other_labels raw_labels
  (dims : list string) coords (allow_slices : bool)
  (exception_type : string -> exn) (name text : string) :
  ~ In name dims \/
  (exists (xy_var_names : string * string) (xy_dims : list string),
      get_dataset_xy_var_names coords = Some xy_var_names /\
      xy_dims_of coords xy_var_names = Ok xy_dims /\
      In name xy_dims) ->
  parse (<[name := text]> raw_labels) dims coords allow_slices exception_type
  = parse raw_labels dims coords allow_slices exception_type.
Proof.
  intros Hname. unfold parse_non_spatial_labels.
  destruct (get_dataset_xy_var_names coords) as [names|] eqn:Hnames;
    [|reflexivity].
  destruct (xy_dims_of coords names) as [xy|e] eqn:Hxy; [|reflexivity].
  cbn [mbind result_bind]. apply for_each_ext_in. intros acc d Hd.
  unfold parse_labels_step.
  destruct (bool_decide (d ∈ xy)) eqn:Hmember; [reflexivity|].
  rewrite lookup_insert_ne; [reflexivity|]. intros <-.
  destruct Hname as [Hname | (names' & xy' & Hn & Hx & Hin)].
  - contradiction.
  - injection Hn as <-. rewrite Hxy in Hx. injection Hx as <-.
    apply bool_decide_eq_false in Hmember. apply Hmember.
    now apply list_elem_of_In.
Qed.

End LabelsProps.

Lemma parse_non_spatial_labels_keys_witness :
  exists (xy_var_names : string * string) (xy_dims : list string),
    ToyLabels.xy_var_names ToyLabels.coords = Some xy_var_names /\
    xy_dims_of ToyLabels.coords xy_var_names = Ok xy_dims /\
    map fst [("time", @Single Z string (TimeValue 100));
             ("depth", Single (IntValue 17))]
    = List.filter (fun d => negb (bool_decide (d ∈ xy_dims)))
        ["time"; "depth"; "lat"; "lon"].
Proof.
  apply (parse_non_spatial_labels_keys ToyLabels.float_of_str
           ToyLabels.int_of_str ToyLabels.pd_to_datetime
           ToyLabels.time_midpoint ToyLabels.xy_var_names
           (<["depth" := "10/25"]> (<["lat" := "3"]> ∅))
           ["time"; "depth"; "lat"; "lon"] ToyLabels.coords false
           ValueError).
  - vm_compute. reflexivity.
  - repeat (constructor; [cbn; intuition discriminate|]). constructor.
Defined.

Lemma parse_non_spatial_labels_defaults_witness :
  exists (var : @CoordVar Z string) (v : @label_value Z string),
    ToyLabels.coords !! "time" = Some var /\
    Single (TimeValue 300) = Single v /\
    match (<["time" := "current"]> ∅ : gmap string string) !! "time" with
    | Some _ => last (coord_labels var)
    | None => head (coord_labels var)
    end = Some v.
Proof.
  apply (parse_non_spatial_labels_defaults ToyLabels.float_of_str
           ToyLabels.int_of_str ToyLabels.pd_to_datetime
           ToyLabels.time_midpoint ToyLabels.xy_var_names
           (<["time" := "current"]> ∅)
           ["time"; "level"; "lat"; "lon"] ToyLabels.coords false
           TypeError
           [("time", Single (TimeValue 300));
            ("level", Single (FloatValue (SNum 1)))]
           "time").
  - vm_compute. reflexivity.
  - reflexivity.
  - right. reflexivity.
Defined.

Lemma parse_non_spatial_labels_range_witness :
  exists a b : Z,
    ToyLabels.int_of_str "10" = Some a /\
    ToyLabels.int_of_str "25" = Some b /\
    @Single Z string (IntValue 17)
    = if false then Slice (IntValue a) (IntValue b)
      else Single (IntValue (a + (b - a) / 2)).
Proof.
  apply (parse_non_spatial_labels_range ToyLabels.float_of_str
           ToyLabels.int_of_str ToyLabels.pd_to_datetime
           ToyLabels.time_midpoint ToyLabels.xy_var_names
           (<["depth" := "10/25"]> (<["lat" := "3"]> ∅))
           ["time"; "depth"; "lat"; "lon"] ToyLabels.coords false
           ValueError
           [("time", Single (TimeValue 100));
            ("depth", Single (IntValue 17))]
           "depth" (Single (IntValue 17))
           (mk_CoordVar ["depth"] (IntCoords [0; 10; 25])) "10" "25").
  - vm_compute. reflexivity.
  - reflexivity.
  - reflexivity.
  - reflexivity.
  - reflexivity.
Defined.

Lemma parse_non_spatial_labels_value_errors_witness :
  exists msg : string,
    ValueError "'r' is not a valid value for dimension 'band'"
    = ValueError msg /\
    (msg = "missing spatial coordinates" \/
     exists d : string,
       In d ["band"; "lat"; "lon"] /\
       msg = repr_label_str ((<["band" := "r"]> ∅ : gmap string string) !! d)
               +:+ " is not a valid value for dimension " +:+ repr_str d).
Proof.
  apply (parse_non_spatial_labels_value_errors ToyLabels.float_of_str
           ToyLabels.int_of_str ToyLabels.pd_to_datetime
           ToyLabels.time_midpoint ToyLabels.xy_var_names
           (<["band" := "r"]> ∅) ["band"; "lat"; "lon"] ToyLabels.coords
           false ValueError).
  - vm_compute. reflexivity.
  - reflexivity.
Defined.

Lemma parse_non_spatial_labels_ignores_other_labels_witness :
  ToyLabels.parse (<["lat" := "3"]> (<["depth" := "10/25"]> ∅))
    ["time"; "depth"; "lat"; "lon"] false ValueError
  = ToyLabels.parse (<["depth" := "10/25"]> ∅)
      ["time"; "depth"; "lat"; "lon"] false ValueError.
Proof.
  apply (parse_non_spatial_labels_ignores_other_labels
           ToyLabels.float_of_str ToyLabels.int_of_str
           ToyLabels.pd_to_datetime ToyLabels.time_midpoint
           ToyLabels.xy_var_names (<["depth" := "10/25"]> ∅)
           ["time"; "depth"; "lat"; "lon"] ToyLabels.coords false
           ValueError "lat" "3").
  right. exists ("lon", "lat"), ["lon"; "lat"].
  split; [reflexivity|]. split; [reflexivity|]. cbn. tauto.
Defined.

(** * The verification of [xcube/core/verify.py] *)

Lemma core_check_coord_var_bounded (ds : Dataset) (name : string)
  (report : list string) :
  CoreVerify.bounded_coord ds name ->
  CoreVerify._check_coord_var ds name report = (report, None).
Proof.
  intros (var & bnds_var & bnds_dim & Hvar & Hdims & Hsize & Hbnds & Hbdims
          & Hshape & Hdtype).
  unfold CoreVerify._check_coord_var. rewrite Hvar, Hdims.
  unfold names_eqb. rewrite bool_decide_eq_true_2 by reflexivity.
  cbn [negb]. destruct (Nat.eqb_spec (da_size var) 0) as [E|_];
    [contradiction|].
  rewrite Hbnds, Hbdims, Hshape, Hdtype.
  unfold CoreVerify.bounds_dims_differ, shape_eqb.
  rewrite String.eqb_refl, bool_decide_eq_true_2 by reflexivity.
  destruct (da_dtype var); reflexivity.
Qed.

Lemma core_check_time_bounded (ds : Dataset) (name : string)
  (report : list string) :
  CoreVerify.bounded_coord ds name ->
  CoreVerify._check_time ds name report = report.
Proof.
  intros Hbounded. unfold CoreVerify._check_time.
  now rewrite (core_check_coord_var_bounded ds name report Hbounded).
Qed.

Lemma core_check_lon_or_lat_bounded (ds : Dataset) (name : string)
  (min_value max_value : Z) (report : list string) :
  CoreVerify.bounded_coord ds name ->
  CoreVerify._check_lon_or_lat ds name min_value max_value report = report.
Proof.
  intros Hbounded. unfold CoreVerify._check_lon_or_lat.
  now rewrite (core_check_coord_var_bounded ds name report Hbounded).
Qed.

(** A coordinate that has a well-formed bounds variable is not looked at.
    [_check_coord_var] returns [None] once it has examined the bounds
    variable, so for such a coordinate [_check_time] and
    [_check_lon_or_lat] add nothing to the report, whatever the values and
    the element type of the coordinate are: times that are not of type
    [datetime64] or not increasing, and longitudes or latitudes out of
    range, go unreported. *)
Theorem core_checks_skip_bounded_coordinates (ds : Dataset) (name : string)
  (min_value max_value : Z) (report : list string) :
  CoreVerify.bounded_coord ds name ->
  CoreVerify._check_time ds name report = report /\
  CoreVerify._check_lon_or_lat ds name min_value max_value report = report.
Proof.
  intros Hbounded. split.
  - exact (core_check_time_bounded ds name report Hbounded).
  - exact (core_check_lon_or_lat_bounded ds name min_value max_value report
             Hbounded).
Qed.

Lemma core_checks_skip_bounded_coordinates_witness :
  CoreVerify._check_time CoreVerify.cube_out_of_range "time" [] = [] /\
  CoreVerify._check_lon_or_lat CoreVerify.cube_out_of_range "time"
    (-180) 180 [] = [].
Proof.
  apply (core_checks_skip_bounded_coordinates CoreVerify.cube_out_of_range
           "time" (-180) 180 []).
  exists (mk_DataArray ["time"] [2%nat] Float64 None None [7%Q; 3%Q]),
    (mk_DataArray ["time"; "bnds"] [2%nat; 2%nat] Float64 None None
       [8%Q; 6%Q; 4%Q; 2%Q]),
    "bnds".
  repeat split; try reflexivity. discriminate.
Defined.

Lemma core_data_variables_rest (time_dim y_dim x_dim first_name : string)
  (first_var : DataArray scalar) (vars : list (string * DataArray scalar))
  (report : list string) :
  CoreVerify.cube_dims_ok time_dim y_dim x_dim (da_dims first_var) = true ->
  Forall (fun entry =>
            da_dims (snd entry) = da_dims first_var /\
            da_chunks (snd entry) = da_chunks first_var) vars ->
  CoreVerify._check_data_variables_loop time_dim y_dim x_dim vars
    (Some (first_name, first_var)) report = report.
Proof.
  intros Hfirst Hvars. induction Hvars as [|[n v] vars [Hd Hc] _ IH].
  - reflexivity.
  - cbn [CoreVerify._check_data_variables_loop]. cbn [snd] in Hd, Hc.
    rewrite Hd, Hc, Hfirst. unfold names_eqb, chunks_eqb.
    rewrite !bool_decide_eq_true_2 by reflexivity. exact IH.
Qed.

Lemma core_dims_of_bounded (ds : Dataset) (name : string) :
  CoreVerify.bounded_coord ds name -> CoreVerify.dims_of ds name = Ok [name].
Proof.
  intros (var & _ & _ & Hvar & Hdims & _). unfold CoreVerify.dims_of.
  now rewrite Hvar, Hdims.
Qed.

(** What the verification accepts. A dataset whose time and spatial
    coordinates are found and have well-formed bounds variables, and whose
    data variables have the dimensions [(time, ..., y, x)] and agree in
    dimensions and chunk sizes, gets an empty report from [verify_cube],
    whatever the values of the coordinates are and whether the dataset is
    geographic or not. *)
Theorem core_verify_cube_accepts
  (get_dataset_xy_var_names : Dataset -> option (string * string))
  (get_dataset_time_var_name : Dataset -> option string)
  (is_lon_lat_dataset : Dataset -> string * string -> bool)
  (ds : Dataset) (x_name y_name time_name : string) :
  get_dataset_xy_var_names ds = Some (x_name, y_name) ->
  get_dataset_time_var_name ds = Some time_name ->
  time_name <> "" ->
  CoreVerify.bounded_coord ds time_name ->
  CoreVerify.bounded_coord ds x_name ->
  CoreVerify.bounded_coord ds y_name ->
  CoreVerify.uniform_data_variables ds time_name y_name x_name ->
  CoreVerify.verify_cube get_dataset_xy_var_names
    get_dataset_time_var_name is_lon_lat_dataset ds = Ok [].
Proof.
  intros Hxy Htime Hname Ht Hx Hy Hvars. unfold CoreVerify.verify_cube.
  rewrite Hxy, Htime. unfold CoreVerify.name_truthy.
  destruct (String.eqb_spec time_name "") as [E|_]; [contradiction|].
  cbn [negb app fst snd].
  rewrite (core_check_time_bounded ds time_name [] Ht).
  assert (Hspatial :
            (if is_lon_lat_dataset ds (x_name, y_name)
             then CoreVerify._check_lon_or_lat ds y_name (-90) 90
                    (CoreVerify._check_lon_or_lat ds x_name (-180) 180 [])
             else []) = []).
  { destruct (is_lon_lat_dataset ds (x_name, y_name)); [|reflexivity].
    rewrite (core_check_lon_or_lat_bounded ds x_name (-180) 180 [] Hx).
    exact (core_check_lon_or_lat_bounded ds y_name (-90) 90 [] Hy). }
  rewrite Hspatial. unfold CoreVerify._check_data_variables.
  rewrite (core_dims_of_bounded ds x_name Hx),
    (core_dims_of_bounded ds y_name Hy),
    (core_dims_of_bounded ds time_name Ht).
  cbn [mbind result_bind CoreVerify.first_dim_of]. f_equal.
  unfold CoreVerify.uniform_data_variables in Hvars.
  destruct (ds_data_vars ds) as [|[n v] vars]; [reflexivity|].
  destruct Hvars as [Hfirst Hrest].
  cbn [CoreVerify._check_data_variables_loop]. rewrite Hfirst. cbn [negb].
  now apply core_data_variables_rest.
Qed.

Lemma core_verify_cube_accepts_witness :
  CoreVerify.verify_cube (fun _ => Some ("lon", "lat"))
    (fun _ => Some "time") (fun _ _ => true) CoreVerify.cube_out_of_range
  = Ok [].
Proof.
  apply (core_verify_cube_accepts (fun _ => Some ("lon", "lat"))
           (fun _ => Some "time") (fun _ _ => true)
           CoreVerify.cube_out_of_range "lon" "lat" "time").
  - reflexivity.
  - reflexivity.
  - discriminate.
  - exists (mk_DataArray ["time"] [2%nat] Float64 None None [7%Q; 3%Q]),
      (mk_DataArray ["time"; "bnds"] [2%nat; 2%nat] Float64 None None
         [8%Q; 6%Q; 4%Q; 2%Q]),
      "bnds".
    repeat split; try reflexivity. discriminate.
  - exists (mk_DataArray ["lon"] [1%nat] Float64 None None [500%Q]),
      (mk_DataArray ["lon"; "bnds"] [1%nat; 2%nat] Float64 None None
         [400%Q; 600%Q]),
      "bnds".
    repeat split; try reflexivity. discriminate.
  - exists (mk_DataArray ["lat"] [1%nat] Float64 None None [1000%Q]),
      (mk_DataArray ["lat"; "bnds"] [1%nat; 2%nat] Float64 None None
         [900%Q; 1100%Q]),
      "bnds".
    repeat split; try reflexivity. discriminate.
  - split; [reflexivity | constructor].
Defined.

(** * Chunk offsets *)

Lemma elements_before_S (i : nat) (dim_chunks : list nat) :
  (i < length dim_chunks)%nat ->
  elements_before (S i) dim_chunks
  = (elements_before i dim_chunks + nth i dim_chunks 0)%nat.
Proof.
  unfold elements_before. revert i.
  induction dim_chunks as [|c cs IH]; intros i Hi; [simpl in Hi; lia|].
  destruct i as [|i].
  - destruct cs; cbn; lia.
  - change (firstn (S (S i)) (c :: cs)) with (c :: firstn (S i) cs).
    change (firstn (S i) (c :: cs)) with (c :: firstn i cs).
    cbn [fold_right nth]. rewrite IH by (simpl in Hi; lia). lia.
Qed.

Lemma elements_before_le (i : nat) (dim_chunks : list nat) :
  (elements_before i dim_chunks
   <= elements_before (length dim_chunks) dim_chunks)%nat.
Proof.
  unfold elements_before. revert i.
  induction dim_chunks as [|c cs IH]; intros i.
  - destruct i; cbn; lia.
  - destruct i as [|i]; [cbn; lia|].
    change (firstn (S i) (c :: cs)) with (c :: firstn i cs).
    change (firstn (length (c :: cs)) (c :: cs))
      with (c :: firstn (length cs) cs).
    cbn [fold_right]. specialize (IH i). lia.
Qed.

Lemma wrap_int64_small (z : Z) :
  (0 <= z < 2 ^ 63)%Z -> wrap_int64 z = z.
Proof.
  intros Hz. unfold wrap_int64.
  rewrite Z.mod_small by lia. lia.
Qed.

(** The state of the loop after [k] passes: the entries up to [k] are
    filled in. *)
Lemma chunk_loop_invariant (dim_chunks : list nat) (k : nat) :
  (Z.of_nat (elements_before (length dim_chunks) dim_chunks) < 2 ^ 63)%Z ->
  (k <= length dim_chunks)%nat ->
  let dim_indexes :=
    fold_left
      (fun (dim_indexes : list Z) (i : nat) =>
         <[S i := wrap_int64 (nth i dim_indexes 0%Z
                              + Z.of_nat (nth i dim_chunks 0%nat))]>
           dim_indexes)
      (seq 0 k) (replicate (S (length dim_chunks)) 0%Z) in
  length dim_indexes = S (length dim_chunks) /\
  forall j : nat,
    (j <= k)%nat ->
    dim_indexes !! j = Some (Z.of_nat (elements_before j dim_chunks)).
Proof.
  intros Hsum. induction k as [|k IH]; intros Hk.
  - cbn [seq fold_left]. split; [apply length_replicate|].
    intros j Hj. assert (j = 0%nat) as -> by lia. reflexivity.
  - rewrite seq_S, fold_left_app. cbn [fold_left plus].
    destruct IH as [Hlen Hprefix]; [lia|].
    set (arr := fold_left _ (seq 0 k) _) in *.
    split; [now rewrite length_insert|].
    intros j Hj. destruct (Nat.eq_dec j (S k)) as [-> | Hne].
    + rewrite list_lookup_insert_eq by lia. f_equal.
      rewrite (nth_lookup_Some _ _ 0%Z _ (Hprefix k (Nat.le_refl k))).
      rewrite elements_before_S by lia.
      pose proof (elements_before_le (S k) dim_chunks) as Hle.
      rewrite elements_before_S in Hle by lia.
      rewrite wrap_int64_small by lia. lia.
    + rewrite list_lookup_insert_ne by lia. apply Hprefix. lia.
Qed.

Lemma chunk_numbers_lookup (n j : nat) :
  (j <= n)%nat -> chunk_numbers n !! j = Some (Z.of_nat j).
Proof.
  intros Hj. unfold chunk_numbers. rewrite lookup_map.
  destruct n as [|n].
  - assert (j = 0%nat) as -> by lia. reflexivity.
  - assert (Hlen : (j < length (linspace 0 (inject_Z (Z.of_nat (S n)))
                                  (S (S n))))%nat)
      by (rewrite linspace_length; lia).
    destruct (linspace 0 (inject_Z (Z.of_nat (S n))) (S (S n)) !! j)
      as [r|] eqn:Hr; [|apply lookup_ge_None in Hr; lia].
    cbn [option_map]. f_equal.
    pose proof (linspace_nth (S n) j) as Hnth.
    rewrite (nth_lookup_Some _ _ 0%Q _ Hr) in Hnth.
    assert (Heq : (r == inject_Z (Z.of_nat j))%Q) by (apply Hnth; lia).
    apply astype_int64_floor; [lia | |].
    + rewrite Heq. apply Qle_refl.
    + rewrite Heq, <- Zlt_Qlt. lia.
Qed.

(** The arrays of one dimension pair the offset at which each chunk starts
    with the number of the chunk. For chunk sizes whose sum fits [int64],
    both arrays of the pair that [_get_chunk_interp_arrays] makes for a
    dimension of [n] chunks have [n + 1] entries; entry [j] of the first is
    the number of elements before chunk [j] (the last entry being the size
    of the dimension), and entry [j] of the second is [j]. *)
Theorem _get_chunk_interp_arrays_offsets (chunks : list (list nat))
  (d : nat) (dim_chunks : list nat) :
  chunks !! d = Some dim_chunks ->
  (Z.of_nat (elements_before (length dim_chunks) dim_chunks) < 2 ^ 63)%Z ->
  exists dim_indexes numbers : list Z,
    _get_chunk_interp_arrays chunks !! d = Some (dim_indexes, numbers) /\
    length dim_indexes = S (length dim_chunks) /\
    length numbers = S (length dim_chunks) /\
    forall j : nat,
      (j <= length dim_chunks)%nat ->
      dim_indexes !! j = Some (Z.of_nat (elements_before j dim_chunks)) /\
      numbers !! j = Some (Z.of_nat j).
Proof.
  intros Hd Hsum.
  exists (chunk_dim_indexes dim_chunks), (chunk_numbers (length dim_chunks)).
  pose proof (chunk_loop_invariant dim_chunks (length dim_chunks) Hsum
                (Nat.le_refl _)) as [Hlen Hprefix].
  split; [|split; [exact Hlen | split]].
  - unfold _get_chunk_interp_arrays. rewrite lookup_map, Hd. reflexivity.
  - unfold chunk_numbers. now rewrite length_map, linspace_length.
  - intros j Hj. split; [exact (Hprefix j Hj)|].
    now apply chunk_numbers_lookup.
Qed.

Lemma _get_chunk_interp_arrays_offsets_witness :
  exists dim_indexes numbers : list Z,
    _get_chunk_interp_arrays [[2; 2; 1]; [3; 3]]%nat !! 0%nat
    = Some (dim_indexes, numbers) /\
    length dim_indexes = 4%nat /\
    length numbers = 4%nat /\
    forall j : nat,
      (j <= 3)%nat ->
      dim_indexes !! j
      = Some (Z.of_nat (elements_before j [2; 2; 1]%nat)) /\
      numbers !! j = Some (Z.of_nat j).
Proof.
  apply (_get_chunk_interp_arrays_offsets [[2; 2; 1]; [3; 3]]%nat 0%nat
           [2; 2; 1]%nat).
  - reflexivity.
  - vm_compute. reflexivity.
Defined.

(** * The columns of the help text *)

Lemma string_length_append (a b : string) :
  String.length (a +:+ b) = (String.length a + String.length b)%nat.
Proof.
  induction a as [|c a IH]; [reflexivity|].
  change (String c a +:+ b) with (String c (a +:+ b)).
  cbn [String.length plus]. now rewrite IH.
Qed.

Lemma string_append_assoc (a b c : string) :
  (a +:+ b) +:+ c = a +:+ (b +:+ c).
Proof.
  induction a as [|x a IH]; [reflexivity|].
  change ((String x a +:+ b) +:+ c) with (String x ((a +:+ b) +:+ c)).
  change (String x a +:+ (b +:+ c)) with (String x (a +:+ (b +:+ c))).
  now rewrite IH.
Qed.

Lemma string_append_empty (a : string) : a +:+ "" = a.
Proof.
  induction a as [|x a IH]; [reflexivity|].
  change (String x a +:+ "") with (String x (a +:+ "")). now rewrite IH.
Qed.

Lemma spaces_length (n : nat) : String.length (spaces n) = n.
Proof. induction n as [|n IH]; cbn; [reflexivity | now rewrite IH]. Qed.

Lemma input_processor_lines (ps : list InputProcessor) (help_text : string) :
  fold_left
    (fun help_text input_processor =>
       let fill := spaces (34 - String.length (ip_name input_processor)) in
       help_text +:+ ("  " +:+ ip_name input_processor +:+ fill
                        +:+ ip_description input_processor +:+ newline))
    ps help_text
  = help_text
      +:+ unlines
            (zip_with3 help_line
               (map (fun p => "  " +:+ ip_name p
                                +:+ spaces (34 - String.length (ip_name p)))
                    ps)
               (map ip_description ps)).
Proof.
  revert help_text. induction ps as [|p ps IH]; intros help_text.
  - cbn. now rewrite string_append_empty.
  - cbn [fold_left map zip_with3 unlines]. rewrite IH. unfold help_line.
    now rewrite !string_append_assoc.
Qed.

Lemma dataset_io_lines (ios : list DatasetIO) (help_text : string) :
  fold_left
    (fun help_text ds_io =>
       let fill1 := spaces (24 - String.length (io_name ds_io)) in
       let fill2 := spaces (10 - String.length (io_ext ds_io)) in
       help_text +:+ ("  " +:+ io_name ds_io +:+ fill1
                        +:+ "(*." +:+ io_ext ds_io +:+ ")" +:+ fill2
                        +:+ io_description ds_io +:+ newline))
    ios help_text
  = help_text
      +:+ unlines
            (zip_with3 help_line
               (map (fun io =>
                       ("  " +:+ io_name io
                          +:+ spaces (24 - String.length (io_name io)))
                       +:+ ("(*." +:+ io_ext io +:+ ")"
                              +:+ spaces (10 - String.length (io_ext io))))
                    ios)
               (map io_description ios)).
Proof.
  revert help_text. induction ios as [|io ios IH]; intros help_text.
  - cbn. now rewrite string_append_empty.
  - cbn [fold_left map zip_with3 unlines]. rewrite IH. unfold help_line.
    now rewrite !string_append_assoc.
Qed.

(** The help text lists the input processors one per line, in their
    order; a line is the name after two spaces, padded with spaces, and
    then the description. The description starts in the same column, after
    36 characters, for every name of at most 34 characters; after a longer
    name it follows at once, without a space between them. The lines of
    the dataset writers are made alike, with the extension in parentheses
    after 26 characters and the description after 40, for names of at
    most 24 and extensions of at most 10 characters. *)
Theorem help_text_columns :
  (forall input_processors : list InputProcessor,
      exists lefts : list string,
        _format_input_processors input_processors
        = unlines (zip_with3 help_line lefts
                     (map ip_description input_processors)) /\
        Forall2
          (fun left p =>
             left = "  " +:+ ip_name p
                      +:+ spaces (34 - String.length (ip_name p)) /\
             String.length left
             = Nat.max 36 (2 + String.length (ip_name p)))
          lefts input_processors) /\
  (forall dataset_ios : list DatasetIO,
      exists lefts : list string,
        _format_dataset_ios dataset_ios
        = unlines (zip_with3 help_line lefts
                     (map io_description dataset_ios)) /\
        Forall2
          (fun left io =>
             exists name_part ext_part : string,
               left = name_part +:+ ext_part /\
               String.length name_part
               = Nat.max 26 (2 + String.length (io_name io)) /\
               String.length ext_part
               = Nat.max 14 (4 + String.length (io_ext io)))
          lefts dataset_ios).
Proof.
  split.
  - intros ps.
    exists (map (fun p => "  " +:+ ip_name p
                            +:+ spaces (34 - String.length (ip_name p))) ps).
    split.
    + unfold _format_input_processors.
      rewrite (input_processor_lines ps). reflexivity.
    + induction ps as [|p ps IH]; constructor; [|exact IH].
      split; [reflexivity|].
      rewrite !string_length_append, spaces_length. cbn [String.length]. lia.
  - intros ios.
    exists (map (fun io =>
                   ("  " +:+ io_name io
                      +:+ spaces (24 - String.length (io_name io)))
                   +:+ ("(*." +:+ io_ext io +:+ ")"
                          +:+ spaces (10 - String.length (io_ext io)))) ios).
    split.
    + unfold _format_dataset_ios.
      rewrite (dataset_io_lines ios). reflexivity.
    + induction ios as [|io ios IH]; constructor; [|exact IH].
      eexists _, _. split; [reflexivity|].
      rewrite !string_length_append, !spaces_length. cbn [String.length].
      split; lia.
Qed.

(** * The columns of the dump of an encoding *)

Lemma max_len_loop (encoding : list (string * string)) (m : nat) :
  fold_left (fun max_len (entry : string * string) =>
               Nat.max max_len (String.length (fst entry)))
    encoding m
  = Nat.max m (longest_key encoding).
Proof.
  revert m. induction encoding as [|e encoding IH]; intros m.
  - cbn. lia.
  - cbn [fold_left longest_key fold_right]. rewrite IH.
    fold (longest_key encoding). lia.
Qed.

Lemma longest_key_bound (encoding : list (string * string))
  (entry : string * string) :
  In entry encoding ->
  (String.length (fst entry) <= longest_key encoding)%nat.
Proof.
  induction encoding as [|e encoding IH]; intros Hin; [contradiction|].
  cbn [longest_key fold_right]. fold (longest_key encoding).
  destruct Hin as [-> | Hin]; [lia|]. specialize (IH Hin). lia.
Qed.

Lemma dump_lines_loop (line : string * string -> string)
  (encoding : list (string * string)) (lines : list string) :
  fold_left (fun lines entry => lines ++ [line entry]) encoding lines
  = lines ++ map line encoding.
Proof.
  revert lines. induction encoding as [|e encoding IH]; intros lines.
  - cbn. now rewrite app_nil_r.
  - cbn [fold_left map]. rewrite IH. now rewrite <- app_assoc.
Qed.

Lemma lines_of_lefts {A : Type} (left : A * string -> string)
  (l : list (A * string)) :
  map (fun entry => help_line (left entry) (snd entry)) l
  = zip_with3 help_line (map left l) (map snd l).
Proof.
  induction l as [|e l IH]; [reflexivity|].
  cbn [map zip_with3]. now rewrite IH.
Qed.

(** The dump has the header and then one line per entry of the encoding,
    in its order: the key after the indentation, a colon, spaces, and the
    value. The values all start in the same column, two characters after
    the colon of the longest key. *)
Theorem dump_var_encoding_columns (encoding : list (string * string))
  (header : string) (indent : Z) :
  let column := (Z.to_nat indent + longest_key encoding + 3)%nat in
  exists lefts : list string,
    dump_var_encoding encoding header indent
    = join newline
        (header :: zip_with3 help_line lefts (map snd encoding)) /\
    Forall2
      (fun left (entry : string * string) =>
         (exists fill : nat,
             left = spaces (Z.to_nat indent) +:+ fst entry +:+ ":"
                      +:+ spaces fill) /\
         String.length left = column)
      lefts encoding.
Proof.
  intros column.
  set (left_of := fun entry : string * string =>
         spaces (Z.to_nat indent) +:+ fst entry +:+ ":"
           +:+ spaces (2 + longest_key encoding
                       - String.length (fst entry))).
  exists (map left_of encoding). split.
  - unfold dump_var_encoding. rewrite max_len_loop. cbn [Nat.max].
    rewrite (dump_lines_loop
               (fun entry => spaces (Z.to_nat indent) +:+ fst entry +:+ ":"
                  +:+ spaces (2 + longest_key encoding
                              - String.length (fst entry))
                  +:+ snd entry)).
    cbn [app]. f_equal. f_equal.
    rewrite <- (lines_of_lefts left_of encoding). apply map_ext.
    intros entry. unfold help_line, left_of.
    now rewrite !string_append_assoc.
  - assert (Hall : forall entry, In entry encoding ->
               (exists fill : nat,
                   left_of entry
                   = spaces (Z.to_nat indent) +:+ fst entry +:+ ":"
                       +:+ spaces fill) /\
               String.length (left_of entry) = column).
    { intros entry Hin. split; [eexists; reflexivity|].
      pose proof (longest_key_bound encoding entry Hin) as Hle.
      unfold left_of, column.
      rewrite !string_length_append, !spaces_length.
      cbn [String.length]. lia. }
    clearbody left_of column. revert Hall.
    induction encoding as [|e encoding' IH]; intros Hall; constructor.
    + apply Hall. now left.
    + apply IH. intros entry Hin. apply Hall. now right.
Qed.
